(** * DetectaBB backend: verdict synthesis and submission gateway

    A shallow embedding of [src/ml/explainer.py] (the explanation
    synthesiser) and of the upload handler of [src/api/main.py], with
    the properties of the specification stated and settled over them.

    Layout:
    - [Py]        : JSON-shaped Python values, exceptions, the handful of
                    built-in operations the two modules use;
    - [Explainer] : [explainer.py], function by function;
    - [Api]       : [analisar_boleto] of [main.py] as a program over the
                    two external stores, with its interleaving semantics. *)

From Stdlib Require Import ZArith QArith Lia Permutation Sorted.
From Stdlib.Strings Require Import Ascii String Byte.
From stdpp Require Import base option list strings gmap pretty.

Open Scope string_scope.
Set Warnings "-register-all".

(* ================================================================== *)
(** * Python values *)
(* ================================================================== *)

Module Py.

(** The collaborator payloads are dict-shaped data: [None], booleans,
    integers, floats, strings, lists and dicts with string keys.  A dict
    is kept as an association list of distinct keys in insertion order,
    which is the order [items()] enumerates.  A float is represented by the rational
    it is exactly equal to (finite floats only), so that comparisons of
    floats are comparisons of rationals. *)
Inductive pyval : Type :=
| PNone
| PBool (b : bool)
| PInt (n : Z)
| PFloat (x : Q)
| PStr (s : string)
| PList (items : list pyval)
| PDict (entries : list (string * pyval)).

(** Exception classes.  [KeyboardInterrupt] stands for the classes that
    derive from [BaseException] but not from [Exception]; an
    [except Exception] clause lets them through. *)
Inductive excecao : Type :=
| AttributeError
| TypeError
| KeyError
| ValueError
| OverflowError
| KeyboardInterrupt.

Definition is_Exception (e : excecao) : bool :=
  match e with
  | KeyboardInterrupt => false
  | _ => true
  end.

(** A computation either returns or raises. *)
Inductive result (A : Type) : Type :=
| Ok (a : A)
| Raise (e : excecao).
Arguments Ok {A} a.
Arguments Raise {A} e.

Definition bind {A B} (m : result A) (f : A -> result B) : result B :=
  match m with
  | Ok a => f a
  | Raise e => Raise e
  end.

Declare Scope py_scope.
Delimit Scope py_scope with py.
Notation "'do' x <- m ; k" := (bind m (fun x => k))
  (at level 10, x name, m at level 100, k at level 200) : py_scope.
Open Scope py_scope.

(** [try: body / except Exception: handler]. *)
Definition try_except_Exception {A} (body : result A) (handler : excecao -> result A)
  : result A :=
  match body with
  | Ok a => Ok a
  | Raise e => if is_Exception e then handler e else Raise e
  end.

Definition raises {A} (m : result A) : Prop := exists e, m = Raise e.

(** ** Built-in operations *)

Fixpoint assoc {A} (k : string) (d : list (string * A)) : option A :=
  match d with
  | [] => None
  | (k', v) :: d' => if String.eqb k k' then Some v else assoc k d'
  end.

(** [d.get(k, default)]: only dicts have a [get] attribute. *)
Definition py_get (d : pyval) (k : string) (dflt : pyval) : result pyval :=
  match d with
  | PDict entries => Ok (default dflt (assoc k entries))
  | _ => Raise AttributeError
  end.

(** Truth value of an object, as tested by [if], [not] and [or]. *)
Definition py_truthy (v : pyval) : bool :=
  match v with
  | PNone => false
  | PBool b => b
  | PInt n => negb (n =? 0)%Z
  | PFloat x => negb (Qeq_bool x 0%Q)
  | PStr s => negb (String.eqb s "")
  | PList items => match items with [] => false | _ => true end
  | PDict entries => match entries with [] => false | _ => true end
  end.

(** The number an object denotes in arithmetic and comparisons
    ([bool] is a subclass of [int]). *)
Definition py_num (v : pyval) : option Q :=
  match v with
  | PBool b => Some (if b then 1 else 0)%Q
  | PInt n => Some (inject_Z n)
  | PFloat x => Some x
  | _ => None
  end.

(** [v >= c] for a numeric literal [c]; ordering a non-number against
    a number is a [TypeError]. *)
Definition py_ge (v : pyval) (c : Q) : result bool :=
  match py_num v with
  | Some x => Ok (Qle_bool c x)
  | None => Raise TypeError
  end.

(** Strings are UTF-8 byte sequences; Python counts and enumerates code
    points, i.e. the bytes that are not continuation bytes 10xxxxxx. *)
Definition is_continuation (a : ascii) : bool :=
  let n := N_of_ascii a in ((128 <=? n) && (n <? 192))%N.

Fixpoint code_points (s : string) : nat :=
  match s with
  | EmptyString => 0
  | String a s' => if is_continuation a then code_points s' else S (code_points s')
  end.

(** Splits off the continuation bytes that follow a lead byte. *)
Fixpoint take_continuation (s : string) : string * string :=
  match s with
  | String a s' =>
      if is_continuation a
      then let '(c, r) := take_continuation s' in (String a c, r)
      else (EmptyString, s)
  | EmptyString => (EmptyString, EmptyString)
  end.

Fixpoint chars_fuel (fuel : nat) (s : string) : list string :=
  match fuel with
  | O => []
  | S fuel' =>
      match s with
      | EmptyString => []
      | String a s' =>
          let '(c, r) := take_continuation s' in
          String a c :: chars_fuel fuel' r
      end
  end.

Definition chars (s : string) : list string := chars_fuel (String.length s) s.

(** [len(v)]. *)
Definition py_len (v : pyval) : result nat :=
  match v with
  | PStr s => Ok (code_points s)
  | PList items => Ok (length items)
  | PDict entries => Ok (length entries)
  | _ => Raise TypeError
  end.

(** [for x in v]: the elements of a list, the keys of a dict, the
    characters of a string. *)
Definition py_iter (v : pyval) : result (list pyval) :=
  match v with
  | PList items => Ok items
  | PDict entries => Ok (map (fun kv => PStr kv.1) entries)
  | PStr s => Ok (map PStr (chars s))
  | _ => Raise TypeError
  end.

Definition is_substring (needle hay : string) : bool :=
  match String.index 0 needle hay with
  | Some _ => true
  | None => false
  end.

Definition is_PStr (k : string) (v : pyval) : bool :=
  match v with
  | PStr s => String.eqb s k
  | _ => false
  end.

(** [k in v] for a string [k]. *)
Definition py_in (k : string) (v : pyval) : result bool :=
  match v with
  | PDict entries => Ok (bool_decide (is_Some (assoc k entries)))
  | PList items => Ok (existsb (is_PStr k) items)
  | PStr s => Ok (is_substring k s)
  | _ => Raise TypeError
  end.

(** [v[k]] for a string [k]: a dict is looked up, sequences reject a
    string index. *)
Definition py_getitem (v : pyval) (k : string) : result pyval :=
  match v with
  | PDict entries =>
      match assoc k entries with
      | Some x => Ok x
      | None => Raise KeyError
      end
  | _ => Raise TypeError
  end.

(** [v.items()]. *)
Definition py_items (v : pyval) : result (list (string * pyval)) :=
  match v with
  | PDict entries => Ok entries
  | _ => Raise AttributeError
  end.

(** Lists and dicts are unhashable and cannot be used as a dict key. *)
Definition py_hashable (v : pyval) : bool :=
  match v with
  | PList _ | PDict _ => false
  | _ => true
  end.

(** Sequencing of a loop body over the elements, stopping at the
    first exception. *)
Fixpoint for_each {A B} (f : A -> result B) (l : list A) : result (list B) :=
  match l with
  | [] => Ok []
  | x :: l' => do y <- f x; do ys <- for_each f l'; Ok (y :: ys)
  end.

(** The floats that the literals [0.8] and [0.6] denote. *)
Definition float_0_8 : Q := 3602879701896397 # 4503599627370496.
Definition float_0_6 : Q := 5404319552844595 # 9007199254740992.

(** Converting an [int] to a [float] overflows from the midpoint between
    the largest double and 2^1024 on. *)
Definition float_overflows (n : Z) : bool :=
  (2 ^ 1024 - 2 ^ 970 <=? Z.abs n)%Z.

End Py.

(* ================================================================== *)
(** * explainer.py *)
(* ================================================================== *)

Module Explainer.
Import Py.
Open Scope py_scope.

(** ** Translation and category tables *)

Record Traducao := {
  tr_simples : pyval;
  tr_avancado : pyval;
  tr_categoria : string
}.

Definition TRADUCOES_ERROS : list (string * Traducao) := [
  ("Primeiro dígito verificador do CNPJ inválido",
   {| tr_simples := PStr "CNPJ do beneficiário incorreto";
      tr_avancado := PStr "Primeiro dígito verificador do CNPJ não corresponde ao algoritmo da Receita Federal";
      tr_categoria := "dados_beneficiario" |});
  ("Segundo dígito verificador do CNPJ inválido",
   {| tr_simples := PStr "CNPJ do beneficiário incorreto";
      tr_avancado := PStr "Segundo dígito verificador do CNPJ não corresponde ao algoritmo da Receita Federal";
      tr_categoria := "dados_beneficiario" |});
  ("Código de barras não tem 44 dígitos",
   {| tr_simples := PStr "Código de barras inválido";
      tr_avancado := PStr "Código de barras não possui o tamanho padrão FEBRABAN (44 dígitos)";
      tr_categoria := "codigo_barras" |});
  ("DV do código de barras inválido",
   {| tr_simples := PStr "Código de barras adulterado";
      tr_avancado := PStr "Dígito verificador do código de barras não corresponde ao cálculo módulo 11";
      tr_categoria := "codigo_barras" |});
  ("Valor inconsistente",
   {| tr_simples := PStr "Valor do boleto suspeito";
      tr_avancado := PStr "Valor informado não corresponde ao valor codificado na linha digitável";
      tr_categoria := "valor" |})
].

Definition TRADUCOES_FEATURES : list (string * string) := [
  ("banco", "Código do banco");
  ("codigoBanco", "Código bancário FEBRABAN");
  ("agencia", "Número da agência");
  ("valor", "Valor do boleto");
  ("linha_codBanco", "Código do banco na linha digitável");
  ("linha_moeda", "Código da moeda");
  ("linha_valor", "Valor codificado")
].

Record Categoria := {
  cat_icone : string;
  cat_nome : string;
  cat_cor : string
}.

Definition CATEGORIAS : list (string * Categoria) := [
  ("dados_beneficiario",
   {| cat_icone := "🏢"; cat_nome := "Dados do Beneficiário"; cat_cor := "red" |});
  ("codigo_barras",
   {| cat_icone := "📊"; cat_nome := "Código de Barras"; cat_cor := "orange" |});
  ("valor",
   {| cat_icone := "💰"; cat_nome := "Valor do Boleto"; cat_cor := "orange" |});
  ("vencimento",
   {| cat_icone := "📅"; cat_nome := "Data de Vencimento"; cat_cor := "yellow" |});
  ("banco",
   {| cat_icone := "🏦"; cat_nome := "Instituição Bancária"; cat_cor := "blue" |});
  ("padrao_ml",
   {| cat_icone := "🤖"; cat_nome := "Padrão Detectado por IA"; cat_cor := "purple" |})
].

(** [CATEGORIAS['padrao_ml']], the default handed to [CATEGORIAS.get]. *)
Definition CATEGORIAS_padrao_ml : Categoria :=
  Eval cbv in default {| cat_icone := ""; cat_nome := ""; cat_cor := "" |}
                      (assoc "padrao_ml" CATEGORIAS).

(** ** Output shapes *)

(** One entry of [razoes]. *)
Record Razao := {
  gravidade : string;
  categoria : string;
  categoria_nome : string;
  icone : string;
  cor : string;
  titulo : pyval;
  descricao_simples : pyval;
  descricao_avancada : pyval;
  impacto : pyval;
  fonte : string
}.

Record ModoSimples := {
  ms_status : string;
  ms_confianca : string;
  ms_resumo : string;
  ms_principal_motivo : pyval;
  ms_acao_recomendada : string;
  ms_emoji : string
}.

Record FeatureImportante := {
  feature : string;
  nome_humanizado : string;
  valor : pyval;
  fi_impacto : string
}.

Record ValidacaoFebraban := {
  aprovada : pyval;
  total_erros : nat;
  detalhes : pyval
}.

Record ModeloMl := {
  classe_predita : pyval;
  probabilidades : pyval;
  features_usadas : nat
}.

Record AnaliseTecnica := {
  validacao_febraban : ValidacaoFebraban;
  modelo_ml : ModeloMl
}.

Record Metricas := {
  score_fraude : pyval;
  confianca_modelo : pyval;
  features_importantes : list FeatureImportante
}.

Record DadosExtraidos := {
  de_banco : pyval;
  de_codigo_banco : pyval;
  de_valor : pyval;
  de_vencimento : pyval
}.

Record DetalhesTecnicos := {
  metodo_deteccao : list string;
  versao_modelo : string;
  dados_extraidos : DadosExtraidos
}.

Record ModoAvancado := {
  analise_tecnica : AnaliseTecnica;
  metricas : Metricas;
  detalhes_tecnicos : DetalhesTecnicos
}.

Record Recomendacao := {
  rec_nivel_risco : string;
  rec_emoji : string;
  rec_cor : string;
  rec_acao_principal : string;
  rec_mensagem : string;
  rec_proximos_passos : list string
}.

(** The two dicts of the fallback explanation carry fewer keys. *)
Record SimplesFallback := {
  fb_status : string;
  fb_resumo : string;
  fb_acao_recomendada : string
}.

Record RecomendacaoFallback := {
  fb_nivel_risco : string;
  fb_mensagem : string
}.

(** The explanation returned to the caller: the full one, with its
    timestamp, or the fallback one, whose [avancado] is an empty dict. *)
Inductive Explicacao : Type :=
| Completa (simples : ModoSimples) (avancado : ModoAvancado)
           (razoes : list Razao) (recomendacao : Recomendacao)
           (gerado_em : string)
| Basica (simples : SimplesFallback) (avancado : list (string * pyval))
         (razoes : list Razao) (recomendacao : RecomendacaoFallback).

(** ** Stable sort, as [list.sort(key=..., reverse=True)]

    Sort keys are the tuples [(rank, impact)]; tuples are ordered
    lexicographically.  With [reverse=True] the list ends up in
    descending key order and elements with equal keys keep their
    original relative order. *)

Definition chave : Type := Z * Q.

Definition chave_lt (a b : chave) : bool :=
  (a.1 <? b.1)%Z || ((a.1 =? b.1)%Z && negb (Qle_bool b.2 a.2)).

Definition chave_eq (a b : chave) : bool :=
  (a.1 =? b.1)%Z && Qeq_bool a.2 b.2.

Section Sort.
Context {A : Type} (key : A -> chave).

Fixpoint insert_desc (x : A) (l : list A) : list A :=
  match l with
  | [] => [x]
  | y :: l' =>
      if chave_lt (key x) (key y) then y :: insert_desc x l'
      else x :: y :: l'
  end.

Fixpoint sort_reverse (l : list A) : list A :=
  match l with
  | [] => []
  | x :: l' => insert_desc x (sort_reverse l')
  end.
End Sort.

(** ** determinar_nivel_risco *)

Definition determinar_nivel_risco (score : pyval) (is_fraudulento : bool)
  : result string :=
  if negb is_fraudulento then Ok "BAIXO"
  else
    do c80 <- py_ge score 80;
    if c80 then Ok "CRITICO"
    else
      do c60 <- py_ge score 60;
      if c60 then Ok "ALTO"
      else
        do c40 <- py_ge score 40;
        if c40 then Ok "MEDIO" else Ok "BAIXO".

(** ** determinar_metodos_deteccao *)

Definition determinar_metodos_deteccao (validacao predicao_ml : pyval)
  : result (list string) :=
  do valido <- py_get validacao "valido" (PBool true);
  let metodos := if negb (py_truthy valido) then ["validacao_febraban"] else [] in
  do flag <- py_get predicao_ml "is_fraudulento" (PBool false);
  Ok (if py_truthy flag then (metodos ++ ["modelo_ml"])%list else metodos).

(** ** gerar_explicacao_fallback *)

Definition gerar_explicacao_fallback (is_fraudulento : bool) : Explicacao :=
  Basica
    {| fb_status := if is_fraudulento then "FRAUDULENTO" else "VÁLIDO";
       fb_resumo := "Análise concluída";
       fb_acao_recomendada := "Verifique os detalhes" |}
    []
    []
    {| fb_nivel_risco := "DESCONHECIDO";
       fb_mensagem := "Erro ao gerar explicação detalhada" |}.

(** ** gerar_recomendacao *)

Definition gerar_recomendacao (is_fraudulento : bool) (nivel_risco : string)
    (score : pyval) : Recomendacao :=
  if negb is_fraudulento then
    {| rec_nivel_risco := "BAIXO";
       rec_emoji := "✅";
       rec_cor := "green";
       rec_acao_principal := "PODE PAGAR";
       rec_mensagem := "Este boleto passou nas verificações de segurança. Ainda assim, sempre confira os dados do beneficiário antes de efetuar o pagamento.";
       rec_proximos_passos := [
         "Confira o nome do beneficiário";
         "Verifique o valor e vencimento";
         "Efetue o pagamento com segurança" ] |}
  else if String.eqb nivel_risco "CRITICO" then
    {| rec_nivel_risco := "CRÍTICO";
       rec_emoji := "🚨";
       rec_cor := "red";
       rec_acao_principal := "NÃO PAGAR";
       rec_mensagem := "Este boleto apresenta sinais CLAROS de fraude. NÃO efetue o pagamento sob nenhuma circunstância. Entre em contato com o emissor através de canais oficiais para verificar a autenticidade.";
       rec_proximos_passos := [
         "❌ NÃO efetue o pagamento";
         "📞 Entre em contato com o emissor por canais oficiais";
         "🚨 Reporte a tentativa de fraude às autoridades";
         "⚠️ Alerte outras pessoas sobre este golpe" ] |}
  else if String.eqb nivel_risco "ALTO" then
    {| rec_nivel_risco := "ALTO";
       rec_emoji := "⚠️";
       rec_cor := "orange";
       rec_acao_principal := "SUSPEITO - NÃO PAGAR";
       rec_mensagem := "Este boleto apresenta características SUSPEITAS. Recomendamos fortemente que você NÃO efetue o pagamento até confirmar sua autenticidade com o emissor.";
       rec_proximos_passos := [
         "🛑 Suspenda o pagamento";
         "📞 Confirme com o emissor por telefone oficial";
         "🔍 Solicite um novo boleto se houver dúvidas";
         "⚠️ Mantenha vigilância contra possíveis golpes" ] |}
  else
    {| rec_nivel_risco := "MÉDIO";
       rec_emoji := "ℹ️";
       rec_cor := "yellow";
       rec_acao_principal := "VERIFICAR ANTES DE PAGAR";
       rec_mensagem := "Este boleto apresenta algumas inconsistências. Por precaução, confirme os dados com o emissor antes de efetuar o pagamento.";
       rec_proximos_passos := [
         "🔍 Verifique os dados do beneficiário";
         "📞 Confirme com o emissor se possível";
         "⏸️ Considere aguardar confirmação antes de pagar";
         "✅ Prossiga com cautela após verificação" ] |}.

(** ** gerar_modo_simples *)

Definition gerar_modo_simples (is_fraudulento : bool) (razoes : list Razao)
    (nivel_risco : string) (score : pyval) : result ModoSimples :=
  let '(status_texto, resumo, principal_motivo, acao) :=
    if is_fraudulento return (string * string * pyval * string) then
      ("FRAUDULENTO",
       "Este boleto foi identificado como falso",
       match razoes with
       | r :: _ => titulo r
       | [] => PStr "Inconsistências detectadas"
       end,
       "NÃO PAGUE este boleto")
    else
      ("VÁLIDO",
       "Este boleto aparenta ser autêntico",
       PStr "Todas as validações foram aprovadas",
       "Você pode pagar, mas sempre confira os dados") in
  do confianca_texto <- (
    do c80 <- py_ge score 80;
    if c80 then Ok "Muito Alta"
    else
      do c60 <- py_ge score 60;
      if c60 then Ok "Alta"
      else
        do c40 <- py_ge score 40;
        if c40 then Ok "Média" else Ok "Baixa");
  Ok {| ms_status := status_texto;
        ms_confianca := confianca_texto;
        ms_resumo := resumo;
        ms_principal_motivo := principal_motivo;
        ms_acao_recomendada := acao;
        ms_emoji := if is_fraudulento then "🚨" else "✅" |}.

(** ** The interpreter-dependent parts

    [hash] is the built-in hash of strings, which CPython salts with
    a per-process random value (PYTHONHASHSEED); [float_mul] is the
    product of two floats, rounded to a float; [format_1f] renders a
    number with the format spec [.1f]; [utcnow_isoformat] is the clock
    reading [datetime.utcnow().isoformat()] of the call. *)
Section Synthesis.
Variable hash : string -> Z.
Variable float_mul : Q -> Q -> Q.
Variable format_1f : Q -> string.
Variable utcnow_isoformat : string.

(** [f"{confianca*100:.1f}"]. *)
Definition formatar_confianca (confianca : pyval) : result string :=
  match confianca with
  | PBool b => Ok (format_1f (inject_Z ((if b then 1 else 0) * 100)))
  | PInt n =>
      if float_overflows (n * 100) then Raise OverflowError
      else Ok (format_1f (inject_Z (n * 100)))
  | PFloat x => Ok (format_1f (float_mul x 100))
  | PStr _ => Raise ValueError
  | _ => Raise TypeError
  end.

(** ** coletar_razoes *)

(** Body of the loop over the validation errors. *)
Definition razao_febraban (erro : pyval) : result Razao :=
  if negb (py_hashable erro) then Raise TypeError
  else
    let traducao :=
      default {| tr_simples := erro; tr_avancado := erro; tr_categoria := "outros" |}
              (match erro with
               | PStr s => assoc s TRADUCOES_ERROS
               | _ => None
               end) in
    let categoria_key := tr_categoria traducao in
    let categoria_info := default CATEGORIAS_padrao_ml (assoc categoria_key CATEGORIAS) in
    Ok {| gravidade := "critica";
          categoria := categoria_key;
          categoria_nome := cat_nome categoria_info;
          icone := cat_icone categoria_info;
          cor := cat_cor categoria_info;
          titulo := tr_simples traducao;
          descricao_simples := tr_simples traducao;
          descricao_avancada := tr_avancado traducao;
          impacto := PFloat 1;
          fonte := "Validação FEBRABAN" |}.

(** Body of [if predicao_ml.get('is_fraudulento')]. *)
Definition razao_ml (predicao_ml : pyval) : result Razao :=
  do confianca <- py_get predicao_ml "confianca" (PInt 0);
  do gravidade_ml <- (
    do c08 <- py_ge confianca float_0_8;
    if c08 then Ok "alta"
    else
      do c06 <- py_ge confianca float_0_6;
      if c06 then Ok "media" else Ok "baixa");
  do pct <- formatar_confianca confianca;
  do usadas <- py_get predicao_ml "features_usadas" (PDict []);
  do n <- py_len usadas;
  Ok {| gravidade := gravidade_ml;
        categoria := "padrao_ml";
        categoria_nome := "Padrão Detectado por IA";
        icone := "🤖";
        cor := "purple";
        titulo := PStr "Padrão suspeito identificado";
        descricao_simples := PStr "A inteligência artificial identificou características atípicas neste boleto";
        descricao_avancada :=
          PStr ("Modelo de Machine Learning (Random Forest) detectou padrão com "
                ++ pct ++ "% de confiança baseado em " ++ pretty n
                ++ " características analisadas");
        impacto := confianca;
        fonte := "Modelo de IA" |}.

Definition ordem_gravidade : list (string * Z) :=
  [("critica", 4%Z); ("alta", 3%Z); ("media", 2%Z); ("baixa", 1%Z)].

(** The sort key [(ordem_gravidade.get(x['gravidade'], 0), x['impacto'])],
    the impact being a number. *)
Definition chave_razao (x : Razao) : chave :=
  (default 0%Z (assoc (gravidade x) ordem_gravidade),
   default 0%Q (py_num (impacto x))).

(** The list as collected, before it is sorted. *)
Definition razoes_coletadas (validacao predicao_ml : pyval) : result (list Razao) :=
  do erros_febraban <- py_get validacao "erros" (PList []);
  do erros <- py_iter erros_febraban;
  do razoes <- for_each razao_febraban erros;
  do flag <- py_get predicao_ml "is_fraudulento" PNone;
  if py_truthy flag then
    do ml <- razao_ml predicao_ml;
    Ok (razoes ++ [ml])%list
  else Ok razoes.

Definition coletar_razoes (validacao predicao_ml : pyval) : result (list Razao) :=
  do razoes <- razoes_coletadas validacao predicao_ml;
  Ok (sort_reverse chave_razao razoes).

(** ** gerar_modo_avancado *)

Definition feature_importante (item : string * pyval) : FeatureImportante :=
  let '(nome, v) := item in
  {| feature := nome;
     nome_humanizado := default nome (assoc nome TRADUCOES_FEATURES);
     valor := v;
     fi_impacto := if (50 <? Z.abs (hash nome mod 100))%Z then "alto" else "médio" |}.

Definition gerar_modo_avancado (validacao predicao_ml dados : pyval)
  : result ModoAvancado :=
  do tem_features <- py_in "features_usadas" predicao_ml;
  do importantes <- (
    if tem_features then
      do features <- py_getitem predicao_ml "features_usadas";
      do itens <- py_items features;
      Ok (map feature_importante itens)
    else Ok []);
  do v_aprovada <- py_get validacao "valido" (PBool false);
  do v_erros <- py_get validacao "erros" (PList []);
  do v_total <- py_len v_erros;
  do v_detalhes <- py_get validacao "detalhes" (PDict []);
  do m_classe <- py_get predicao_ml "classe_predita" PNone;
  do m_probabilidades <- py_get predicao_ml "probabilidades" (PDict []);
  do m_usadas <- py_get predicao_ml "features_usadas" (PDict []);
  do m_total <- py_len m_usadas;
  do m_score <- py_get predicao_ml "score_fraude" (PInt 0);
  do m_confianca <- py_get predicao_ml "confianca" (PInt 0);
  do metodos <- determinar_metodos_deteccao validacao predicao_ml;
  do d_banco <- py_get dados "banco_nome" PNone;
  do d_codigo <- py_get dados "codigo_banco" PNone;
  do d_valor <- py_get dados "valor" PNone;
  do d_vencimento <- py_get dados "vencimento" PNone;
  Ok {| analise_tecnica :=
          {| validacao_febraban :=
               {| aprovada := v_aprovada;
                  total_erros := v_total;
                  detalhes := v_detalhes |};
             modelo_ml :=
               {| classe_predita := m_classe;
                  probabilidades := m_probabilidades;
                  features_usadas := m_total |} |};
        metricas :=
          {| score_fraude := m_score;
             confianca_modelo := m_confianca;
             features_importantes := take 5 importantes |};
        detalhes_tecnicos :=
          {| metodo_deteccao := metodos;
             versao_modelo := "1.0";
             dados_extraidos :=
               {| de_banco := d_banco;
                  de_codigo_banco := d_codigo;
                  de_valor := d_valor;
                  de_vencimento := d_vencimento |} |} |}.

(** ** gerar_explicacao_completa *)

(** The [try] block. *)
Definition explicacao_try (is_fraudulento : bool)
    (validacao predicao_ml dados : pyval) : result Explicacao :=
  do score <- py_get predicao_ml "score_fraude" (PInt 0);
  do nivel_risco <- determinar_nivel_risco score is_fraudulento;
  do razoes <- coletar_razoes validacao predicao_ml;
  do simples <- gerar_modo_simples is_fraudulento razoes nivel_risco score;
  do avancado <- gerar_modo_avancado validacao predicao_ml dados;
  let recomendacao := gerar_recomendacao is_fraudulento nivel_risco score in
  Ok (Completa simples avancado razoes recomendacao utcnow_isoformat).

Definition gerar_explicacao_completa (is_fraudulento : bool)
    (validacao predicao_ml dados : pyval) : result Explicacao :=
  try_except_Exception
    (explicacao_try is_fraudulento validacao predicao_ml dados)
    (fun e => Ok (gerar_explicacao_fallback is_fraudulento)).

End Synthesis.

(** ** Vocabulary of the properties *)

Section Order.
Context {A : Type} (key : A -> chave).

(** Descending order: no element is strictly below a later one. *)
Definition desc (x y : A) : Prop := chave_lt (key x) (key y) = false.

(** Membership of the class of the elements whose key equals [k]. *)
Definition na_classe (k : chave) (x : A) : bool := chave_eq (key x) k.
End Order.

(** Which collaborator a reason comes from. *)
Definition da_validacao (r : Razao) : bool := String.eqb (fonte r) "Validação FEBRABAN".
Definition do_modelo (r : Razao) : bool := String.eqb (fonte r) "Modelo de IA".

(** Readers of an explanation, whichever of the two shapes it has. *)
Definition exp_status (e : Explicacao) : string :=
  match e with
  | Completa s _ _ _ _ => ms_status s
  | Basica s _ _ _ => fb_status s
  end.

Definition exp_razoes (e : Explicacao) : list Razao :=
  match e with
  | Completa _ _ rs _ _ => rs
  | Basica _ _ rs _ => rs
  end.

(** The risk level an explanation carries: [recomendacao.nivel_risco]. *)
Definition exp_nivel_risco (e : Explicacao) : string :=
  match e with
  | Completa _ _ _ r _ => rec_nivel_risco r
  | Basica _ _ _ r => fb_nivel_risco r
  end.

Definition exp_mensagem (e : Explicacao) : string :=
  match e with
  | Completa _ _ _ r _ => rec_mensagem r
  | Basica _ _ _ r => fb_mensagem r
  end.

(** An explanation with its timestamp blanked. *)
Definition sem_gerado_em (e : Explicacao) : Explicacao :=
  match e with
  | Completa s a rs r _ => Completa s a rs r ""
  | Basica s a rs r => Basica s a rs r
  end.

(** An explanation with the [impacto] labels of its important features
    blanked as well. *)
Definition sem_rotulo (f : FeatureImportante) : FeatureImportante :=
  {| feature := feature f;
     nome_humanizado := nome_humanizado f;
     valor := valor f;
     fi_impacto := "" |}.

Definition avancado_sem_rotulos (a : ModoAvancado) : ModoAvancado :=
  {| analise_tecnica := analise_tecnica a;
     metricas :=
       {| score_fraude := score_fraude (metricas a);
          confianca_modelo := confianca_modelo (metricas a);
          features_importantes := map sem_rotulo (features_importantes (metricas a)) |};
     detalhes_tecnicos := detalhes_tecnicos a |}.

Definition sem_rotulos (e : Explicacao) : Explicacao :=
  match e with
  | Completa s a rs r _ => Completa s (avancado_sem_rotulos a) rs r ""
  | Basica s a rs r => Basica s a rs r
  end.

Definition result_map {A B} (f : A -> B) (m : result A) : result B :=
  match m with
  | Ok a => Ok (f a)
  | Raise e => Raise e
  end.

(** The side of the threshold 50 that [hash(nome) % 100] falls on. *)
Definition rotulo_alto (hash : string -> Z) (nome : string) : bool :=
  (50 <? Z.abs (hash nome mod 100))%Z.

(** A computation whose exceptions all derive from [Exception]. *)
Definition so_Exception {A} (m : result A) : Prop :=
  forall e, m = Raise e -> is_Exception e = true.

(** The severity the classifier's reason gets at confidence [c]. *)
Definition gravidade_da_confianca (c : Q) : string :=
  if Qle_bool float_0_8 c then "alta"
  else if Qle_bool float_0_6 c then "media"
  else "baixa".

(** The tier [determinar_nivel_risco] gives a fraud at score [x]. *)
Definition nivel_do_score (x : Q) : string :=
  if Qle_bool 80 x then "CRITICO"
  else if Qle_bool 60 x then "ALTO"
  else if Qle_bool 40 x then "MEDIO"
  else "BAIXO".

(** The four recommendation texts, as [gerar_recomendacao] renders them. *)
Definition recomendacao_BAIXO : Recomendacao := gerar_recomendacao false "BAIXO" (PInt 0).
Definition recomendacao_CRITICO : Recomendacao := gerar_recomendacao true "CRITICO" (PInt 0).
Definition recomendacao_ALTO : Recomendacao := gerar_recomendacao true "ALTO" (PInt 0).
Definition recomendacao_MEDIO : Recomendacao := gerar_recomendacao true "MEDIO" (PInt 0).

Definition exp_recomendacao (e : Explicacao) : option Recomendacao :=
  match e with
  | Completa _ _ _ r _ => Some r
  | Basica _ _ _ _ => None
  end.

(** Well-formed collaborator results, as far as [coletar_razoes] reads
    them: the validator lists its errors as strings; a classifier that
    flags a fraud gives its confidence as a float and, if it lists the
    features it used, lists them in a sized container. *)
Definition validacao_bem_formada (validacao : pyval) : Prop :=
  exists erros : list string,
    py_get validacao "erros" (PList []) = Ok (PList (map PStr erros)).

Definition predicao_bem_formada (predicao_ml : pyval) : Prop :=
  exists flag,
    py_get predicao_ml "is_fraudulento" PNone = Ok flag
    /\ (py_truthy flag = true ->
        exists x n,
          py_get predicao_ml "confianca" (PInt 0) = Ok (PFloat x)
          /\ bind (py_get predicao_ml "features_usadas" (PDict [])) py_len = Ok n).

(** ** Concrete inputs for the examples *)

(** Two string hashes, as two interpreter processes may have them. *)
Definition hash_a (s : string) : Z := 77 + Z.of_nat (String.length s).
Definition hash_b (s : string) : Z := -997 * Z.of_nat (String.length s).

(** A stand-in for the float formatter, exact on the non-negative
    numbers with one decimal. *)
Definition format_exemplo (x : Q) : string :=
  let n := (Qnum x * 10 / Zpos (Qden x))%Z in
  pretty (n / 10)%Z ++ "." ++ pretty (n mod 10)%Z.

Definition validacao_ok : pyval :=
  PDict [("valido", PBool true); ("erros", PList []); ("detalhes", PDict [])].

Definition validacao_dois_erros : pyval :=
  PDict [("valido", PBool false);
         ("erros", PList [PStr "Valor inconsistente"; PStr "Boleto vencido"]);
         ("detalhes", PDict [])].

Definition predicao_limpa (score : Z) : pyval :=
  PDict [("is_fraudulento", PBool false); ("confianca", PFloat 0.125);
         ("score_fraude", PInt score); ("classe_predita", PStr "legitimo");
         ("probabilidades", PDict []);
         ("features_usadas", PDict [("banco", PInt 1); ("valor", PFloat 150.5)])].

Definition predicao_fraude (confianca : Q) (score : Z) : pyval :=
  PDict [("is_fraudulento", PBool true); ("confianca", PFloat confianca);
         ("score_fraude", PInt score); ("classe_predita", PStr "fraude");
         ("probabilidades", PDict []);
         ("features_usadas", PDict [("banco", PInt 1); ("valor", PFloat 150.5)])].

(** A classifier result whose score is [None]. *)
Definition predicao_sem_score : pyval :=
  PDict [("is_fraudulento", PBool false); ("confianca", PFloat 0.125);
         ("score_fraude", PNone)].

(** A clock reading. *)
Definition relogio : string := "2025-01-31T12:00:00".

Definition dados_exemplo : pyval :=
  PDict [("banco_nome", PStr "Banco do Brasil"); ("codigo_banco", PStr "001");
         ("valor", PFloat 150.5); ("vencimento", PStr "2025-01-31")].

(** ** Vocabulary of the further properties *)

Definition is_dict (v : pyval) : bool :=
  match v with
  | PDict _ => true
  | _ => false
  end.

(** The lay text [coletar_razoes] gives an error: its translation, or
    the error itself when TRADUCOES_ERROS does not list it. *)
Definition titulo_do_erro (erro : pyval) : pyval :=
  match erro with
  | PStr s =>
      match assoc s TRADUCOES_ERROS with
      | Some t => tr_simples t
      | None => erro
      end
  | _ => erro
  end.

(** Collaborator results as their interfaces give them: dicts; the
    validator's errors are a list of strings; the score is a number;
    the confidence of a flagged fraud is a float; the features used,
    when given, are a dict. *)
Definition validacao_completa (validacao : pyval) : Prop :=
  exists entries (erros : list string),
    validacao = PDict entries
    /\ default (PList []) (assoc "erros" entries) = PList (map PStr erros).

Definition predicao_completa (predicao_ml : pyval) : Prop :=
  exists entries,
    predicao_ml = PDict entries
    /\ is_Some (py_num (default (PInt 0) (assoc "score_fraude" entries)))
    /\ (py_truthy (default PNone (assoc "is_fraudulento" entries)) = true ->
        exists c, default (PInt 0) (assoc "confianca" entries) = PFloat c)
    /\ (forall usadas, assoc "features_usadas" entries = Some usadas ->
        is_dict usadas = true).

(** The confidence text [gerar_modo_simples] gives the score [x]. *)
Definition texto_da_confianca (x : Q) : string :=
  if Qle_bool 80 x then "Muito Alta"
  else if Qle_bool 60 x then "Alta"
  else if Qle_bool 40 x then "Média"
  else "Baixa".

(** The confidence text of the simple view and the label of the
    recommendation that go together for a fraud. *)
Definition confianca_e_rotulo : list (string * string) :=
  [("Muito Alta", "CRÍTICO"); ("Alta", "ALTO"); ("Média", "MÉDIO"); ("Baixa", "MÉDIO")].

(** A validation result whose [erros] are the three listed here, the
    classifier's features being eight. *)
Definition predicao_oito_features : pyval :=
  PDict [("is_fraudulento", PBool true); ("confianca", PFloat 0.75);
         ("score_fraude", PInt 65);
         ("features_usadas",
          PDict [("banco", PInt 1); ("codigoBanco", PInt 237); ("agencia", PInt 1234);
                 ("valor", PFloat 150.5); ("linha_codBanco", PInt 237);
                 ("linha_moeda", PInt 9); ("linha_valor", PFloat 150.5);
                 ("vencimento_dias", PInt 12)])].

(** A validation result that does not say whether it is valid. *)
Definition validacao_sem_valido : pyval :=
  PDict [("erros", PList [PStr "DV do código de barras inválido"])].

End Explainer.

(* ================================================================== *)
(** * main.py: the upload handler *)
(* ================================================================== *)

Module Api.

(** ** base64.b64encode *)

Definition b64_alphabet : string :=
  "ABCDEFGHIJKLMNOPQRSTUVWXYZabcdefghijklmnopqrstuvwxyz0123456789+/".

Definition b64_char (n : N) : ascii :=
  default "="%char (String.get (N.to_nat n) b64_alphabet).

Definition byte_N (b : byte) : N := Byte.to_N b.

Fixpoint b64encode (bs : list byte) : string :=
  match bs with
  | [] => ""
  | [a] =>
      let n := (byte_N a * 65536)%N in
      String (b64_char (n / 262144))
        (String (b64_char ((n / 4096) mod 64)) "==")
  | [a; b] =>
      let n := (byte_N a * 65536 + byte_N b * 256)%N in
      String (b64_char (n / 262144))
        (String (b64_char ((n / 4096) mod 64))
           (String (b64_char ((n / 64) mod 64)) "="))
  | a :: b :: c :: rest =>
      let n := (byte_N a * 65536 + byte_N b * 256 + byte_N c)%N in
      String (b64_char (n / 262144))
        (String (b64_char ((n / 4096) mod 64))
           (String (b64_char ((n / 64) mod 64))
              (String (b64_char (n mod 64)) (b64encode rest))))
  end.

(** ** Data *)

(** The uploaded file: declared content type and name (either may be
    [None]) and the bytes [file.read()] returns. *)
Record UploadFile := {
  content_type : option string;
  filename : option string;
  conteudo : list byte
}.

(** A document of the [analises] collection, as [insert_one] writes it. *)
Record Analise := {
  _id : string;
  status : string;
  uploadedAt : string;
  fileType : option string;
  fileSize : Z;
  fileName : option string
}.

(** An entry of the Redis list [boletos:jobs]. *)
Record JobData := {
  analise_id : string;
  file_base64 : string;
  file_type : option string
}.

(** The JSON body of a successful response. *)
Record Resposta := {
  r_id : string;
  r_status : string;
  r_message : string;
  r_fileName : option string;
  r_fileSize : Z;
  r_fileType : option string
}.

(** [HTTPException] and the other exceptions (driver and connection
    errors), which carry their message. *)
Inductive Erro : Type :=
| HTTPException (status_code : Z) (detail : string)
| Exception (msg : string).

(** ** Handler programs

    The handler talks to the outside through four calls: [uuid.uuid4()],
    [datetime.utcnow()], [db.analises.insert_one(doc)] and
    [redis_conn.rpush(key, item)].  A program is the tree of these calls;
    the two store calls hand back whether the driver raised. *)
Inductive Retorno : Type :=
| Feito
| Falhou (msg : string).

Inductive Prog (A : Type) : Type :=
| Ret (a : A)
| Raise (e : Erro)
| Uuid4 (k : string -> Prog A)
| UtcNow (k : string -> Prog A)
| InsertOne (doc : Analise) (k : Retorno -> Prog A)
| RPush (key : string) (item : JobData) (k : Retorno -> Prog A).
Arguments Ret {A} a.
Arguments Raise {A} e.
Arguments Uuid4 {A} k.
Arguments UtcNow {A} k.
Arguments InsertOne {A} doc k.
Arguments RPush {A} key item k.

Fixpoint bind {A B} (p : Prog A) (f : A -> Prog B) : Prog B :=
  match p with
  | Ret a => f a
  | Raise e => Raise e
  | Uuid4 k => Uuid4 (fun x => bind (k x) f)
  | UtcNow k => UtcNow (fun x => bind (k x) f)
  | InsertOne doc k => InsertOne doc (fun r => bind (k r) f)
  | RPush key item k => RPush key item (fun r => bind (k r) f)
  end.

(** [try: p / except ...: h]. *)
Fixpoint try_except {A} (p : Prog A) (h : Erro -> Prog A) : Prog A :=
  match p with
  | Ret a => Ret a
  | Raise e => h e
  | Uuid4 k => Uuid4 (fun x => try_except (k x) h)
  | UtcNow k => UtcNow (fun x => try_except (k x) h)
  | InsertOne doc k => InsertOne doc (fun r => try_except (k r) h)
  | RPush key item k => RPush key item (fun r => try_except (k r) h)
  end.

Declare Scope prog_scope.
Delimit Scope prog_scope with prog.
Notation "'do' x <- m ; k" := (bind m (fun x => k))
  (at level 10, x name, m at level 100, k at level 200) : prog_scope.
Open Scope prog_scope.

Definition uuid4 : Prog string := Uuid4 Ret.
Definition utcnow : Prog string := UtcNow Ret.

Definition checar (r : Retorno) : Prog unit :=
  match r with
  | Feito => Ret tt
  | Falhou msg => Raise (Exception msg)
  end.

Definition insert_one (doc : Analise) : Prog unit := InsertOne doc checar.
Definition rpush (key : string) (item : JobData) : Prog unit := RPush key item checar.

(** ** analisar_boleto *)

Definition allowed_types : list string :=
  ["image/jpeg"; "image/png"; "application/pdf"].

(** [file.content_type in allowed_types]. *)
Definition tipo_permitido (ct : option string) : bool :=
  match ct with
  | Some t => existsb (String.eqb t) allowed_types
  | None => false
  end.

Definition file_size (file : UploadFile) : Z := Z.of_nat (length (conteudo file)).

(** The [try] block. *)
Definition analisar_try (file : UploadFile) : Prog Resposta :=
  if negb (tipo_permitido (content_type file)) then
    Raise (HTTPException 400
             ("Tipo de arquivo inválido. Aceitos: " ++ String.concat ", " allowed_types))
  else
    let file_bytes := conteudo file in
    if (file_size file >? 10 * 1024 * 1024)%Z then
      Raise (HTTPException 400 "Arquivo muito grande. Máximo: 10MB")
    else if (file_size file =? 0)%Z then
      Raise (HTTPException 400 "Arquivo vazio")
    else
      let file_b64 := b64encode file_bytes in
      do id <- uuid4;
      do agora <- utcnow;
      do _ <- insert_one {| _id := id;
                            status := "processing";
                            uploadedAt := agora;
                            fileType := content_type file;
                            fileSize := file_size file;
                            fileName := filename file |};
      let job_data := {| analise_id := id;
                         file_base64 := file_b64;
                         file_type := content_type file |} in
      do _ <- rpush "boletos:jobs" job_data;
      Ret {| r_id := id;
             r_status := "processing";
             r_message := "Boleto recebido e adicionado à fila de processamento";
             r_fileName := filename file;
             r_fileSize := file_size file;
             r_fileType := content_type file |}.

(** [except HTTPException: raise / except Exception as e: raise
    HTTPException(500, ...)]. *)
Definition analisar_except (e : Erro) : Prog Resposta :=
  match e with
  | HTTPException code detail => Raise (HTTPException code detail)
  | Exception msg =>
      Raise (HTTPException 500 ("Erro interno ao processar arquivo: " ++ msg))
  end.

Definition analisar_boleto (file : UploadFile) : Prog Resposta :=
  try_except (analisar_try file) analisar_except.

(** ** The two stores and the executions of the system

    The Job Store is the collection [analises], keyed by [_id]; the
    Work Queue is the list [boletos:jobs], pushed at its right end. *)
Record Mundo := {
  analises : gmap string Analise;
  fila : list JobData
}.

Definition com_analise (doc : Analise) (w : Mundo) : Mundo :=
  {| analises := <[_id doc := doc]> (analises w); fila := fila w |}.

Definition com_job (item : JobData) (w : Mundo) : Mundo :=
  {| analises := analises w; fila := fila w ++ [item] |}.

(** One call of a running handler.  [uuid4] and the clock return any
    value; [insert_one] writes the document when its [_id] is free and
    may raise (duplicate key, connection lost) without writing;
    [rpush] appends the item or raises without appending. *)
Inductive passo {A} : Prog A * Mundo -> Prog A * Mundo -> Prop :=
| passo_uuid4 k id w :
    passo (Uuid4 k, w) (k id, w)
| passo_utcnow k t w :
    passo (UtcNow k, w) (k t, w)
| passo_insert doc k w :
    analises w !! _id doc = None ->
    passo (InsertOne doc k, w) (k Feito, com_analise doc w)
| passo_insert_falha doc k msg w :
    passo (InsertOne doc k, w) (k (Falhou msg), w)
| passo_rpush key item k w :
    passo (RPush key item k, w) (k Feito, com_job item w)
| passo_rpush_falha key item k msg w :
    passo (RPush key item k, w) (k (Falhou msg), w).

(** Any number of requests are served at once, and the external worker
    runs beside them: it pops the head of the queue and updates the
    record of a job, never deleting one.  A state of the system is the
    list of handlers in flight and the two stores. *)
Inductive sistema : list (Prog Resposta) * Mundo -> list (Prog Resposta) * Mundo -> Prop :=
| sis_requisicao ps file w :
    sistema (ps, w) (analisar_boleto file :: ps, w)
| sis_handler ps1 p ps2 w p' w' :
    passo (p, w) (p', w') ->
    sistema ((ps1 ++ p :: ps2)%list, w) ((ps1 ++ p' :: ps2)%list, w')
| sis_worker_blpop ps item resto an :
    sistema (ps, {| analises := an; fila := item :: resto |})
            (ps, {| analises := an; fila := resto |})
| sis_worker_update ps id doc doc' w :
    analises w !! id = Some doc ->
    _id doc' = id ->
    sistema (ps, w) (ps, {| analises := <[id := doc']> (analises w); fila := fila w |}).

(** The ordering property: every item on the queue has its record. *)
Definition fila_registrada (w : Mundo) : Prop :=
  forall item, In item (fila w) -> is_Some (analises w !! analise_id item).

(** ** Vocabulary of the properties *)

(** A program that makes no call: it returns or raises at once. *)
Definition sem_chamadas {A} (p : Prog A) : bool :=
  match p with
  | Ret _ | Raise _ => true
  | _ => false
  end.

(** [pendente ids p]: whatever the calls of [p] return, [p] pushes an
    item only when its [analise_id] is among [ids] or is the [_id] of a
    document [p] has itself inserted before. *)
Fixpoint pendente {A} (ids : gset string) (p : Prog A) : Prop :=
  match p with
  | Ret _ | Raise _ => True
  | Uuid4 k => forall id, pendente ids (k id)
  | UtcNow k => forall t, pendente ids (k t)
  | InsertOne doc k =>
      pendente ({[ _id doc ]} ∪ ids) (k Feito)
      /\ forall msg, pendente ids (k (Falhou msg))
  | RPush key item k =>
      analise_id item ∈ ids /\ forall r, pendente ids (k r)
  end.

(** The invariant of the running system. *)
Definition sistema_ok (st : list (Prog Resposta) * Mundo) : Prop :=
  fila_registrada st.2
  /\ Forall (pendente (dom (analises st.2))) st.1.

(** The calls a handler makes along one execution, in order. *)
Inductive Chamada : Type :=
| CInsert (doc : Analise)
| CPush (key : string) (item : JobData).

(** [executa p w cs p' w']: [p] started in [w] reaches [p'] and [w']
    making the store calls [cs] that took effect, in this order. *)
Inductive executa {A} : Prog A -> Mundo -> list Chamada -> Prog A -> Mundo -> Prop :=
| ex_fim p w : executa p w [] p w
| ex_uuid4 k id w cs p' w' :
    executa (k id) w cs p' w' -> executa (Uuid4 k) w cs p' w'
| ex_utcnow k t w cs p' w' :
    executa (k t) w cs p' w' -> executa (UtcNow k) w cs p' w'
| ex_insert doc k w cs p' w' :
    analises w !! _id doc = None ->
    executa (k Feito) (com_analise doc w) cs p' w' ->
    executa (InsertOne doc k) w (CInsert doc :: cs) p' w'
| ex_insert_falha doc k msg w cs p' w' :
    executa (k (Falhou msg)) w cs p' w' ->
    executa (InsertOne doc k) w cs p' w'
| ex_rpush key item k w cs p' w' :
    executa (k Feito) (com_job item w) cs p' w' ->
    executa (RPush key item k) w (CPush key item :: cs) p' w'
| ex_rpush_falha key item k msg w cs p' w' :
    executa (k (Falhou msg)) w cs p' w' ->
    executa (RPush key item k) w cs p' w'.

(** The document, queue entry and response of an accepted upload. *)
Definition analise_de (file : UploadFile) (id agora : string) : Analise :=
  {| _id := id;
     status := "processing";
     uploadedAt := agora;
     fileType := content_type file;
     fileSize := file_size file;
     fileName := filename file |}.

Definition job_de (file : UploadFile) (id : string) : JobData :=
  {| analise_id := id;
     file_base64 := b64encode (conteudo file);
     file_type := content_type file |}.

Definition resposta_de (file : UploadFile) (id : string) : Resposta :=
  {| r_id := id;
     r_status := "processing";
     r_message := "Boleto recebido e adicionado à fila de processamento";
     r_fileName := filename file;
     r_fileSize := file_size file;
     r_fileType := content_type file |}.

(** The three reasons of an HTTP 400. *)
Definition detalhes_400 : list string :=
  ["Tipo de arquivo inválido. Aceitos: image/jpeg, image/png, application/pdf";
   "Arquivo muito grande. Máximo: 10MB";
   "Arquivo vazio"].

(** ** Concrete inputs for the examples *)

Definition boleto_pdf : UploadFile :=
  {| content_type := Some "application/pdf";
     filename := Some "boleto.pdf";
     conteudo := [x25; x50; x44; x46] |}.

Definition arquivo_vazio : UploadFile :=
  {| content_type := Some "image/png";
     filename := Some "vazio.png";
     conteudo := [] |}.

(** A payload of exactly 10 MiB. *)
Definition boleto_10MiB : UploadFile :=
  {| content_type := Some "image/jpeg";
     filename := Some "boleto.jpg";
     conteudo := repeat x00 (Z.to_nat (10 * 1024 * 1024)) |}.

Definition mundo_vazio : Mundo := {| analises := ∅; fila := [] |}.

(** The stores after the upload of [boleto_pdf] under the id 7f3c. *)
Definition mundo_com_boleto : Mundo :=
  com_job (job_de boleto_pdf "7f3c")
    (com_analise (analise_de boleto_pdf "7f3c" "2025-01-31T12:00:00") mundo_vazio).

Definition arquivo_png : UploadFile :=
  {| content_type := Some "image/png";
     filename := Some "foto.png";
     conteudo := [x89; x50; x4e; x47; x0d] |}.

(** ** consultar_analise *)

(** A document of the collection [analises], as the driver hands it
    over: a dict, its keys in order.  Besides the keys written at
    upload it holds whatever has been written to it since (the worker's
    [result] or [error], a new [status]). *)
Definition Documento : Type := list (string * Py.pyval).

(** The collection, its documents found by the value of [_id]. *)
Definition Colecao : Type := gmap string Documento.

Definition py_opcional (o : option string) : Py.pyval :=
  match o with
  | Some s => Py.PStr s
  | None => Py.PNone
  end.

(** The dict given to [insert_one] at upload. *)
Definition documento (doc : Analise) : Documento :=
  [("_id", Py.PStr (_id doc));
   ("status", Py.PStr (status doc));
   ("uploadedAt", Py.PStr (uploadedAt doc));
   ("fileType", py_opcional (fileType doc));
   ("fileSize", Py.PInt (fileSize doc));
   ("fileName", py_opcional (fileName doc))].

(** The collection that holds the records of the Job Store. *)
Definition colecao (w : Mundo) : Colecao := documento <$> analises w.

(** [await db.analises.find_one({'_id': analise_id})]: the document
    found under the id, or [None]; [falha] is the message of the
    exception of the driver, when it raises one. *)
Definition find_one (c : Colecao) (id : string) (falha : option string)
  : Prog (option Documento) :=
  match falha with
  | Some msg => Raise (Exception msg)
  | None => Ret (c !! id)
  end.

(** [d.pop(k)]: the value under [k] and the dict without the key, or
    nothing when [d] has no such key (a [KeyError]). *)
Definition dict_pop (k : string) (d : Documento) : option (Py.pyval * Documento) :=
  match Py.assoc k d with
  | Some v => Some (v, List.filter (fun kv => negb (String.eqb k kv.1)) d)
  | None => None
  end.

(** [d[k] = v]: in place when [d] has the key, at the end otherwise. *)
Fixpoint dict_set (k : string) (v : Py.pyval) (d : Documento) : Documento :=
  match d with
  | [] => [(k, v)]
  | (k', v') :: d' =>
      if String.eqb k k' then (k, v) :: d' else (k', v') :: dict_set k v d'
  end.

(** [analise['id'] = analise.pop('_id')]. *)
Definition renomear_id (analise : Documento) : Prog Documento :=
  match dict_pop "_id" analise with
  | Some (v, resto) => Ret (dict_set "id" v resto)
  | None => Raise (Exception "'_id'")
  end.

(** The [try] block; [not analise] holds of [None] and of an empty
    dict. *)
Definition consultar_try (c : Colecao) (id : string) (falha : option string)
  : Prog Documento :=
  do analise <- find_one c id falha;
  match analise with
  | None | Some [] => Raise (HTTPException 404 "Análise não encontrada")
  | Some doc => renomear_id doc
  end.

Definition consultar_except (e : Erro) : Prog Documento :=
  match e with
  | HTTPException code detail => Raise (HTTPException code detail)
  | Exception msg =>
      Raise (HTTPException 500 ("Erro ao consultar análise: " ++ msg))
  end.

Definition consultar_analise (c : Colecao) (id : string) (falha : option string)
  : Prog Documento :=
  try_except (consultar_try c id falha) consultar_except.

(** A record the worker has completed, with the verdict it stored. *)
Definition analise_concluida : Documento :=
  [("_id", Py.PStr "7f3c");
   ("status", Py.PStr "completed");
   ("uploadedAt", Py.PStr "2025-01-31T12:00:00");
   ("fileType", Py.PStr "application/pdf");
   ("fileSize", Py.PInt 4);
   ("fileName", Py.PStr "boleto.pdf");
   ("result", Py.PDict [("is_fraudulento", Py.PBool false);
                        ("status", Py.PStr "VÁLIDO")])].

(** A record the worker has marked as failed. *)
Definition analise_falhada : Documento :=
  [("_id", Py.PStr "a1b2");
   ("status", Py.PStr "failed");
   ("uploadedAt", Py.PStr "2025-01-31T12:00:05");
   ("fileType", Py.PStr "image/png");
   ("fileSize", Py.PInt 5);
   ("fileName", Py.PStr "foto.png");
   ("error", Py.PStr "OCR sem texto")].

Definition colecao_exemplo : Colecao :=
  <["a1b2" := analise_falhada]> (<["7f3c" := analise_concluida]> ∅).

(** ** Vocabulary of the further properties *)

(** The largest base64 text of an accepted upload: 4 * ceil(10 MiB / 3). *)
Definition base64_maximo : Z := 13981016.

(** The items that the calls of an execution pushed, in order. *)
Fixpoint itens_enfileirados (cs : list Chamada) : list JobData :=
  match cs with
  | [] => []
  | CInsert _ :: cs' => itens_enfileirados cs'
  | CPush _ item :: cs' => item :: itens_enfileirados cs'
  end.

(** The HTTP status of an outcome of a handler. *)
Definition http_status {A} (p : Prog A) : option Z :=
  match p with
  | Ret _ => Some 200%Z
  | Raise (HTTPException code _) => Some code
  | _ => None
  end.

End Api.

(* ================================================================== *)
(** * main.py: the test endpoint *)
(* ================================================================== *)

Module TestOcr.
Import Py.

(** The body returned by [test_ocr]. *)
Record ResultadoFinal := {
  rf_is_fraudulento : pyval;
  rf_metodo_deteccao : list string
}.

Record RespostaTeste := {
  t_success : bool;
  t_dados_extraidos : pyval;
  t_validacao_febraban : pyval;
  t_predicao_ml : pyval;
  t_resultado_final : ResultadoFinal
}.

(** [v == False]: equality with [False] holds of the zeros. *)
Definition py_eq_False (v : pyval) : bool :=
  match v with
  | PBool b => negb b
  | PInt n => (n =? 0)%Z
  | PFloat x => Qeq_bool x 0
  | _ => false
  end.

(** The four pipeline stages live in modules of the repository that are
    not part of these sources; they are taken as they are called, each
    returning its value or the message of the exception it raises.
    [str_excecao e k] is the text [str(e)] of the exception that
    subscripting with the key [k] raises, [str_HTTPException] that of
    an [HTTPException]. *)
Section Pipeline.
Variable Modelo : Type.
Variable extrair_texto_tesseract : list byte -> string + string.
Variable parse_dados_boleto : string -> string + pyval.
Variable validar_boleto_febraban : pyval -> string + pyval.
Variable carregar_modelo : string + Modelo.
Variable preparar_features : pyval -> string + pyval.
Variable predizer_fraude : Modelo -> pyval -> string + pyval.
Variable str_excecao : excecao -> string -> string.
Variable str_HTTPException : Z -> string -> string.

Notation "'do' x <- m ; k" := (Api.bind m (fun x => k))
  (at level 10, x name, m at level 100, k at level 200).

(** A call of a stage. *)
Definition chamar {A} (r : string + A) : Api.Prog A :=
  match r with
  | inl msg => Api.Raise (Api.Exception msg)
  | inr a => Api.Ret a
  end.

(** [v[k]] inside the handler. *)
Definition subscrito (v : pyval) (k : string) : Api.Prog pyval :=
  match py_getitem v k with
  | Ok x => Api.Ret x
  | Raise e => Api.Raise (Api.Exception (str_excecao e k))
  end.

(** The [try] block. *)
Definition test_ocr_try (file : Api.UploadFile) : Api.Prog RespostaTeste :=
  let file_bytes := Api.conteudo file in
  do texto <- chamar (extrair_texto_tesseract file_bytes);
  do dados <- chamar (parse_dados_boleto texto);
  do validacao <- chamar (validar_boleto_febraban dados);
  do modelo <- chamar carregar_modelo;
  do features <- chamar (preparar_features dados);
  do predicao_ml <- chamar (predizer_fraude modelo features);
  do valido <- subscrito validacao "valido";
  do fraude <- (if py_eq_False valido then Api.Ret (PBool true)
                else subscrito predicao_ml "is_fraudulento");
  do valido' <- subscrito validacao "valido";
  let metodos := if negb (py_truthy valido') then ["validacao_febraban"] else [] in
  do flag <- subscrito predicao_ml "is_fraudulento";
  let metodos' := if py_truthy flag then (metodos ++ ["modelo_ml"])%list else metodos in
  Api.Ret {| t_success := true;
             t_dados_extraidos := dados;
             t_validacao_febraban := validacao;
             t_predicao_ml := predicao_ml;
             t_resultado_final :=
               {| rf_is_fraudulento := fraude;
                  rf_metodo_deteccao := metodos' |} |}.

(** [except Exception as e: raise HTTPException(500, f"Erro: {str(e)}")]. *)
Definition test_ocr_except (e : Api.Erro) : Api.Prog RespostaTeste :=
  match e with
  | Api.Exception msg => Api.Raise (Api.HTTPException 500 ("Erro: " ++ msg))
  | Api.HTTPException code detail =>
      Api.Raise (Api.HTTPException 500 ("Erro: " ++ str_HTTPException code detail))
  end.

Definition test_ocr (file : Api.UploadFile) : Api.Prog RespostaTeste :=
  Api.try_except (test_ocr_try file) test_ocr_except.

End Pipeline.

(** ** Sample stages *)

(** A stage that succeeds with [b] on every input. *)
Definition etapa {A B} (b : B) : A -> string + B := fun _ => inr b.

(** [str(e)] of what a failed subscript raises: the [repr] of the
    missing key for a [KeyError]. *)
Definition str_excecao_exemplo (e : excecao) (k : string) : string :=
  match e with
  | KeyError => "'" ++ k ++ "'"
  | _ => "object is not subscriptable"
  end.

(** The endpoint over stages that succeed with the given validator and
    classifier results. *)
Definition teste_exemplo (validacao predicao_ml : pyval)
  : Api.UploadFile -> Api.Prog RespostaTeste :=
  test_ocr unit (etapa "BANCO DO BRASIL 001-9") (etapa Explainer.dados_exemplo)
    (etapa validacao) (inr tt) (etapa (PList [PInt 1])) (fun _ => etapa predicao_ml)
    str_excecao_exemplo (fun _ detail => detail).

End TestOcr.

(* ================================================================== *)
(** * Properties of the explainer *)
(* ================================================================== *)

Module ExplainerProps.
Import Py Explainer.
Open Scope py_scope.

(* ------------------------------------------------------------------ *)
(** ** Facts about the sort *)
(* ------------------------------------------------------------------ *)

Lemma chave_lt_spec (a b : chave) :
  chave_lt a b = true <-> (a.1 < b.1)%Z \/ (a.1 = b.1 /\ (a.2 < b.2)%Q).
Proof.
  unfold chave_lt. rewrite orb_true_iff, andb_true_iff, negb_true_iff.
  rewrite Z.ltb_lt, Z.eqb_eq.
  assert (Hq : Qle_bool b.2 a.2 = false <-> (a.2 < b.2)%Q).
  { split.
    - intros H. apply Qnot_le_lt. intros Hle.
      apply Qle_bool_iff in Hle. congruence.
    - intros H. destruct (Qle_bool b.2 a.2) eqn:E; [|reflexivity].
      apply Qle_bool_iff in E. exfalso. eapply Qlt_not_le; eassumption. }
  rewrite Hq. reflexivity.
Qed.

Lemma chave_ge_spec (a b : chave) :
  chave_lt a b = false <-> (b.1 < a.1)%Z \/ (a.1 = b.1 /\ (b.2 <= a.2)%Q).
Proof.
  split.
  - intros H.
    destruct (Z.lt_trichotomy a.1 b.1) as [Hlt | [Heq | Hgt]].
    + assert (chave_lt a b = true) by (apply chave_lt_spec; auto). congruence.
    + right. split; [assumption|].
      apply Qnot_lt_le. intros Hq.
      assert (chave_lt a b = true) by (apply chave_lt_spec; auto). congruence.
    + left. lia.
  - intros H. destruct (chave_lt a b) eqn:E; [|reflexivity].
    apply chave_lt_spec in E.
    destruct H as [H | [H1 H2]], E as [E | [E1 E2]]; try lia.
    exfalso. eapply Qlt_not_le; eassumption.
Qed.

Lemma chave_ge_trans (a b c : chave) :
  chave_lt a b = false -> chave_lt b c = false -> chave_lt a c = false.
Proof.
  rewrite !chave_ge_spec.
  intros [H1 | [H1 H1']] [H2 | [H2 H2']].
  - left. lia.
  - left. lia.
  - left. lia.
  - right. split; [lia|]. eapply Qle_trans; eassumption.
Qed.

Lemma chave_eq_spec (a b : chave) :
  chave_eq a b = true <-> a.1 = b.1 /\ (a.2 == b.2)%Q.
Proof.
  unfold chave_eq. rewrite andb_true_iff, Z.eqb_eq, Qeq_bool_iff. reflexivity.
Qed.

(** Keys of one equivalence class are not strictly ordered. *)
Lemma chave_eq_not_lt (a b k : chave) :
  chave_eq a k = true -> chave_eq b k = true -> chave_lt a b = false.
Proof.
  rewrite !chave_eq_spec, chave_ge_spec.
  intros [Ha Ha'] [Hb Hb']. right. split; [congruence|].
  rewrite Ha', Hb'. apply Qle_refl.
Qed.

Section SortFacts.
Context {A : Type} (key : A -> chave).

Lemma insert_desc_perm x l : Permutation (x :: l) (insert_desc key x l).
Proof.
  induction l as [|y l IH]; simpl.
  - apply Permutation_refl.
  - destruct (chave_lt (key x) (key y)).
    + eapply perm_trans; [apply perm_swap|]. apply perm_skip, IH.
    + apply Permutation_refl.
Qed.

Lemma sort_reverse_perm l : Permutation l (sort_reverse key l).
Proof.
  induction l as [|x l IH]; simpl.
  - apply perm_nil.
  - eapply perm_trans; [apply perm_skip, IH|]. apply insert_desc_perm.
Qed.

Lemma insert_desc_Forall (P : A -> Prop) x l :
  P x -> Forall P l -> Forall P (insert_desc key x l).
Proof.
  intros Hx Hl. induction Hl as [|y l Hy Hl IH]; simpl.
  - constructor; [assumption|constructor].
  - destruct (chave_lt (key x) (key y)).
    + constructor; assumption.
    + constructor; [assumption|]. constructor; assumption.
Qed.

Lemma insert_desc_sorted x l :
  StronglySorted (desc key) l -> StronglySorted (desc key) (insert_desc key x l).
Proof.
  induction 1 as [|y l Hs IH Hy]; simpl.
  - constructor; constructor.
  - destruct (chave_lt (key x) (key y)) eqn:E.
    + constructor; [assumption|].
      apply insert_desc_Forall; [|assumption].
      unfold desc. apply chave_lt_spec in E. apply chave_ge_spec.
      destruct E as [E | [E1 E2]]; [left; assumption|].
      right. split; [congruence|]. apply Qlt_le_weak. assumption.
    + constructor.
      * constructor; assumption.
      * constructor; [exact E|].
        eapply List.Forall_impl; [|exact Hy].
        intros z Hz. unfold desc in *. eapply chave_ge_trans; eassumption.
Qed.

Lemma sort_reverse_sorted l : StronglySorted (desc key) (sort_reverse key l).
Proof.
  induction l as [|x l IH]; simpl.
  - constructor.
  - apply insert_desc_sorted, IH.
Qed.

(** Inserting does not disturb the members of any key class. *)
Lemma insert_desc_classe k x l :
  List.filter (na_classe key k) (insert_desc key x l)
  = List.filter (na_classe key k) (x :: l).
Proof.
  induction l as [|y l IH]; [reflexivity|].
  simpl insert_desc. destruct (chave_lt (key x) (key y)) eqn:E; [|reflexivity].
  change (List.filter (na_classe key k) (y :: insert_desc key x l))
    with (if na_classe key k y
          then y :: List.filter (na_classe key k) (insert_desc key x l)
          else List.filter (na_classe key k) (insert_desc key x l)).
  rewrite IH. simpl.
  destruct (na_classe key k x) eqn:Ex, (na_classe key k y) eqn:Ey; try reflexivity.
  unfold na_classe in *.
  rewrite (chave_eq_not_lt _ _ _ Ex Ey) in E. discriminate.
Qed.

(** Stability: every key class appears in its original order. *)
Lemma sort_reverse_stable k l :
  List.filter (na_classe key k) (sort_reverse key l) = List.filter (na_classe key k) l.
Proof.
  induction l as [|x l IH]; [reflexivity|].
  simpl sort_reverse. rewrite insert_desc_classe. simpl. rewrite IH. reflexivity.
Qed.

(** A list already in descending order is left as it is. *)
Lemma sort_reverse_id l : StronglySorted (desc key) l -> sort_reverse key l = l.
Proof.
  induction 1 as [|x l Hs IH Hx]; [reflexivity|].
  simpl. rewrite IH. destruct Hx as [|y l Hy _]; [reflexivity|].
  simpl. unfold desc in Hy. rewrite Hy. reflexivity.
Qed.
End SortFacts.

(* ------------------------------------------------------------------ *)
(** ** Which exceptions the synthesis steps raise *)
(* ------------------------------------------------------------------ *)

Lemma bind_Ok {A B} (m : result A) (f : A -> result B) b :
  bind m f = Ok b -> exists a, m = Ok a /\ f a = Ok b.
Proof. destruct m as [a|e]; simpl; [eauto|discriminate]. Qed.

Lemma bind_Raise {A B} (m : result A) (f : A -> result B) e :
  bind m f = Raise e -> m = Raise e \/ exists a, m = Ok a /\ f a = Raise e.
Proof. destruct m as [a|e']; simpl; [eauto|intros [= ->]; auto]. Qed.

Lemma so_Exception_Ok {A} (a : A) : so_Exception (Ok a).
Proof. intros e H. discriminate. Qed.

Lemma so_Exception_Raise {A} e : is_Exception e = true -> so_Exception (@Raise A e).
Proof. intros He e' [= <-]. exact He. Qed.

Lemma so_Exception_bind {A B} (m : result A) (f : A -> result B) :
  so_Exception m -> (forall a, so_Exception (f a)) -> so_Exception (bind m f).
Proof.
  intros Hm Hf e H. apply bind_Raise in H as [H | (a & _ & H)].
  - exact (Hm e H).
  - exact (Hf a e H).
Qed.

Create HintDb excecoes.

Lemma py_get_so d k dflt : so_Exception (py_get d k dflt).
Proof. destruct d; simpl; first [apply so_Exception_Ok | now apply so_Exception_Raise]. Qed.

Lemma py_ge_so v c : so_Exception (py_ge v c).
Proof.
  unfold py_ge. destruct (py_num v);
    first [apply so_Exception_Ok | now apply so_Exception_Raise].
Qed.

Lemma py_len_so v : so_Exception (py_len v).
Proof. destruct v; simpl; first [apply so_Exception_Ok | now apply so_Exception_Raise]. Qed.

Lemma py_iter_so v : so_Exception (py_iter v).
Proof. destruct v; simpl; first [apply so_Exception_Ok | now apply so_Exception_Raise]. Qed.

Lemma py_in_so k v : so_Exception (py_in k v).
Proof. destruct v; simpl; first [apply so_Exception_Ok | now apply so_Exception_Raise]. Qed.

Lemma py_getitem_so v k : so_Exception (py_getitem v k).
Proof.
  destruct v; simpl; try now apply so_Exception_Raise.
  destruct (assoc k entries); first [apply so_Exception_Ok | now apply so_Exception_Raise].
Qed.

Lemma py_items_so v : so_Exception (py_items v).
Proof. destruct v; simpl; first [apply so_Exception_Ok | now apply so_Exception_Raise]. Qed.

Lemma for_each_so {A B} (f : A -> result B) l :
  (forall x, so_Exception (f x)) -> so_Exception (for_each f l).
Proof.
  intros Hf. induction l as [|x l IH]; simpl.
  - apply so_Exception_Ok.
  - apply so_Exception_bind; [apply Hf|]. intros y.
    apply so_Exception_bind; [exact IH|]. intros ys. apply so_Exception_Ok.
Qed.

#[local] Hint Resolve so_Exception_Ok py_get_so py_ge_so py_len_so py_iter_so
  py_in_so py_getitem_so py_items_so : excecoes.

(** Peels binds, conditionals and returns off a goal [so_Exception _]. *)
Ltac so_Exception_tac :=
  repeat first
    [ solve [auto with excecoes]
    | match goal with
      | |- so_Exception (if ?b then _ else _) => destruct b
      | |- so_Exception (Raise _) => now apply so_Exception_Raise
      | |- so_Exception (bind _ _) => apply so_Exception_bind; [|intros ?]
      end ].

Section SynthesisFacts.
Variable hash : string -> Z.
Variable float_mul : Q -> Q -> Q.
Variable format_1f : Q -> string.
Variable utcnow_isoformat : string.

Lemma formatar_confianca_so c : so_Exception (formatar_confianca float_mul format_1f c).
Proof. destruct c; simpl; so_Exception_tac. Qed.

Lemma razao_febraban_so erro : so_Exception (razao_febraban erro).
Proof. unfold razao_febraban. so_Exception_tac. Qed.

Lemma razao_ml_so p : so_Exception (razao_ml float_mul format_1f p).
Proof.
  pose proof formatar_confianca_so.
  unfold razao_ml. so_Exception_tac.
Qed.

Lemma razoes_coletadas_so v p : so_Exception (razoes_coletadas float_mul format_1f v p).
Proof.
  pose proof razao_ml_so. pose proof razao_febraban_so.
  pose proof (for_each_so razao_febraban).
  unfold razoes_coletadas. so_Exception_tac.
Qed.

Lemma coletar_razoes_so v p : so_Exception (coletar_razoes float_mul format_1f v p).
Proof.
  pose proof razoes_coletadas_so. unfold coletar_razoes. so_Exception_tac.
Qed.

Lemma determinar_nivel_risco_so score isf :
  so_Exception (determinar_nivel_risco score isf).
Proof. unfold determinar_nivel_risco. so_Exception_tac. Qed.

Lemma gerar_modo_simples_so isf rs nr score :
  so_Exception (gerar_modo_simples isf rs nr score).
Proof.
  unfold gerar_modo_simples. destruct isf; so_Exception_tac.
Qed.

Lemma determinar_metodos_deteccao_so v p :
  so_Exception (determinar_metodos_deteccao v p).
Proof. unfold determinar_metodos_deteccao. so_Exception_tac. Qed.

Lemma gerar_modo_avancado_so v p d : so_Exception (gerar_modo_avancado hash v p d).
Proof.
  pose proof determinar_metodos_deteccao_so.
  unfold gerar_modo_avancado. so_Exception_tac.
Qed.

Lemma explicacao_try_so isf v p d :
  so_Exception (explicacao_try hash float_mul format_1f utcnow_isoformat isf v p d).
Proof.
  pose proof determinar_nivel_risco_so. pose proof coletar_razoes_so.
  pose proof gerar_modo_simples_so. pose proof gerar_modo_avancado_so.
  unfold explicacao_try. so_Exception_tac.
Qed.

(** C1. For every input, well-formed or not, [gerar_explicacao_completa]
    returns an explanation and never raises; when a step of its [try]
    block raises, what it returns is the fallback explanation, which
    carries the status of the verdict, no reasons, the risk level
    DESCONHECIDO and a fixed message. *)
Theorem gerar_explicacao_completa_nunca_levanta isf v p d :
  exists e,
    gerar_explicacao_completa hash float_mul format_1f utcnow_isoformat isf v p d = Ok e
    /\ (raises (explicacao_try hash float_mul format_1f utcnow_isoformat isf v p d) ->
        e = gerar_explicacao_fallback isf
        /\ exp_status e = (if isf then "FRAUDULENTO" else "VÁLIDO")
        /\ exp_razoes e = []
        /\ exp_nivel_risco e = "DESCONHECIDO"
        /\ exp_mensagem e = "Erro ao gerar explicação detalhada")
    /\ (forall e', explicacao_try hash float_mul format_1f utcnow_isoformat isf v p d = Ok e' ->
        e = e').
Proof.
  unfold gerar_explicacao_completa, try_except_Exception.
  destruct (explicacao_try hash float_mul format_1f utcnow_isoformat isf v p d)
    as [e0|ex] eqn:Htry.
  - exists e0. split; [reflexivity|]. split.
    + intros [ex Hex]. discriminate.
    + intros e' [= <-]. reflexivity.
  - rewrite (explicacao_try_so isf v p d ex Htry).
    exists (gerar_explicacao_fallback isf). split; [reflexivity|]. split.
    + intros _. destruct isf; repeat split; reflexivity.
    + intros e' H. discriminate.
Qed.

Lemma explicacao_try_inv isf v p d e :
  explicacao_try hash float_mul format_1f utcnow_isoformat isf v p d = Ok e ->
  exists score nr rs s a,
    py_get p "score_fraude" (PInt 0) = Ok score
    /\ determinar_nivel_risco score isf = Ok nr
    /\ coletar_razoes float_mul format_1f v p = Ok rs
    /\ gerar_modo_simples isf rs nr score = Ok s
    /\ gerar_modo_avancado hash v p d = Ok a
    /\ e = Completa s a rs (gerar_recomendacao isf nr score) utcnow_isoformat.
Proof.
  unfold explicacao_try. intros H.
  apply bind_Ok in H as (score & Hscore & H).
  apply bind_Ok in H as (nr & Hnr & H).
  apply bind_Ok in H as (rs & Hrs & H).
  apply bind_Ok in H as (s & Hs & H).
  apply bind_Ok in H as (a & Ha & H).
  injection H as <-. exists score, nr, rs, s, a. auto 10.
Qed.

(** Either the [try] block returns and so does the function, or it
    raises and the function returns the fallback. *)
Lemma gerar_explicacao_completa_casos isf v p d e :
  gerar_explicacao_completa hash float_mul format_1f utcnow_isoformat isf v p d = Ok e ->
  explicacao_try hash float_mul format_1f utcnow_isoformat isf v p d = Ok e
  \/ (raises (explicacao_try hash float_mul format_1f utcnow_isoformat isf v p d)
      /\ e = gerar_explicacao_fallback isf).
Proof.
  unfold gerar_explicacao_completa, try_except_Exception.
  destruct (explicacao_try hash float_mul format_1f utcnow_isoformat isf v p d)
    as [e0|ex] eqn:Htry.
  - intros [= <-]. left. reflexivity.
  - rewrite (explicacao_try_so isf v p d ex Htry). intros [= <-].
    right. split; [exists ex|]; reflexivity.
Qed.

Lemma determinar_nivel_risco_nao_fraude score :
  determinar_nivel_risco score false = Ok "BAIXO".
Proof. reflexivity. Qed.

(** C2, as amended.  When [is_fraudulento] is false the risk tier is
    BAIXO whatever the score is, and every explanation produced by the
    [try] block is labelled BAIXO; the explanation returned when the
    block raises is labelled DESCONHECIDO instead. *)
Theorem nao_fraude_nivel_baixo v p d :
  (forall score, determinar_nivel_risco score false = Ok "BAIXO")
  /\ forall e,
      gerar_explicacao_completa hash float_mul format_1f utcnow_isoformat false v p d = Ok e ->
      (explicacao_try hash float_mul format_1f utcnow_isoformat false v p d = Ok e
       /\ exp_nivel_risco e = "BAIXO")
      \/ (raises (explicacao_try hash float_mul format_1f utcnow_isoformat false v p d)
          /\ e = gerar_explicacao_fallback false
          /\ exp_nivel_risco e = "DESCONHECIDO").
Proof.
  split; [exact determinar_nivel_risco_nao_fraude|].
  intros e He. apply gerar_explicacao_completa_casos in He as [He | [Hr ->]].
  - left. split; [exact He|].
    apply explicacao_try_inv in He as (score & nr & rs & s & a & _ & _ & _ & _ & _ & ->).
    reflexivity.
  - right. auto.
Qed.

Lemma nivel_do_score_limiares (x : Q) :
  ((80 <= x)%Q -> nivel_do_score x = "CRITICO")
  /\ ((60 <= x)%Q -> (x < 80)%Q -> nivel_do_score x = "ALTO")
  /\ ((40 <= x)%Q -> (x < 60)%Q -> nivel_do_score x = "MEDIO")
  /\ ((x < 40)%Q -> nivel_do_score x = "BAIXO").
Proof.
  unfold nivel_do_score.
  assert (Hle : forall c, Qle_bool c x = true <-> (c <= x)%Q) by (intros; apply Qle_bool_iff).
  assert (Hlt : forall c, (x < c)%Q -> Qle_bool c x = false).
  { intros c Hc. destruct (Qle_bool c x) eqn:E; [|reflexivity].
    apply Hle in E. exfalso. eapply Qlt_not_le; eassumption. }
  repeat split.
  - intros H. apply Hle in H. rewrite H. reflexivity.
  - intros H1 H2. rewrite (Hlt _ H2). apply Hle in H1. rewrite H1. reflexivity.
  - intros H1 H2. assert (H3 : (x < 80)%Q) by (eapply Qlt_trans; [exact H2|reflexivity]).
    rewrite (Hlt _ H3), (Hlt _ H2). apply Hle in H1. rewrite H1. reflexivity.
  - intros H. assert (H60 : (x < 60)%Q) by (eapply Qlt_trans; [exact H|reflexivity]).
    assert (H80 : (x < 80)%Q) by (eapply Qlt_trans; [exact H|reflexivity]).
    rewrite (Hlt _ H80), (Hlt _ H60), (Hlt _ H). reflexivity.
Qed.

(** A fraud's tier is computed from a number. *)
Lemma determinar_nivel_risco_numero score nr :
  determinar_nivel_risco score true = Ok nr -> exists x, py_num score = Some x.
Proof.
  unfold determinar_nivel_risco. simpl. intros H.
  apply bind_Ok in H as (b & H & _). unfold py_ge in H.
  destruct (py_num score) as [x|]; [eauto|discriminate].
Qed.

Lemma determinar_nivel_risco_do_score score x :
  py_num score = Some x ->
  determinar_nivel_risco score true = Ok (nivel_do_score x).
Proof.
  intros Hx. unfold determinar_nivel_risco, nivel_do_score, py_ge. rewrite Hx. simpl.
  destruct (Qle_bool 80 x); [reflexivity|]. simpl.
  destruct (Qle_bool 60 x); [reflexivity|]. simpl.
  destruct (Qle_bool 40 x); reflexivity.
Qed.

(** C5, as amended.  For a fraud, the risk tier is a function of the
    classifier score alone: CRITICO from 80 up, ALTO from 60 to below
    80, MEDIO from 40 to below 60, and BAIXO below 40.  The risk level
    the explanation of a fraud reports, the label of its recommendation,
    follows the score too, but is MÉDIO at every score below 60: a fraud
    whose score is below 40 reports MÉDIO, not BAIXO, and no field of
    the explanation holds the tier.  The explanation returned when the
    [try] block raises reports DESCONHECIDO. *)
Theorem determinar_nivel_risco_fraude :
  (forall score x,
     py_num score = Some x ->
     determinar_nivel_risco score true = Ok (nivel_do_score x)
     /\ ((80 <= x)%Q -> determinar_nivel_risco score true = Ok "CRITICO")
     /\ ((60 <= x)%Q -> (x < 80)%Q -> determinar_nivel_risco score true = Ok "ALTO")
     /\ ((40 <= x)%Q -> (x < 60)%Q -> determinar_nivel_risco score true = Ok "MEDIO")
     /\ ((x < 40)%Q -> determinar_nivel_risco score true = Ok "BAIXO"))
  /\ (forall v p d e,
        gerar_explicacao_completa hash float_mul format_1f utcnow_isoformat true v p d = Ok e ->
        (exists score x s a rs,
            py_get p "score_fraude" (PInt 0) = Ok score
            /\ py_num score = Some x
            /\ gerar_modo_simples true rs (nivel_do_score x) score = Ok s
            /\ e = Completa s a rs (gerar_recomendacao true (nivel_do_score x) score)
                     utcnow_isoformat
            /\ ((80 <= x)%Q -> exp_nivel_risco e = "CRÍTICO")
            /\ ((60 <= x)%Q -> (x < 80)%Q -> exp_nivel_risco e = "ALTO")
            /\ ((40 <= x)%Q -> (x < 60)%Q -> exp_nivel_risco e = "MÉDIO")
            /\ ((x < 40)%Q -> exp_nivel_risco e = "MÉDIO" /\ exp_nivel_risco e <> "BAIXO"))
        \/ (raises (explicacao_try hash float_mul format_1f utcnow_isoformat true v p d)
            /\ e = gerar_explicacao_fallback true
            /\ exp_nivel_risco e = "DESCONHECIDO")).
Proof.
  split.
  - intros score x Hx.
    pose proof (determinar_nivel_risco_do_score score x Hx) as H.
    destruct (nivel_do_score_limiares x) as (H1 & H2 & H3 & H4).
    split; [exact H|].
    repeat split; intros; rewrite H; f_equal; auto.
  - intros v p d e He.
    apply gerar_explicacao_completa_casos in He as [He | [Hr ->]]; [left|right; auto].
    apply explicacao_try_inv in He
      as (score & nr & rs & s & a & Hscore & Hnr & _ & Hs & _ & ->).
    destruct (determinar_nivel_risco_numero score nr Hnr) as [x Hx].
    rewrite (determinar_nivel_risco_do_score score x Hx) in Hnr. injection Hnr as <-.
    exists score, x, s, a, rs.
    destruct (nivel_do_score_limiares x) as (H1 & H2 & H3 & H4).
    split; [exact Hscore|]. split; [exact Hx|]. split; [exact Hs|].
    split; [reflexivity|]. simpl.
    split; [intros Hc; rewrite (H1 Hc); reflexivity|].
    split; [intros Ha Hb; rewrite (H2 Ha Hb); reflexivity|].
    split; [intros Ha Hb; rewrite (H3 Ha Hb); reflexivity|].
    intros Hc. rewrite (H4 Hc). split; [reflexivity|discriminate].
Qed.

(** The label of a recommendation, by verdict and tier. *)
Lemma gerar_recomendacao_rotulo isf nr score :
  rec_nivel_risco (gerar_recomendacao isf nr score)
  = if negb isf then "BAIXO"
    else if String.eqb nr "CRITICO" then "CRÍTICO"
    else if String.eqb nr "ALTO" then "ALTO"
    else "MÉDIO".
Proof.
  unfold gerar_recomendacao. destruct isf; simpl; [|reflexivity].
  destruct (String.eqb nr "CRITICO"); [reflexivity|].
  destruct (String.eqb nr "ALTO"); reflexivity.
Qed.

Lemma gerar_recomendacao_modelo isf nr score :
  gerar_recomendacao isf nr score
  = if negb isf then recomendacao_BAIXO
    else if String.eqb nr "CRITICO" then recomendacao_CRITICO
    else if String.eqb nr "ALTO" then recomendacao_ALTO
    else recomendacao_MEDIO.
Proof.
  unfold gerar_recomendacao. destruct isf; simpl; [|reflexivity].
  destruct (String.eqb nr "CRITICO"); [reflexivity|].
  destruct (String.eqb nr "ALTO"); reflexivity.
Qed.

(** The label of a recommendation is never that of the fallback. *)
Lemma gerar_recomendacao_conhecida isf nr score :
  rec_nivel_risco (gerar_recomendacao isf nr score) <> "DESCONHECIDO".
Proof.
  rewrite gerar_recomendacao_rotulo. destruct isf; simpl; [|discriminate].
  destruct (String.eqb nr "CRITICO"); [discriminate|].
  destruct (String.eqb nr "ALTO"); discriminate.
Qed.

(** C4, as amended.  The recommendation is a function of the verdict
    [is_fraudulento] and of the risk tier together, never of the score:
    it is one of four fixed texts, the BAIXO one for every non-fraud and,
    for a fraud, the CRÍTICO one at tier CRITICO, the ALTO one at tier
    ALTO and the MÉDIO one at every other tier.  Two syntheses with the
    same verdict and the same tier that both return from the [try]
    block render the same recommendation.  Every synthesis either
    returns from the [try] block with the recommendation of its verdict
    and tier, or falls back to the fixed recommendation labelled
    DESCONHECIDO, which is none of the four: two syntheses that fall
    back return the same explanation for the same verdict, and one that
    falls back differs in recommendation and label from one that does
    not. *)
Theorem gerar_recomendacao_por_veredito_e_nivel isf nr :
  (forall score,
     gerar_recomendacao isf nr score
     = if negb isf then recomendacao_BAIXO
       else if String.eqb nr "CRITICO" then recomendacao_CRITICO
       else if String.eqb nr "ALTO" then recomendacao_ALTO
       else recomendacao_MEDIO)
  /\ map rec_nivel_risco
         [recomendacao_BAIXO; recomendacao_CRITICO; recomendacao_ALTO; recomendacao_MEDIO]
     = ["BAIXO"; "CRÍTICO"; "ALTO"; "MÉDIO"]
  /\ (forall v1 p1 d1 e1 v2 p2 d2 e2 score1 score2,
        explicacao_try hash float_mul format_1f utcnow_isoformat isf v1 p1 d1 = Ok e1 ->
        explicacao_try hash float_mul format_1f utcnow_isoformat isf v2 p2 d2 = Ok e2 ->
        py_get p1 "score_fraude" (PInt 0) = Ok score1 ->
        py_get p2 "score_fraude" (PInt 0) = Ok score2 ->
        determinar_nivel_risco score1 isf = Ok nr ->
        determinar_nivel_risco score2 isf = Ok nr ->
        exp_recomendacao e1 = exp_recomendacao e2
        /\ exp_recomendacao e1 = Some (gerar_recomendacao isf nr score1))
  /\ (forall v p d e,
        gerar_explicacao_completa hash float_mul format_1f utcnow_isoformat isf v p d = Ok e ->
        (explicacao_try hash float_mul format_1f utcnow_isoformat isf v p d = Ok e
         /\ exists score nivel,
             py_get p "score_fraude" (PInt 0) = Ok score
             /\ determinar_nivel_risco score isf = Ok nivel
             /\ exp_recomendacao e = Some (gerar_recomendacao isf nivel score)
             /\ In (gerar_recomendacao isf nivel score)
                   [recomendacao_BAIXO; recomendacao_CRITICO;
                    recomendacao_ALTO; recomendacao_MEDIO]
             /\ (isf = false -> exp_recomendacao e = Some recomendacao_BAIXO))
        \/ (raises (explicacao_try hash float_mul format_1f utcnow_isoformat isf v p d)
            /\ e = gerar_explicacao_fallback isf
            /\ exp_recomendacao e = None
            /\ exp_nivel_risco e = "DESCONHECIDO"
            /\ exp_mensagem e = "Erro ao gerar explicação detalhada"))
  /\ (forall v1 p1 d1 e1 v2 p2 d2 e2,
        gerar_explicacao_completa hash float_mul format_1f utcnow_isoformat isf v1 p1 d1 = Ok e1 ->
        gerar_explicacao_completa hash float_mul format_1f utcnow_isoformat isf v2 p2 d2 = Ok e2 ->
        (raises (explicacao_try hash float_mul format_1f utcnow_isoformat isf v1 p1 d1) ->
         raises (explicacao_try hash float_mul format_1f utcnow_isoformat isf v2 p2 d2) ->
         e1 = e2)
        /\ (~ raises (explicacao_try hash float_mul format_1f utcnow_isoformat isf v1 p1 d1) ->
            raises (explicacao_try hash float_mul format_1f utcnow_isoformat isf v2 p2 d2) ->
            exp_recomendacao e1 <> exp_recomendacao e2
            /\ exp_nivel_risco e1 <> exp_nivel_risco e2)).
Proof.
  split; [intros score; apply gerar_recomendacao_modelo|].
  split; [reflexivity|].
  split.
  { intros v1 p1 d1 e1 v2 p2 d2 e2 score1 score2 H1 H2 Hs1 Hs2 Hn1 Hn2.
    apply explicacao_try_inv in H1 as (s1 & n1 & rs1 & m1 & a1 & Hs1' & Hn1' & _ & _ & _ & ->).
    apply explicacao_try_inv in H2 as (s2 & n2 & rs2 & m2 & a2 & Hs2' & Hn2' & _ & _ & _ & ->).
    rewrite Hs1 in Hs1'. injection Hs1' as <-.
    rewrite Hs2 in Hs2'. injection Hs2' as <-.
    rewrite Hn1 in Hn1'. injection Hn1' as <-.
    rewrite Hn2 in Hn2'. injection Hn2' as <-.
    simpl. rewrite !gerar_recomendacao_modelo. split; reflexivity. }
  split.
  { intros v p d e He.
    apply gerar_explicacao_completa_casos in He as [He | [Hr ->]].
    - left. split; [exact He|].
      apply explicacao_try_inv in He
        as (score & nivel & rs & s & a & Hscore & Hnivel & _ & _ & _ & ->).
      exists score, nivel. split; [exact Hscore|]. split; [exact Hnivel|].
      split; [reflexivity|]. split.
      + rewrite gerar_recomendacao_modelo. simpl.
        destruct isf; simpl; [|auto].
        destruct (String.eqb nivel "CRITICO"); [auto|].
        destruct (String.eqb nivel "ALTO"); auto.
      + intros ->. simpl. rewrite gerar_recomendacao_modelo. reflexivity.
    - right. split; [exact Hr|]. repeat split; reflexivity. }
  intros v1 p1 d1 e1 v2 p2 d2 e2 H1 H2.
  apply gerar_explicacao_completa_casos in H1 as [H1 | [Hr1 ->]];
    apply gerar_explicacao_completa_casos in H2 as [H2 | [Hr2 ->]].
  - split; [intros [ex Hx]; congruence|]. intros _ [ex Hx]. congruence.
  - split; [intros [ex Hx]; congruence|]. intros _ _.
    apply explicacao_try_inv in H1
      as (score & nivel & rs & s & a & _ & _ & _ & _ & _ & ->).
    simpl. split; [discriminate|]. apply gerar_recomendacao_conhecida.
  - split; [intros _ [ex Hx]; congruence|]. intros Hn. contradiction.
  - split; [reflexivity|]. intros Hn. contradiction.
Qed.

(* ------------------------------------------------------------------ *)
(** ** The reasons collected *)
(* ------------------------------------------------------------------ *)

Lemma TRADUCOES_ERROS_categorias s t :
  assoc s TRADUCOES_ERROS = Some t -> is_Some (assoc (tr_categoria t) CATEGORIAS).
Proof.
  unfold TRADUCOES_ERROS. cbn [assoc].
  repeat match goal with
         | |- context [String.eqb s ?k] => destruct (String.eqb s k)
         end;
    intros [= <-]; vm_compute; eauto.
Qed.

(** C10.  A validation error string whose category key is not a key of
    CATEGORIAS gives a reason that keeps that key in [categoria] and
    takes name, icon and colour from the entry [padrao_ml]; this is the
    case of every error string TRADUCOES_ERROS does not list, whose key
    is "outros" and whose two texts (and title) are the error string
    itself. *)
Theorem razao_categoria_fora_da_tabela (erro : string) :
  exists r,
    razao_febraban (PStr erro) = Ok r
    /\ assoc "outros" CATEGORIAS = None
    /\ (assoc erro TRADUCOES_ERROS = None -> categoria r = "outros")
    /\ (assoc (categoria r) CATEGORIAS = None ->
        assoc erro TRADUCOES_ERROS = None
        /\ categoria r = "outros"
        /\ categoria_nome r = "Padrão Detectado por IA"
        /\ icone r = "🤖"
        /\ cor r = "purple"
        /\ assoc "padrao_ml" CATEGORIAS
           = Some {| cat_icone := icone r; cat_nome := categoria_nome r; cat_cor := cor r |}
        /\ titulo r = PStr erro
        /\ descricao_simples r = PStr erro
        /\ descricao_avancada r = PStr erro).
Proof.
  unfold razao_febraban. cbn [py_hashable negb].
  destruct (assoc erro TRADUCOES_ERROS) as [t|] eqn:Ht.
  - eexists. split; [reflexivity|]. split; [reflexivity|]. split; [discriminate|].
    intros Hnone. change (assoc (tr_categoria t) CATEGORIAS = None) in Hnone.
    destruct (TRADUCOES_ERROS_categorias _ _ Ht) as [c Hc].
    rewrite Hc in Hnone. discriminate.
  - eexists. split; [reflexivity|]. split; [reflexivity|]. split; [reflexivity|].
    intros _. repeat split; reflexivity.
Qed.

Lemma for_each_Forall2 {A B} (f : A -> result B) l ys :
  for_each f l = Ok ys -> Forall2 (fun x y => f x = Ok y) l ys.
Proof.
  revert ys. induction l as [|x l IH]; simpl; intros ys H.
  - injection H as <-. constructor.
  - apply bind_Ok in H as (y & Hy & H).
    apply bind_Ok in H as (ys' & Hys & H). injection H as <-.
    constructor; auto.
Qed.

Lemma for_each_total {A B} (f : A -> result B) l :
  (forall x, In x l -> exists y, f x = Ok y) -> exists ys, for_each f l = Ok ys.
Proof.
  induction l as [|x l IH]; simpl; intros H.
  - eauto.
  - destruct (H x) as [y Hy]; [auto|]. destruct IH as [ys Hys]; [auto|].
    rewrite Hy. simpl. rewrite Hys. simpl. eauto.
Qed.

Lemma razao_febraban_campos erro r :
  razao_febraban erro = Ok r ->
  gravidade r = "critica" /\ impacto r = PFloat 1 /\ fonte r = "Validação FEBRABAN".
Proof.
  unfold razao_febraban. destruct (py_hashable erro); simpl; [|discriminate].
  intros [= <-]. repeat split.
Qed.

Lemma razao_febraban_chave erro r :
  razao_febraban erro = Ok r -> chave_razao r = (4%Z, 1%Q).
Proof.
  intros H. apply razao_febraban_campos in H as (Hg & Hi & _).
  unfold chave_razao. rewrite Hg, Hi. reflexivity.
Qed.

Lemma gravidade_da_confianca_limiares (c : Q) :
  ((float_0_8 <= c)%Q -> gravidade_da_confianca c = "alta")
  /\ ((float_0_6 <= c)%Q -> (c < float_0_8)%Q -> gravidade_da_confianca c = "media")
  /\ ((c < float_0_6)%Q -> gravidade_da_confianca c = "baixa").
Proof.
  unfold gravidade_da_confianca.
  assert (Hle : forall k, Qle_bool k c = true <-> (k <= c)%Q) by (intros; apply Qle_bool_iff).
  assert (Hlt : forall k, (c < k)%Q -> Qle_bool k c = false).
  { intros k Hk. destruct (Qle_bool k c) eqn:E; [|reflexivity].
    apply Hle in E. exfalso. eapply Qlt_not_le; eassumption. }
  repeat split.
  - intros H. apply Hle in H. rewrite H. reflexivity.
  - intros H1 H2. rewrite (Hlt _ H2). apply Hle in H1. rewrite H1. reflexivity.
  - intros H. assert (H8 : (c < float_0_8)%Q) by (eapply Qlt_trans; [exact H|reflexivity]).
    rewrite (Hlt _ H8), (Hlt _ H). reflexivity.
Qed.

Lemma razao_ml_campos p r :
  razao_ml float_mul format_1f p = Ok r ->
  exists confianca c,
    py_get p "confianca" (PInt 0) = Ok confianca
    /\ py_num confianca = Some c
    /\ impacto r = confianca
    /\ gravidade r = gravidade_da_confianca c
    /\ categoria r = "padrao_ml"
    /\ fonte r = "Modelo de IA".
Proof.
  unfold razao_ml. intros H.
  apply bind_Ok in H as (confianca & Hc & H).
  apply bind_Ok in H as (g & Hg & H).
  apply bind_Ok in H as (pct & _ & H).
  apply bind_Ok in H as (usadas & _ & H).
  apply bind_Ok in H as (n & _ & H). injection H as <-.
  unfold py_ge in Hg. destruct (py_num confianca) as [c|] eqn:Hnum; [|discriminate].
  exists confianca, c. repeat split; try assumption. simpl.
  unfold gravidade_da_confianca. simpl in Hg.
  destruct (Qle_bool float_0_8 c); simpl in Hg; [congruence|].
  destruct (Qle_bool float_0_6 c); simpl in Hg; congruence.
Qed.

Lemma gravidade_da_confianca_rank c :
  (default 0 (assoc (gravidade_da_confianca c) ordem_gravidade) < 4)%Z.
Proof.
  unfold gravidade_da_confianca.
  destruct (Qle_bool float_0_8 c); [reflexivity|]. destruct (Qle_bool float_0_6 c); reflexivity.
Qed.

(** The collected list: the validator's reasons in the order of the
    errors, then the classifier's reason if there is one. *)
Lemma razoes_coletadas_inv v p coletadas :
  razoes_coletadas float_mul format_1f v p = Ok coletadas ->
  exists erros vs ml flag,
    bind (py_get v "erros" (PList [])) py_iter = Ok erros
    /\ Forall2 (fun erro r => razao_febraban erro = Ok r) erros vs
    /\ py_get p "is_fraudulento" PNone = Ok flag
    /\ (if py_truthy flag then exists r, razao_ml float_mul format_1f p = Ok r /\ ml = [r]
        else ml = [])
    /\ coletadas = (vs ++ ml)%list.
Proof.
  unfold razoes_coletadas. intros H.
  apply bind_Ok in H as (ev & Hev & H).
  apply bind_Ok in H as (erros & Herros & H).
  apply bind_Ok in H as (vs & Hvs & H).
  apply bind_Ok in H as (flag & Hflag & H).
  exists erros, vs, (if py_truthy flag
                     then match razao_ml float_mul format_1f p with Ok r => [r] | Raise _ => [] end
                     else []), flag.
  split; [rewrite Hev; exact Herros|].
  split; [apply for_each_Forall2; exact Hvs|].
  split; [exact Hflag|].
  destruct (py_truthy flag).
  - apply bind_Ok in H as (r & Hr & H). injection H as <-. rewrite Hr.
    split; [eauto|reflexivity].
  - injection H as <-. split; [reflexivity|]. symmetry. apply app_nil_r.
Qed.

(** Every collected reason has a number as impact, so that the
    comparisons of the sort are comparisons of numbers. *)
Lemma razoes_coletadas_impacto v p coletadas :
  razoes_coletadas float_mul format_1f v p = Ok coletadas ->
  Forall (fun r => is_Some (py_num (impacto r))) coletadas.
Proof.
  intros H. apply razoes_coletadas_inv in H
    as (erros & vs & ml & flag & _ & Hvs & _ & Hml & ->).
  apply Forall_app. split.
  - clear Hml. induction Hvs as [|e r es rs He _ IH]; constructor; [|exact IH].
    apply razao_febraban_campos in He as (_ & Hi & _). rewrite Hi. simpl. eauto.
  - destruct (py_truthy flag).
    + destruct Hml as (r & Hr & ->). constructor; [|constructor].
      apply razao_ml_campos in Hr as (cf & c & _ & Hc & Hi & _).
      rewrite Hi, Hc. eauto.
    + subst ml. constructor.
Qed.

(** The collected list is already in descending key order. *)
Lemma razoes_coletadas_desc v p coletadas :
  razoes_coletadas float_mul format_1f v p = Ok coletadas ->
  StronglySorted (desc chave_razao) coletadas.
Proof.
  intros H. apply razoes_coletadas_inv in H as (erros & vs & ml & flag & _ & Hvs & _ & Hml & ->).
  assert (Hk : Forall (fun r => chave_razao r = (4%Z, 1%Q)) vs).
  { clear Hml. induction Hvs as [|e r es rs He _ IH]; constructor.
    - eapply razao_febraban_chave; exact He.
    - exact IH. }
  assert (Hm : Forall (fun r => (fst (chave_razao r) < 4)%Z) ml /\ StronglySorted (desc chave_razao) ml).
  { destruct (py_truthy flag).
    - destruct Hml as (r & Hr & ->). split; repeat constructor.
      apply razao_ml_campos in Hr as (cf & c & _ & _ & _ & Hg & _).
      unfold chave_razao. simpl. rewrite Hg. apply gravidade_da_confianca_rank.
    - subst ml. split; constructor. }
  destruct Hm as [Hm Hsm].
  clear Hvs Hml. induction Hk as [|r vs Hr Hk IH]; simpl.
  - exact Hsm.
  - constructor; [exact IH|].
    apply Forall_app. split.
    + eapply List.Forall_impl; [|exact Hk]. intros r' Hr'.
      unfold desc. rewrite Hr, Hr'. reflexivity.
    + eapply List.Forall_impl; [|exact Hm]. intros m Hlt.
      unfold desc. apply chave_ge_spec. left. rewrite Hr. exact Hlt.
Qed.

Lemma coletar_razoes_inv v p rs :
  coletar_razoes float_mul format_1f v p = Ok rs ->
  exists coletadas,
    razoes_coletadas float_mul format_1f v p = Ok coletadas
    /\ rs = sort_reverse chave_razao coletadas.
Proof.
  unfold coletar_razoes. intros H.
  apply bind_Ok in H as (coletadas & Hc & H). injection H as <-. eauto.
Qed.

(** The sort leaves the collected list as it is. *)
Lemma coletar_razoes_coletadas v p rs :
  coletar_razoes float_mul format_1f v p = Ok rs -> razoes_coletadas float_mul format_1f v p = Ok rs.
Proof.
  intros H. apply coletar_razoes_inv in H as (coletadas & Hc & ->).
  rewrite (sort_reverse_id chave_razao coletadas); [exact Hc|].
  eapply razoes_coletadas_desc; exact Hc.
Qed.

Lemma Forall2_fonte_validacao erros vs :
  Forall2 (fun erro r => razao_febraban erro = Ok r) erros vs ->
  Forall (fun r => da_validacao r = true /\ do_modelo r = false) vs.
Proof.
  induction 1 as [|e r es rs He _ IH]; constructor; [|exact IH].
  apply razao_febraban_campos in He as (_ & _ & Hf).
  unfold da_validacao, do_modelo. rewrite Hf. split; reflexivity.
Qed.

(** C3.  [coletar_razoes] returns the collected reasons (those of the
    validator, in the order of its errors, then the one of the
    classifier, if any) sorted in descending order of the key
    (rank of the severity, impact), the ranks being critica 4, alta 3,
    media 2, baixa 1; the sort is stable, on the collected list as on any
    other: the reasons of every key class keep their collection order. *)
Theorem coletar_razoes_ordenacao_estavel v p rs :
  coletar_razoes float_mul format_1f v p = Ok rs ->
  exists coletadas vs ml,
    razoes_coletadas float_mul format_1f v p = Ok coletadas
    /\ coletadas = (vs ++ ml)%list
    /\ Forall (fun r => da_validacao r = true) vs
    /\ Forall (fun r => do_modelo r = true) ml
    /\ (length ml <= 1)%nat
    /\ rs = sort_reverse chave_razao coletadas
    /\ Permutation coletadas rs
    /\ StronglySorted (desc chave_razao) rs
    /\ (forall k, List.filter (na_classe chave_razao k) rs
                  = List.filter (na_classe chave_razao k) coletadas)
    /\ ordem_gravidade = [("critica", 4%Z); ("alta", 3%Z); ("media", 2%Z); ("baixa", 1%Z)]
    /\ (forall l : list Razao,
          Permutation l (sort_reverse chave_razao l)
          /\ StronglySorted (desc chave_razao) (sort_reverse chave_razao l)
          /\ forall k, List.filter (na_classe chave_razao k) (sort_reverse chave_razao l)
                       = List.filter (na_classe chave_razao k) l).
Proof.
  intros H. apply coletar_razoes_inv in H as (coletadas & Hc & ->).
  destruct (razoes_coletadas_inv _ _ _ Hc)
    as (erros & vs & ml & flag & _ & Hvs & _ & Hml & Heq).
  exists coletadas, vs, ml.
  split; [exact Hc|]. split; [exact Heq|].
  split.
  { eapply List.Forall_impl; [|apply (Forall2_fonte_validacao _ _ Hvs)].
    intros r [Hr _]. exact Hr. }
  split.
  { destruct (py_truthy flag).
    - destruct Hml as (r & Hr & ->). constructor; [|constructor].
      apply razao_ml_campos in Hr as (cf & c & _ & _ & _ & _ & _ & Hf).
      unfold do_modelo. rewrite Hf. reflexivity.
    - subst ml. constructor. }
  split.
  { destruct (py_truthy flag).
    - destruct Hml as (r & _ & ->). simpl. lia.
    - subst ml. simpl. lia. }
  split; [reflexivity|].
  split; [apply sort_reverse_perm|].
  split; [apply sort_reverse_sorted|].
  split; [intros k; apply sort_reverse_stable|].
  split; [reflexivity|].
  intros l. split; [apply sort_reverse_perm|].
  split; [apply sort_reverse_sorted|].
  intros k. apply sort_reverse_stable.
Qed.

Lemma filter_app_fontes vs ml :
  Forall (fun r => da_validacao r = true /\ do_modelo r = false) vs ->
  Forall (fun r => da_validacao r = false /\ do_modelo r = true) ml ->
  List.filter da_validacao (vs ++ ml) = vs /\ List.filter do_modelo (vs ++ ml) = ml.
Proof.
  intros Hvs Hml. rewrite !List.filter_app.
  assert (H1 : List.filter da_validacao vs = vs /\ List.filter do_modelo vs = []).
  { induction Hvs as [|r vs [Ha Hb] _ [IH1 IH2]]; [split; reflexivity|].
    simpl. rewrite Ha, Hb, IH1, IH2. split; reflexivity. }
  assert (H2 : List.filter da_validacao ml = [] /\ List.filter do_modelo ml = ml).
  { induction Hml as [|r ml [Ha Hb] _ [IH1 IH2]]; [split; reflexivity|].
    simpl. rewrite Ha, Hb, IH1, IH2. split; reflexivity. }
  destruct H1 as [-> ->], H2 as [-> ->]. rewrite app_nil_r. split; reflexivity.
Qed.

Lemma Forall2_length_eq {A B} (R : A -> B -> Prop) l1 l2 :
  Forall2 R l1 l2 -> length l1 = length l2.
Proof. induction 1; simpl; congruence. Qed.

(** C6.  Whenever [coletar_razoes] returns, each element of the error
    list has given exactly one reason, of severity critica and impact
    1.0, so that the validator's reasons are as many as the errors; the
    classifier has given one reason if it flags a fraud and none
    otherwise, with the confidence as impact and the severity alta from
    confidence 0.8 up, media from 0.6 to below 0.8 and baixa below 0.6
    (0.8 and 0.6 being the floats of these literals).
    On well-formed results [coletar_razoes] does return. *)
Theorem coletar_razoes_sinais v p :
  (forall rs,
     coletar_razoes float_mul format_1f v p = Ok rs ->
     exists erros vs ml flag,
       bind (py_get v "erros" (PList [])) py_iter = Ok erros
       /\ rs = (vs ++ ml)%list
       /\ List.filter da_validacao rs = vs
       /\ List.filter do_modelo rs = ml
       /\ length vs = length erros
       /\ Forall2 (fun erro r =>
                     razao_febraban erro = Ok r
                     /\ gravidade r = "critica"
                     /\ impacto r = PFloat 1) erros vs
       /\ py_get p "is_fraudulento" PNone = Ok flag
       /\ (if py_truthy flag
           then exists r confianca c,
               ml = [r]
               /\ py_get p "confianca" (PInt 0) = Ok confianca
               /\ py_num confianca = Some c
               /\ impacto r = confianca
               /\ gravidade r = gravidade_da_confianca c
               /\ ((float_0_8 <= c)%Q -> gravidade r = "alta")
               /\ ((float_0_6 <= c)%Q -> (c < float_0_8)%Q -> gravidade r = "media")
               /\ ((c < float_0_6)%Q -> gravidade r = "baixa")
           else ml = []))
  /\ (validacao_bem_formada v -> predicao_bem_formada p ->
      exists rs, coletar_razoes float_mul format_1f v p = Ok rs).
Proof.
  split.
  - intros rs H. apply coletar_razoes_coletadas in H.
    apply razoes_coletadas_inv in H
      as (erros & vs & ml & flag & Herros & Hvs & Hflag & Hml & ->).
    exists erros, vs, ml, flag.
    assert (Hfv := Forall2_fonte_validacao _ _ Hvs).
    assert (Hfm : Forall (fun r => da_validacao r = false /\ do_modelo r = true) ml).
    { destruct (py_truthy flag).
      - destruct Hml as (r & Hr & ->). constructor; [|constructor].
        apply razao_ml_campos in Hr as (cf & c & _ & _ & _ & _ & _ & Hf).
        unfold da_validacao, do_modelo. rewrite Hf. split; reflexivity.
      - subst ml. constructor. }
    destruct (filter_app_fontes vs ml Hfv Hfm) as [F1 F2].
    split; [exact Herros|]. split; [reflexivity|].
    split; [exact F1|]. split; [exact F2|].
    split; [symmetry; eapply Forall2_length_eq; exact Hvs|].
    split.
    { clear -Hvs. induction Hvs as [|e r es rs He _ IH]; constructor; [|exact IH].
      destruct (razao_febraban_campos _ _ He) as (Hg & Hi & _). auto. }
    split; [exact Hflag|].
    destruct (py_truthy flag); [|exact Hml].
    destruct Hml as (r & Hr & ->).
    apply razao_ml_campos in Hr as (cf & c & Hcf & Hc & Hi & Hg & _).
    exists r, cf, c.
    destruct (gravidade_da_confianca_limiares c) as (L1 & L2 & L3).
    rewrite Hg. auto 10.
  - intros [erros Herros] (flag & Hflag & Hml).
    unfold coletar_razoes, razoes_coletadas.
    rewrite Herros. simpl.
    destruct (for_each_total razao_febraban (map PStr erros)) as [vs Hvs].
    { intros x Hx. apply in_map_iff in Hx as (s & <- & _).
      unfold razao_febraban. simpl. eauto. }
    rewrite Hvs. simpl. rewrite Hflag. simpl.
    destruct (py_truthy flag); [|simpl; eauto].
    destruct Hml as (x & n & Hx & Hn); [reflexivity|].
    unfold razao_ml. rewrite Hx. simpl.
    apply bind_Ok in Hn as (u & Hu & Hn).
    destruct (Qle_bool float_0_8 x); simpl;
      [|destruct (Qle_bool float_0_6 x); simpl]; rewrite Hu; simpl; rewrite Hn; simpl; eauto.
Qed.

(* ------------------------------------------------------------------ *)
(** ** What the explanation depends on *)
(* ------------------------------------------------------------------ *)

Lemma result_map_bind {A B C} (g : B -> C) (m : result A) (k1 k2 : A -> result B) :
  (forall a, result_map g (k1 a) = result_map g (k2 a)) ->
  result_map g (bind m k1) = result_map g (bind m k2).
Proof. intros H. destruct m as [a|e]; simpl; [apply H|reflexivity]. Qed.

Lemma features_sem_rotulos h1 h2 n (l : list (string * pyval)) :
  map sem_rotulo (take n (map (feature_importante h1) l))
  = map sem_rotulo (take n (map (feature_importante h2) l)).
Proof.
  revert n. induction l as [|[nome x] l IH]; intros [|n]; simpl; try reflexivity.
  f_equal. apply IH.
Qed.

Lemma features_mesmo_lado h1 h2 (l : list (string * pyval)) :
  (forall nome, rotulo_alto h1 nome = rotulo_alto h2 nome) ->
  map (feature_importante h1) l = map (feature_importante h2) l.
Proof.
  intros H. induction l as [|[nome x] l IH]; simpl; [reflexivity|].
  rewrite IH. f_equal. unfold rotulo_alto in H. rewrite H. reflexivity.
Qed.

(** Destructs the next call of a chain of binds, on both sides. *)
Ltac proxima_chamada :=
  match goal with
  | |- context [bind ?m _] =>
      lazymatch m with
      | bind _ _ => fail
      | (if _ then _ else _) => fail
      | _ => destruct m as [?|?] eqn:?; cbn [bind result_map]; try reflexivity
      end
  | |- context [if ?b then _ else _] =>
      is_var b; destruct b; cbn [bind result_map]; try reflexivity
  end.

Lemma gerar_modo_avancado_sem_rotulos h1 h2 v p d :
  result_map avancado_sem_rotulos (gerar_modo_avancado h1 v p d)
  = result_map avancado_sem_rotulos (gerar_modo_avancado h2 v p d).
Proof.
  unfold gerar_modo_avancado.
  repeat proxima_chamada;
    unfold avancado_sem_rotulos; cbn; try rewrite (features_sem_rotulos h1 h2);
    reflexivity.
Qed.

Lemma gerar_modo_avancado_mesmo_lado h1 h2 v p d :
  (forall nome, rotulo_alto h1 nome = rotulo_alto h2 nome) ->
  gerar_modo_avancado h1 v p d = gerar_modo_avancado h2 v p d.
Proof.
  intros H. unfold gerar_modo_avancado.
  destruct (py_in "features_usadas" p) as [[|]|]; cbn [bind]; try reflexivity.
  destruct (py_getitem p "features_usadas") as [fs|]; cbn [bind]; try reflexivity.
  destruct (py_items fs) as [itens|]; cbn [bind]; try reflexivity.
  rewrite (features_mesmo_lado h1 h2 itens H). reflexivity.
Qed.

Lemma explicacao_try_sem_rotulos h1 h2 t1 t2 isf v p d :
  result_map sem_rotulos (explicacao_try h1 float_mul format_1f t1 isf v p d)
  = result_map sem_rotulos (explicacao_try h2 float_mul format_1f t2 isf v p d).
Proof.
  unfold explicacao_try.
  apply result_map_bind; intros score.
  apply result_map_bind; intros nr.
  apply result_map_bind; intros rs.
  apply result_map_bind; intros s.
  pose proof (gerar_modo_avancado_sem_rotulos h1 h2 v p d) as Ha.
  destruct (gerar_modo_avancado h1 v p d) as [a1|e1],
           (gerar_modo_avancado h2 v p d) as [a2|e2];
    simpl in *; congruence.
Qed.

Lemma gerar_explicacao_completa_sem_rotulos h1 h2 t1 t2 isf v p d :
  result_map sem_rotulos (gerar_explicacao_completa h1 float_mul format_1f t1 isf v p d)
  = result_map sem_rotulos (gerar_explicacao_completa h2 float_mul format_1f t2 isf v p d).
Proof.
  pose proof (explicacao_try_sem_rotulos h1 h2 t1 t2 isf v p d) as H.
  unfold gerar_explicacao_completa, try_except_Exception.
  destruct (explicacao_try h1 float_mul format_1f t1 isf v p d) as [e1|x1],
           (explicacao_try h2 float_mul format_1f t2 isf v p d) as [e2|x2];
    simpl in *; try congruence.
  injection H as <-. reflexivity.
Qed.

Lemma explicacao_try_sem_gerado_em h t1 t2 isf v p d :
  result_map sem_gerado_em (explicacao_try h float_mul format_1f t1 isf v p d)
  = result_map sem_gerado_em (explicacao_try h float_mul format_1f t2 isf v p d).
Proof.
  unfold explicacao_try.
  repeat (apply result_map_bind; intros ?). reflexivity.
Qed.

Lemma gerar_explicacao_completa_mesmo_lado h1 h2 t1 t2 isf v p d :
  (forall nome, rotulo_alto h1 nome = rotulo_alto h2 nome) ->
  result_map sem_gerado_em (gerar_explicacao_completa h1 float_mul format_1f t1 isf v p d)
  = result_map sem_gerado_em (gerar_explicacao_completa h2 float_mul format_1f t2 isf v p d).
Proof.
  intros Hh.
  assert (H : result_map sem_gerado_em (explicacao_try h1 float_mul format_1f t1 isf v p d)
              = result_map sem_gerado_em (explicacao_try h2 float_mul format_1f t2 isf v p d)).
  { rewrite (explicacao_try_sem_gerado_em h1 t1 t2).
    unfold explicacao_try.
    rewrite (gerar_modo_avancado_mesmo_lado h1 h2 v p d Hh). reflexivity. }
  unfold gerar_explicacao_completa, try_except_Exception.
  destruct (explicacao_try h1 float_mul format_1f t1 isf v p d) as [e1|x1],
           (explicacao_try h2 float_mul format_1f t2 isf v p d) as [e2|x2];
    simpl in *; try congruence.
  injection H as <-. reflexivity.
Qed.

(** C9, as amended.  Two syntheses of the same inputs agree on every
    field but the timestamp and the [impacto] labels of the important
    features; they agree on these labels too whenever the string hashes
    of the two calls put every feature name on the same side of the
    threshold, as they do when both calls run in one interpreter
    process, where the hash is the same function. *)
Theorem sintese_deterministica_a_menos_do_hash h1 h2 t1 t2 isf v p d :
  result_map sem_rotulos (gerar_explicacao_completa h1 float_mul format_1f t1 isf v p d)
  = result_map sem_rotulos (gerar_explicacao_completa h2 float_mul format_1f t2 isf v p d)
  /\ ((forall nome, rotulo_alto h1 nome = rotulo_alto h2 nome) ->
      result_map sem_gerado_em (gerar_explicacao_completa h1 float_mul format_1f t1 isf v p d)
      = result_map sem_gerado_em (gerar_explicacao_completa h2 float_mul format_1f t2 isf v p d))
  /\ result_map sem_gerado_em (gerar_explicacao_completa h1 float_mul format_1f t1 isf v p d)
     = result_map sem_gerado_em (gerar_explicacao_completa h1 float_mul format_1f t2 isf v p d).
Proof.
  split; [apply gerar_explicacao_completa_sem_rotulos|].
  split; [apply gerar_explicacao_completa_mesmo_lado|].
  apply gerar_explicacao_completa_mesmo_lado. reflexivity.
Qed.

End SynthesisFacts.

(* ------------------------------------------------------------------ *)
(** ** The properties on concrete inputs *)
(* ------------------------------------------------------------------ *)

(** A classifier result without a usable score sends the synthesis to
    the fallback explanation. *)
Lemma gerar_explicacao_completa_nunca_levanta_witness :
  gerar_explicacao_completa hash_a Qmult format_exemplo relogio
    true validacao_dois_erros predicao_sem_score dados_exemplo
  = Ok (gerar_explicacao_fallback true).
Proof.
  destruct (gerar_explicacao_completa_nunca_levanta hash_a Qmult format_exemplo relogio
              true validacao_dois_erros predicao_sem_score dados_exemplo)
    as (e & He & Hf & _).
  rewrite He. f_equal. apply Hf. exists TypeError. vm_compute. reflexivity.
Defined.

(** The claim of C2 fails on the fallback explanation: the verdict is
    not a fraud, the status says VÁLIDO, and the risk level is
    DESCONHECIDO. *)
Lemma nao_fraude_fallback_DESCONHECIDO :
  exists e,
    gerar_explicacao_completa hash_a Qmult format_exemplo relogio
      false validacao_ok predicao_sem_score dados_exemplo = Ok e
    /\ exp_status e = "VÁLIDO"
    /\ exp_nivel_risco e = "DESCONHECIDO"
    /\ exp_nivel_risco e <> "BAIXO".
Proof.
  eexists. split; [vm_compute; reflexivity|].
  split; [reflexivity|]. split; [reflexivity|]. discriminate.
Qed.

Lemma nao_fraude_nivel_baixo_witness :
  exists e,
    gerar_explicacao_completa hash_a Qmult format_exemplo relogio
      false validacao_ok (predicao_limpa 5) dados_exemplo = Ok e
    /\ exp_nivel_risco e = "BAIXO".
Proof.
  eexists. split; [vm_compute; reflexivity|].
  match goal with
  | |- exp_nivel_risco ?x = _ => set (e := x)
  end.
  assert (He : gerar_explicacao_completa hash_a Qmult format_exemplo relogio
                 false validacao_ok (predicao_limpa 5) dados_exemplo = Ok e)
    by (vm_compute; reflexivity).
  destruct (nao_fraude_nivel_baixo hash_a Qmult format_exemplo relogio
              validacao_ok (predicao_limpa 5) dados_exemplo) as [_ H].
  destruct (H e He) as [[_ Hb] | [[x Hx] _]]; [exact Hb|].
  vm_compute in Hx. discriminate.
Defined.

(** The claim of C5 fails: an invalid boleto that the classifier does
    not flag, with score 0, is a fraud at tier BAIXO, and its
    explanation reports MÉDIO. *)
Lemma fraude_de_score_baixo_reporta_MEDIO :
  determinar_nivel_risco (PInt 0) true = Ok "BAIXO"
  /\ exists e,
      gerar_explicacao_completa hash_a Qmult format_exemplo relogio
        true validacao_dois_erros (predicao_limpa 0) dados_exemplo = Ok e
      /\ exp_status e = "FRAUDULENTO"
      /\ exp_nivel_risco e = "MÉDIO"
      /\ exp_nivel_risco e <> "BAIXO".
Proof.
  split; [reflexivity|].
  eexists. split; [vm_compute; reflexivity|].
  split; [reflexivity|]. split; [reflexivity|]. discriminate.
Qed.

Lemma determinar_nivel_risco_fraude_witness :
  determinar_nivel_risco (PInt 35) true = Ok "BAIXO"
  /\ determinar_nivel_risco (PFloat 79.5) true = Ok "ALTO"
  /\ exists e,
      gerar_explicacao_completa hash_a Qmult format_exemplo relogio
        true validacao_dois_erros (predicao_limpa 35) dados_exemplo = Ok e
      /\ exp_nivel_risco e = "MÉDIO".
Proof.
  destruct (determinar_nivel_risco_fraude hash_a Qmult format_exemplo relogio)
    as [Htier Hexp].
  split; [|split].
  - destruct (Htier (PInt 35) (inject_Z 35) eq_refl) as (_ & _ & _ & _ & H).
    apply H. reflexivity.
  - destruct (Htier (PFloat 79.5) 79.5%Q eq_refl) as (_ & _ & H & _).
    apply H; [discriminate|reflexivity].
  - destruct (gerar_explicacao_completa hash_a Qmult format_exemplo relogio
                true validacao_dois_erros (predicao_limpa 35) dados_exemplo)
      as [e|ex] eqn:He; [|vm_compute in He; discriminate].
    exists e. split; [reflexivity|].
    destruct (Hexp _ _ _ _ He)
      as [(score & x & s & a & rs & Hs & Hx & _ & _ & _ & _ & _ & Hlow) | ([ex Hr] & _)].
    + vm_compute in Hs. injection Hs as <-.
      vm_compute in Hx. injection Hx as <-.
      apply Hlow. reflexivity.
    + vm_compute in Hr. discriminate.
Defined.

(** The claim of C4 fails: a non-fraud and a fraud whose score is 10
    are both at tier BAIXO, and their recommendations differ; that of
    the fraud is labelled MÉDIO. *)
Lemma recomendacao_difere_no_mesmo_nivel :
  determinar_nivel_risco (PInt 10) false = Ok "BAIXO"
  /\ determinar_nivel_risco (PInt 10) true = Ok "BAIXO"
  /\ exists e1 e2 r1 r2,
      gerar_explicacao_completa hash_a Qmult format_exemplo relogio
        false validacao_ok (predicao_limpa 10) dados_exemplo = Ok e1
      /\ gerar_explicacao_completa hash_a Qmult format_exemplo relogio
           true validacao_dois_erros (predicao_limpa 10) dados_exemplo = Ok e2
      /\ exp_recomendacao e1 = Some r1
      /\ exp_recomendacao e2 = Some r2
      /\ r1 <> r2
      /\ rec_nivel_risco r1 = "BAIXO"
      /\ rec_nivel_risco r2 = "MÉDIO"
      /\ rec_nivel_risco r2 <> "BAIXO".
Proof.
  split; [reflexivity|]. split; [reflexivity|].
  do 4 eexists.
  split; [vm_compute; reflexivity|].
  split; [vm_compute; reflexivity|].
  split; [reflexivity|]. split; [reflexivity|].
  split; [discriminate|].
  split; [reflexivity|]. split; [reflexivity|]. discriminate.
Qed.

Lemma gerar_recomendacao_por_veredito_e_nivel_witness :
  (exists e1 e2,
     explicacao_try hash_a Qmult format_exemplo relogio
       true validacao_dois_erros (predicao_fraude 0.875 90) dados_exemplo = Ok e1
     /\ explicacao_try hash_a Qmult format_exemplo relogio
          true validacao_ok (predicao_fraude 0.75 84) dados_exemplo = Ok e2
     /\ exp_recomendacao e1 = exp_recomendacao e2
     /\ exp_recomendacao e1 = Some recomendacao_CRITICO)
  /\ (exists e1 e2,
        gerar_explicacao_completa hash_a Qmult format_exemplo relogio
          false validacao_ok (predicao_limpa 5) dados_exemplo = Ok e1
        /\ gerar_explicacao_completa hash_a Qmult format_exemplo relogio
             false validacao_ok predicao_sem_score dados_exemplo = Ok e2
        /\ exp_recomendacao e1 <> exp_recomendacao e2
        /\ exp_nivel_risco e1 <> exp_nivel_risco e2).
Proof.
  destruct (gerar_recomendacao_por_veredito_e_nivel hash_a Qmult format_exemplo relogio
              true "CRITICO") as (_ & _ & H & _ & _).
  destruct (gerar_recomendacao_por_veredito_e_nivel hash_a Qmult format_exemplo relogio
              false "BAIXO") as (_ & _ & _ & _ & Hfb).
  split.
  - eexists. eexists.
    split; [vm_compute; reflexivity|]. split; [vm_compute; reflexivity|].
    refine (H validacao_dois_erros (predicao_fraude 0.875 90) dados_exemplo _
              validacao_ok (predicao_fraude 0.75 84) dados_exemplo _
              (PInt 90) (PInt 84) _ _ _ _ _ _);
      vm_compute; reflexivity.
  - destruct (gerar_explicacao_completa hash_a Qmult format_exemplo relogio
                false validacao_ok (predicao_limpa 5) dados_exemplo)
      as [e1|ex] eqn:H1; [|vm_compute in H1; discriminate].
    destruct (gerar_explicacao_completa hash_a Qmult format_exemplo relogio
                false validacao_ok predicao_sem_score dados_exemplo)
      as [e2|ex] eqn:H2; [|vm_compute in H2; discriminate].
    exists e1, e2. split; [reflexivity|]. split; [reflexivity|].
    destruct (Hfb _ _ _ _ _ _ _ _ H1 H2) as [_ Hd].
    apply Hd.
    + intros [ex Hx]. vm_compute in Hx. discriminate.
    + exists TypeError. vm_compute. reflexivity.
Defined.

Lemma coletar_razoes_ordenacao_estavel_witness :
  exists rs,
    coletar_razoes Qmult format_exemplo validacao_dois_erros (predicao_fraude 0.875 90) = Ok rs
    /\ map titulo rs
       = [PStr "Valor do boleto suspeito"; PStr "Boleto vencido";
          PStr "Padrão suspeito identificado"]
    /\ StronglySorted (desc chave_razao) rs.
Proof.
  eexists. split; [vm_compute; reflexivity|]. split; [reflexivity|].
  destruct (coletar_razoes_ordenacao_estavel Qmult format_exemplo
              validacao_dois_erros (predicao_fraude 0.875 90) _ eq_refl)
    as (c & vs & ml & _ & _ & _ & _ & _ & _ & _ & Hs & _).
  exact Hs.
Defined.

Lemma coletar_razoes_sinais_witness :
  exists rs,
    coletar_razoes Qmult format_exemplo validacao_dois_erros (predicao_fraude 0.75 65) = Ok rs
    /\ length (List.filter da_validacao rs) = 2%nat
    /\ map gravidade (List.filter do_modelo rs) = ["media"].
Proof.
  destruct (coletar_razoes_sinais Qmult format_exemplo
              validacao_dois_erros (predicao_fraude 0.75 65)) as [Hinv Htot].
  destruct Htot as [rs Hrs].
  - exists ["Valor inconsistente"; "Boleto vencido"]. reflexivity.
  - exists (PBool true). split; [reflexivity|]. intros _.
    exists 0.75%Q, 2%nat. split; reflexivity.
  - exists rs. split; [exact Hrs|].
    destruct (Hinv rs Hrs)
      as (erros & vs & ml & flag & He & _ & Hv & Hm & Hlen & _ & Hf & Hml).
    injection He as <-. injection Hf as <-. simpl in Hml.
    destruct Hml as (r & cf & c & -> & Hcf & Hc & _ & _ & _ & Hg & _).
    injection Hcf as <-. injection Hc as <-.
    rewrite Hv, Hm, Hlen. split; [reflexivity|].
    simpl. rewrite Hg; [reflexivity|discriminate|reflexivity].
Defined.

Lemma razao_categoria_fora_da_tabela_witness :
  exists r,
    razao_febraban (PStr "Boleto vencido") = Ok r
    /\ categoria r = "outros"
    /\ categoria_nome r = "Padrão Detectado por IA"
    /\ descricao_simples r = PStr "Boleto vencido".
Proof.
  destruct (razao_categoria_fora_da_tabela "Boleto vencido")
    as (r & Hr & Hout & Hcat & Hfora).
  exists r. split; [exact Hr|].
  assert (Hc : categoria r = "outros") by (apply Hcat; reflexivity).
  rewrite Hc in Hfora. destruct (Hfora Hout) as (_ & _ & Hn & _ & _ & _ & _ & Hs & _).
  auto.
Defined.

(** The claim of C9 fails: under two string hashes the same inputs get
    different [impacto] labels. *)
Lemma rotulos_de_impacto_dependem_do_hash :
  result_map sem_gerado_em
    (gerar_explicacao_completa hash_a Qmult format_exemplo relogio
       false validacao_ok (predicao_limpa 5) dados_exemplo)
  <> result_map sem_gerado_em
       (gerar_explicacao_completa hash_b Qmult format_exemplo relogio
          false validacao_ok (predicao_limpa 5) dados_exemplo).
Proof. vm_compute. intros H. discriminate. Qed.

Lemma sintese_deterministica_a_menos_do_hash_witness :
  result_map sem_gerado_em
    (gerar_explicacao_completa hash_a Qmult format_exemplo relogio
       false validacao_ok (predicao_limpa 5) dados_exemplo)
  = result_map sem_gerado_em
      (gerar_explicacao_completa hash_a Qmult format_exemplo "2025-02-01T08:30:00"
         false validacao_ok (predicao_limpa 5) dados_exemplo).
Proof.
  destruct (sintese_deterministica_a_menos_do_hash Qmult format_exemplo hash_a hash_a
              relogio "2025-02-01T08:30:00"
              false validacao_ok (predicao_limpa 5) dados_exemplo) as (_ & H & _).
  apply H. reflexivity.
Defined.

End ExplainerProps.

(* ================================================================== *)
(** * Properties of the upload handler *)
(* ================================================================== *)

Module ApiProps.
Import Api.
Open Scope prog_scope.

(** ** Validation of the upload *)

Lemma analisar_boleto_tipo_invalido file :
  tipo_permitido (content_type file) = false ->
  analisar_boleto file
  = Raise (HTTPException 400
             "Tipo de arquivo inválido. Aceitos: image/jpeg, image/png, application/pdf").
Proof.
  intros H. unfold analisar_boleto, analisar_try. rewrite H. reflexivity.
Qed.

Lemma analisar_boleto_muito_grande file :
  tipo_permitido (content_type file) = true ->
  (file_size file > 10 * 1024 * 1024)%Z ->
  analisar_boleto file = Raise (HTTPException 400 "Arquivo muito grande. Máximo: 10MB").
Proof.
  intros Ht Hs. unfold analisar_boleto, analisar_try. rewrite Ht.
  cbn [negb].
  replace (file_size file >? 10 * 1024 * 1024)%Z with true
    by (rewrite Z.gtb_ltb; symmetry; apply Z.ltb_lt; lia).
  reflexivity.
Qed.

Lemma analisar_boleto_vazio file :
  tipo_permitido (content_type file) = true ->
  file_size file = 0%Z ->
  analisar_boleto file = Raise (HTTPException 400 "Arquivo vazio").
Proof.
  intros Ht Hs. unfold analisar_boleto, analisar_try. rewrite Ht, Hs. reflexivity.
Qed.

(** The handler of an upload that passes the three checks. *)
Lemma analisar_boleto_valido file :
  tipo_permitido (content_type file) = true ->
  (0 < file_size file <= 10 * 1024 * 1024)%Z ->
  analisar_boleto file
  = try_except
      (do id <- uuid4;
       do agora <- utcnow;
       do _ <- insert_one (analise_de file id agora);
       do _ <- rpush "boletos:jobs" (job_de file id);
       Ret (resposta_de file id))
      analisar_except.
Proof.
  intros Ht Hs. unfold analisar_boleto, analisar_try. rewrite Ht.
  cbn [negb].
  replace (file_size file >? 10 * 1024 * 1024)%Z with false
    by (rewrite Z.gtb_ltb; symmetry; apply Z.ltb_ge; lia).
  replace (file_size file =? 0)%Z with false
    by (symmetry; apply Z.eqb_neq; lia).
  reflexivity.
Qed.

Lemma executa_sem_chamadas {A} (p : Prog A) w cs p' w' :
  sem_chamadas p = true -> executa p w cs p' w' -> cs = [] /\ p' = p /\ w' = w.
Proof.
  intros Hp H. destruct H; try discriminate. auto.
Qed.

(** An accepted upload, when both stores answer: the record is
    written, the job is queued, the response is returned. *)
Lemma analisar_boleto_aceita file w id agora :
  tipo_permitido (content_type file) = true ->
  (0 < file_size file <= 10 * 1024 * 1024)%Z ->
  analises w !! id = None ->
  executa (analisar_boleto file) w
    [CInsert (analise_de file id agora); CPush "boletos:jobs" (job_de file id)]
    (Ret (resposta_de file id))
    (com_job (job_de file id) (com_analise (analise_de file id agora) w)).
Proof.
  intros Ht Hs Hid. rewrite (analisar_boleto_valido file Ht Hs). simpl.
  apply ex_uuid4 with (id := id). apply ex_utcnow with (t := agora).
  apply ex_insert; [exact Hid|]. simpl.
  apply ex_rpush. simpl. apply ex_fim.
Qed.

(** C7.  An upload whose content type is not allowed, or whose payload
    is empty or larger than 10 MiB, raises an HTTP 400 with one of three
    fixed reasons before any call is made: nothing is written to the
    Job Store and nothing is pushed on the Work Queue.  An upload of an
    allowed type with a payload of 1 byte to 10 MiB, 10 MiB included, is
    accepted: when the stores answer, its record is written, its job is
    queued and the response is returned. *)
Theorem analisar_boleto_validacao file :
  ((tipo_permitido (content_type file) = false
    \/ file_size file = 0%Z
    \/ (file_size file > 10 * 1024 * 1024)%Z) ->
   exists detail,
     analisar_boleto file = Raise (HTTPException 400 detail)
     /\ In detail detalhes_400
     /\ forall w cs p' w',
         executa (analisar_boleto file) w cs p' w' -> cs = [] /\ w' = w)
  /\ (tipo_permitido (content_type file) = true ->
      (0 < file_size file <= 10 * 1024 * 1024)%Z ->
      forall w id agora,
        analises w !! id = None ->
        executa (analisar_boleto file) w
          [CInsert (analise_de file id agora); CPush "boletos:jobs" (job_de file id)]
          (Ret (resposta_de file id))
          (com_job (job_de file id) (com_analise (analise_de file id agora) w)))
  /\ (tipo_permitido (content_type file) = true ->
      file_size file = (10 * 1024 * 1024)%Z ->
      (forall code detail, analisar_boleto file <> Raise (HTTPException code detail))
      /\ forall w id agora,
          analises w !! id = None ->
          executa (analisar_boleto file) w
            [CInsert (analise_de file id agora); CPush "boletos:jobs" (job_de file id)]
            (Ret (resposta_de file id))
            (com_job (job_de file id) (com_analise (analise_de file id agora) w))).
Proof.
  split; [|split].
  - intros H.
    assert (Hex : exists detail,
               analisar_boleto file = Raise (HTTPException 400 detail)
               /\ In detail detalhes_400).
    { destruct (tipo_permitido (content_type file)) eqn:Ht.
      - destruct H as [H | [H | H]]; [discriminate| |].
        + eexists. split; [apply analisar_boleto_vazio; assumption|].
          simpl. auto.
        + eexists. split; [apply analisar_boleto_muito_grande; assumption|].
          simpl. auto.
      - eexists. split; [apply analisar_boleto_tipo_invalido; assumption|].
        simpl. auto. }
    destruct Hex as (detail & Heq & Hin). exists detail.
    split; [exact Heq|]. split; [exact Hin|].
    intros w cs p' w' Hx. rewrite Heq in Hx.
    apply executa_sem_chamadas in Hx as (-> & _ & ->); [auto|reflexivity].
  - intros Ht Hs w id agora Hid. apply analisar_boleto_aceita; assumption.
  - intros Ht Hs. split.
    + intros code detail. rewrite (analisar_boleto_valido file Ht); [|lia].
      simpl. discriminate.
    + intros w id agora Hid. apply analisar_boleto_aceita; [assumption|lia|assumption].
Qed.

(** ** Order of the two writes *)

Lemma pendente_mono {A} (p : Prog A) (ids ids' : gset string) :
  ids ⊆ ids' -> pendente ids p -> pendente ids' p.
Proof.
  revert ids ids'.
  induction p as [a|e|k IH|k IH|doc k IH|key item k IH]; intros ids ids' Hsub; simpl.
  - auto.
  - auto.
  - intros H id. eapply IH; [exact Hsub|apply H].
  - intros H t. eapply IH; [exact Hsub|apply H].
  - intros [H1 H2]. split.
    + eapply IH; [|exact H1]. set_solver.
    + intros msg. eapply IH; [exact Hsub|apply H2].
  - intros [H1 H2]. split; [set_solver|].
    intros r. eapply IH; [exact Hsub|apply H2].
Qed.

(** The handler pushes the job of no record but the one it has just
    inserted. *)
Lemma analisar_boleto_pendente (ids : gset string) file :
  pendente ids (analisar_boleto file).
Proof.
  unfold analisar_boleto, analisar_try.
  destruct (tipo_permitido (content_type file)); simpl; [|exact I].
  destruct (file_size file >? 10 * 1024 * 1024)%Z; simpl; [exact I|].
  destruct (file_size file =? 0)%Z; simpl; [exact I|].
  intros id agora. split.
  - split; [set_solver|]. intros [|msg]; simpl; exact I.
  - intros msg. simpl. exact I.
Qed.

Lemma fila_registrada_com_analise doc w :
  fila_registrada w -> fila_registrada (com_analise doc w).
Proof.
  intros H item Hin. simpl. apply lookup_insert_is_Some'. right. apply H, Hin.
Qed.

Lemma fila_registrada_com_job item w :
  is_Some (analises w !! analise_id item) ->
  fila_registrada w -> fila_registrada (com_job item w).
Proof.
  intros Hitem H item' Hin. simpl in *.
  apply in_app_or in Hin as [Hin | [<- | []]]; [apply H, Hin|exact Hitem].
Qed.

(** One call of a handler keeps the queue registered, keeps the handler
    within its obligation, and loses no record. *)
Lemma passo_ok {A} (p p' : Prog A) w w' :
  passo (p, w) (p', w') ->
  fila_registrada w ->
  pendente (dom (analises w)) p ->
  fila_registrada w'
  /\ pendente (dom (analises w')) p'
  /\ dom (analises w) ⊆ dom (analises w').
Proof.
  intros Hp Hw Hpend. inversion Hp; subst; simpl in Hpend.
  - auto.
  - auto.
  - destruct Hpend as [H1 _]. split; [apply fila_registrada_com_analise, Hw|].
    simpl. rewrite dom_insert_L. split; [exact H1|set_solver].
  - destruct Hpend as [_ H2]. auto.
  - destruct Hpend as [H1 H2]. split; [|split; [apply H2|reflexivity]].
    apply fila_registrada_com_job; [|exact Hw]. apply elem_of_dom, H1.
  - destruct Hpend as [_ H2]. auto.
Qed.

Lemma sistema_preserva st st' : sistema st st' -> sistema_ok st -> sistema_ok st'.
Proof.
  intros Hstep [Hw Hps]. destruct Hstep; simpl in *.
  - split; [exact Hw|]. constructor; [apply analisar_boleto_pendente|exact Hps].
  - apply Forall_app in Hps as [Hps1 Hps2].
    apply Forall_cons in Hps2 as [Hp Hps2].
    destruct (passo_ok _ _ _ _ H Hw Hp) as (Hw' & Hp' & Hsub).
    split; [exact Hw'|].
    apply Forall_app. split; [|apply Forall_cons; split; [exact Hp'|]].
    + eapply List.Forall_impl; [|exact Hps1]. intros q. apply pendente_mono, Hsub.
    + eapply List.Forall_impl; [|exact Hps2]. intros q. apply pendente_mono, Hsub.
  - split; [|exact Hps]. intros it Hin. apply Hw. simpl. right. exact Hin.
  - split.
    + intros it Hin. simpl. apply lookup_insert_is_Some'. right. apply Hw, Hin.
    + eapply List.Forall_impl; [|exact Hps]. intros q. apply pendente_mono.
      simpl. rewrite dom_insert_L. set_solver.
Qed.

Lemma sistema_invariante st st' : rtc sistema st st' -> sistema_ok st -> sistema_ok st'.
Proof.
  induction 1 as [|st1 st2 st3 Hstep _ IH]; [auto|].
  intros Hok. apply IH. eapply sistema_preserva; eassumption.
Qed.

(** The calls of one execution of the handler. *)
Lemma analisar_boleto_chamadas file w cs p' w' :
  executa (analisar_boleto file) w cs p' w' ->
  exists id agora,
    cs = []
    \/ cs = [CInsert (analise_de file id agora)]
    \/ cs = [CInsert (analise_de file id agora); CPush "boletos:jobs" (job_de file id)].
Proof.
  intros H.
  destruct (tipo_permitido (content_type file)) eqn:Ht.
  2: { rewrite (analisar_boleto_tipo_invalido file Ht) in H.
       apply executa_sem_chamadas in H as (-> & _); [|reflexivity].
       exists "", "". auto. }
  destruct (Z.eq_dec (file_size file) 0%Z) as [H0|H0].
  { rewrite (analisar_boleto_vazio file Ht H0) in H.
    apply executa_sem_chamadas in H as (-> & _); [|reflexivity].
    exists "", "". auto. }
  destruct (Z_gt_dec (file_size file) (10 * 1024 * 1024)%Z) as [Hg|Hg].
  { rewrite (analisar_boleto_muito_grande file Ht Hg) in H.
    apply executa_sem_chamadas in H as (-> & _); [|reflexivity].
    exists "", "". auto. }
  rewrite (analisar_boleto_valido file Ht) in H
    by (unfold file_size in *; lia).
  repeat match goal with
         | Hx : executa _ _ _ _ _ |- _ => simpl in Hx; inversion Hx; subst; clear Hx
         end;
    first [ exists "", ""; left; reflexivity
          | do 2 eexists; right; left; reflexivity
          | do 2 eexists; right; right; reflexivity ].
Qed.

Lemma executa_registrada {A} (p : Prog A) w cs p' w' :
  executa p w cs p' w' ->
  fila_registrada w ->
  pendente (dom (analises w)) p ->
  fila_registrada w' /\ pendente (dom (analises w')) p'.
Proof.
  induction 1 as [p w|k id w cs p' w' _ IH|k t w cs p' w' _ IH
                 |doc k w cs p' w' Hd _ IH|doc k msg w cs p' w' _ IH
                 |key item k w cs p' w' _ IH|key item k msg w cs p' w' _ IH];
    intros Hw Hp; simpl in Hp.
  - auto.
  - apply IH; auto.
  - apply IH; auto.
  - destruct Hp as [H1 _]. apply IH; [apply fila_registrada_com_analise, Hw|].
    simpl. rewrite dom_insert_L. exact H1.
  - destruct Hp as [_ H2]. apply IH; auto.
  - destruct Hp as [H1 H2]. apply IH; [|apply H2].
    apply fila_registrada_com_job; [|exact Hw]. apply elem_of_dom, H1.
  - destruct Hp as [_ H2]. apply IH; auto.
Qed.

(** C8.  In every execution of the handler the record of the job, with
    status processing, is inserted before the job is pushed: the calls
    made are none, the insert alone, or the insert followed by the push
    of the job of the same id.  Hence, when every job on the queue has
    its record, this still holds at whatever point the handler has
    reached, and in every state of the system in which any number of
    handlers and the worker run interleaved. *)
Theorem registro_antes_da_fila :
  (forall file id agora,
     status (analise_de file id agora) = "processing"
     /\ _id (analise_de file id agora) = analise_id (job_de file id))
  /\ (forall file w cs p' w',
        executa (analisar_boleto file) w cs p' w' ->
        exists id agora,
          cs = []
          \/ cs = [CInsert (analise_de file id agora)]
          \/ cs = [CInsert (analise_de file id agora);
                   CPush "boletos:jobs" (job_de file id)])
  /\ (forall file w cs p' w',
        fila_registrada w ->
        executa (analisar_boleto file) w cs p' w' ->
        fila_registrada w')
  /\ (forall w0 ps w,
        fila_registrada w0 ->
        rtc sistema ([], w0) (ps, w) ->
        fila_registrada w).
Proof.
  split; [intros; split; reflexivity|].
  split; [exact analisar_boleto_chamadas|].
  split.
  - intros file w cs p' w' Hw Hx.
    eapply executa_registrada; [exact Hx|exact Hw|apply analisar_boleto_pendente].
  - intros w0 ps w Hw0 Hrtc.
    assert (Hok : sistema_ok (ps, w)).
    { eapply sistema_invariante; [exact Hrtc|]. split; [exact Hw0|constructor]. }
    exact (proj1 Hok).
Qed.

(** ** The properties on concrete inputs *)

Lemma boleto_pdf_tamanho : (0 < file_size boleto_pdf <= 10 * 1024 * 1024)%Z.
Proof. unfold file_size. simpl. lia. Qed.

Lemma boleto_10MiB_tamanho : file_size boleto_10MiB = (10 * 1024 * 1024)%Z.
Proof.
  unfold file_size, boleto_10MiB. cbn [conteudo].
  rewrite List.repeat_length. apply Z2Nat.id. lia.
Qed.

Lemma analisar_boleto_validacao_witness :
  analisar_boleto arquivo_vazio = Raise (HTTPException 400 "Arquivo vazio")
  /\ executa (analisar_boleto boleto_pdf) mundo_vazio
       [CInsert (analise_de boleto_pdf "7f3c" "2025-01-31T12:00:00");
        CPush "boletos:jobs" (job_de boleto_pdf "7f3c")]
       (Ret (resposta_de boleto_pdf "7f3c"))
       (com_job (job_de boleto_pdf "7f3c")
          (com_analise (analise_de boleto_pdf "7f3c" "2025-01-31T12:00:00") mundo_vazio))
  /\ executa (analisar_boleto boleto_10MiB) mundo_vazio
       [CInsert (analise_de boleto_10MiB "7f3c" "2025-01-31T12:00:00");
        CPush "boletos:jobs" (job_de boleto_10MiB "7f3c")]
       (Ret (resposta_de boleto_10MiB "7f3c"))
       (com_job (job_de boleto_10MiB "7f3c")
          (com_analise (analise_de boleto_10MiB "7f3c" "2025-01-31T12:00:00") mundo_vazio)).
Proof.
  split; [|split].
  - destruct (analisar_boleto_validacao arquivo_vazio) as (Hrej & _ & _).
    destruct Hrej as (detail & Heq & _); [right; left; reflexivity|].
    rewrite Heq. vm_compute in Heq. injection Heq as <-. reflexivity.
  - destruct (analisar_boleto_validacao boleto_pdf) as (_ & Hac & _).
    apply Hac; [reflexivity|exact boleto_pdf_tamanho|apply lookup_empty].
  - destruct (analisar_boleto_validacao boleto_10MiB) as (_ & _ & Hac).
    destruct (Hac eq_refl boleto_10MiB_tamanho) as [_ Hx].
    apply Hx. apply lookup_empty.
Defined.

Lemma registro_antes_da_fila_witness :
  fila_registrada
    (com_job (job_de boleto_pdf "7f3c")
       (com_analise (analise_de boleto_pdf "7f3c" "2025-01-31T12:00:00") mundo_vazio)).
Proof.
  destruct registro_antes_da_fila as (_ & _ & H & _).
  apply (H boleto_pdf mundo_vazio
           [CInsert (analise_de boleto_pdf "7f3c" "2025-01-31T12:00:00");
            CPush "boletos:jobs" (job_de boleto_pdf "7f3c")]
           (Ret (resposta_de boleto_pdf "7f3c"))).
  - intros item [].
  - apply analisar_boleto_aceita;
      [reflexivity|exact boleto_pdf_tamanho|apply lookup_empty].
Defined.

End ApiProps.

(* ================================================================== *)
(** * Further properties of the explainer *)
(* ================================================================== *)

Module ExplainerExtra.
Import Py Explainer ExplainerProps.
Open Scope py_scope.

Section Synthesis.
Variable hash : string -> Z.
Variable float_mul : Q -> Q -> Q.
Variable format_1f : Q -> string.
Variable utcnow_isoformat : string.

Notation "'sintese'" := (gerar_explicacao_completa hash float_mul format_1f utcnow_isoformat).
Notation "'bloco'" := (explicacao_try hash float_mul format_1f utcnow_isoformat).

(** ** When the synthesis falls back *)

Lemma py_get_dict d k dflt x : py_get d k dflt = Ok x -> is_dict d = true.
Proof. destruct d; simpl; intros H; first [reflexivity | discriminate]. Qed.

Lemma py_ge_num v c b : py_ge v c = Ok b -> is_Some (py_num v).
Proof. unfold py_ge. destruct (py_num v); [eauto|discriminate]. Qed.

Lemma gerar_modo_simples_score isf rs nr score s :
  gerar_modo_simples isf rs nr score = Ok s -> is_Some (py_num score).
Proof.
  unfold gerar_modo_simples. destruct isf; intros H;
    apply bind_Ok in H as (t & H & _);
    apply bind_Ok in H as (b & H & _); eapply py_ge_num; exact H.
Qed.

Lemma coletar_razoes_dict v p rs :
  coletar_razoes float_mul format_1f v p = Ok rs -> is_dict v = true.
Proof.
  unfold coletar_razoes, razoes_coletadas. intros H.
  apply bind_Ok in H as (c & H & _).
  apply bind_Ok in H as (ev & H & _). eapply py_get_dict; exact H.
Qed.

Lemma gerar_modo_avancado_dict v p d a :
  gerar_modo_avancado hash v p d = Ok a -> is_dict d = true.
Proof.
  unfold gerar_modo_avancado. intros H.
  do 13 (apply bind_Ok in H as (? & _ & H)).
  apply bind_Ok in H as (banco & H & _). eapply py_get_dict; exact H.
Qed.

Lemma bloco_levanta isf v p d :
  (forall e, bloco isf v p d <> Ok e) ->
  sintese isf v p d = Ok (gerar_explicacao_fallback isf).
Proof.
  intros Hn. unfold gerar_explicacao_completa, try_except_Exception.
  destruct (explicacao_try hash float_mul format_1f utcnow_isoformat isf v p d)
    as [e|ex] eqn:Htry.
  - destruct (Hn e). reflexivity.
  - rewrite (explicacao_try_so hash float_mul format_1f utcnow_isoformat isf v p d ex Htry).
    reflexivity.
Qed.

(** X1.  When one of the validation result, the classifier result and
    the extracted data is not a dict, or when the score of the
    classifier result is not a number, the synthesis returns the
    fallback explanation, whatever the other arguments hold. *)
Theorem sintese_fallback_em_entrada_malformada isf v p d :
  (is_dict v = false \/ is_dict p = false \/ is_dict d = false
   \/ exists score, py_get p "score_fraude" (PInt 0) = Ok score /\ py_num score = None) ->
  sintese isf v p d = Ok (gerar_explicacao_fallback isf).
Proof.
  intros H. apply bloco_levanta. intros e He.
  apply explicacao_try_inv in He
    as (score & nr & rs & s & a & Hs & Hnr & Hrs & Hms & Ha & _).
  destruct H as [H | [H | [H | (score' & Hs' & Hnum)]]].
  - apply coletar_razoes_dict in Hrs. congruence.
  - apply py_get_dict in Hs. congruence.
  - apply gerar_modo_avancado_dict in Ha. congruence.
  - rewrite Hs in Hs'. injection Hs' as <-.
    apply gerar_modo_simples_score in Hms as [x Hx]. congruence.
Qed.

(** ** When it does not *)

Lemma determinar_nivel_risco_total score isf :
  is_Some (py_num score) -> exists nr, determinar_nivel_risco score isf = Ok nr.
Proof.
  intros [x Hx]. unfold determinar_nivel_risco, py_ge. rewrite Hx.
  destruct isf; simpl; [|eauto].
  destruct (Qle_bool 80 x); simpl; [eauto|].
  destruct (Qle_bool 60 x); simpl; [eauto|].
  destruct (Qle_bool 40 x); simpl; eauto.
Qed.

Lemma gerar_modo_simples_total isf rs nr score :
  is_Some (py_num score) -> exists s, gerar_modo_simples isf rs nr score = Ok s.
Proof.
  intros [x Hx]. unfold gerar_modo_simples, py_ge. rewrite Hx.
  destruct isf; simpl;
    (destruct (Qle_bool 80 x); simpl; [eauto|];
     destruct (Qle_bool 60 x); simpl; [eauto|];
     destruct (Qle_bool 40 x); simpl; eauto).
Qed.

Lemma razao_ml_total entries c :
  default (PInt 0) (assoc "confianca" entries) = PFloat c ->
  (forall usadas, assoc "features_usadas" entries = Some usadas -> is_dict usadas = true) ->
  exists r, razao_ml float_mul format_1f (PDict entries) = Ok r.
Proof.
  intros Hc Hu. unfold razao_ml. simpl. rewrite Hc. simpl.
  assert (Hlen : exists n, py_len (default (PDict []) (assoc "features_usadas" entries)) = Ok n).
  { destruct (assoc "features_usadas" entries) as [u|] eqn:E; simpl; [|eauto].
    specialize (Hu u eq_refl). destruct u; try discriminate. simpl. eauto. }
  destruct Hlen as [n Hn].
  destruct (Qle_bool float_0_8 c); simpl;
    [|destruct (Qle_bool float_0_6 c); simpl]; rewrite Hn; simpl; eauto.
Qed.

Lemma coletar_razoes_total v p :
  validacao_completa v -> predicao_completa p ->
  exists rs, coletar_razoes float_mul format_1f v p = Ok rs.
Proof.
  intros (ev & erros & -> & Herros) (ep & -> & _ & Hc & Hu).
  unfold coletar_razoes, razoes_coletadas. simpl. rewrite Herros. simpl.
  destruct (for_each_total razao_febraban (map PStr erros)) as [vs Hvs].
  { intros x Hx. apply in_map_iff in Hx as (s & <- & _).
    unfold razao_febraban. simpl. eauto. }
  rewrite Hvs. simpl.
  destruct (py_truthy (default PNone (assoc "is_fraudulento" ep))) eqn:Hflag;
    [|simpl; eauto].
  destruct (Hc eq_refl) as [c Hcf].
  destruct (razao_ml_total ep c Hcf Hu) as [r Hr].
  rewrite Hr. simpl. eauto.
Qed.

Lemma gerar_modo_avancado_total v p d :
  validacao_completa v -> predicao_completa p -> is_dict d = true ->
  exists a, gerar_modo_avancado hash v p d = Ok a.
Proof.
  intros (ev & erros & -> & Herros) (ep & -> & _ & _ & Hu) Hd.
  destruct d as [| | | | | |ed]; try discriminate.
  unfold gerar_modo_avancado, determinar_metodos_deteccao. simpl.
  rewrite Herros. simpl.
  destruct (assoc "features_usadas" ep) as [u|] eqn:E; simpl.
  - specialize (Hu u eq_refl). destruct u; try discriminate. simpl. eauto.
  - eauto.
Qed.

(** X2.  On collaborator results shaped as their interfaces say, and
    extracted data that are a dict, the synthesis does not fall back:
    it returns a full explanation, stamped with the clock reading,
    whose reasons are those [coletar_razoes] returns. *)
Theorem sintese_completa_em_entrada_bem_formada isf v p d :
  validacao_completa v -> predicao_completa p -> is_dict d = true ->
  exists s a rs r,
    sintese isf v p d = Ok (Completa s a rs r utcnow_isoformat)
    /\ coletar_razoes float_mul format_1f v p = Ok rs
    /\ sintese isf v p d <> Ok (gerar_explicacao_fallback isf).
Proof.
  intros Hv Hp Hd.
  destruct (coletar_razoes_total v p Hv Hp) as [rs Hrs].
  destruct (gerar_modo_avancado_total v p d Hv Hp Hd) as [a Ha].
  destruct Hp as (ep & -> & Hscore & _).
  destruct (determinar_nivel_risco_total _ isf Hscore) as [nr Hnr].
  destruct (gerar_modo_simples_total isf rs nr _ Hscore) as [s Hs].
  exists s, a, rs,
    (gerar_recomendacao isf nr (default (PInt 0) (assoc "score_fraude" ep))).
  assert (H : sintese isf v (PDict ep) d
              = Ok (Completa s a rs
                      (gerar_recomendacao isf nr (default (PInt 0) (assoc "score_fraude" ep)))
                      utcnow_isoformat)).
  { unfold gerar_explicacao_completa, explicacao_try. simpl.
    rewrite Hnr. simpl. rewrite Hrs. simpl. rewrite Hs. simpl. rewrite Ha. reflexivity. }
  split; [exact H|]. split; [exact Hrs|]. rewrite H. discriminate.
Qed.


(** ** The simple view and the recommendation *)

Lemma gerar_modo_simples_campos isf rs nr score s :
  gerar_modo_simples isf rs nr score = Ok s ->
  exists x,
    py_num score = Some x
    /\ ms_confianca s = texto_da_confianca x
    /\ ms_status s = (if isf then "FRAUDULENTO" else "VÁLIDO")
    /\ ms_principal_motivo s
       = (if isf
          then match rs with
               | r :: _ => titulo r
               | [] => PStr "Inconsistências detectadas"
               end
          else PStr "Todas as validações foram aprovadas").
Proof.
  unfold gerar_modo_simples, py_ge, texto_da_confianca.
  destruct (py_num score) as [x|]; [|destruct isf; discriminate].
  intros H. exists x. split; [reflexivity|].
  destruct isf; simpl in H;
    (destruct (Qle_bool 80 x); simpl in H;
     [|destruct (Qle_bool 60 x); simpl in H;
       [|destruct (Qle_bool 40 x); simpl in H]]);
    injection H as <-; repeat split.
Qed.

(** X3.  The status of the explanation returned, full or fallback,
    tells the verdict it was called with: FRAUDULENTO when
    [is_fraudulento] is true and VÁLIDO when it is false, for every
    input. *)
Theorem sintese_status_do_veredito isf v p d :
  exists e,
    sintese isf v p d = Ok e
    /\ exp_status e = (if isf then "FRAUDULENTO" else "VÁLIDO").
Proof.
  unfold gerar_explicacao_completa, try_except_Exception.
  destruct (explicacao_try hash float_mul format_1f utcnow_isoformat isf v p d)
    as [e|ex] eqn:Htry.
  - exists e. split; [reflexivity|].
    apply explicacao_try_inv in Htry as (score & nr & rs & s & a & _ & _ & _ & Hs & _ & ->).
    apply gerar_modo_simples_campos in Hs as (x & _ & _ & Hst & _). exact Hst.
  - rewrite (explicacao_try_so hash float_mul format_1f utcnow_isoformat isf v p d ex Htry).
    eexists. split; [reflexivity|]. destruct isf; reflexivity.
Qed.

(** X4.  A fraud is never told it can be paid: whatever the inputs,
    the explanation of a fraud is labelled CRÍTICO, ALTO, MÉDIO or
    DESCONHECIDO, and its recommendation is not the one of a valid
    boleto ("PODE PAGAR"). *)
Theorem fraude_nunca_pode_pagar v p d e :
  sintese true v p d = Ok e ->
  In (exp_nivel_risco e) ["CRÍTICO"; "ALTO"; "MÉDIO"; "DESCONHECIDO"]
  /\ exp_recomendacao e <> Some recomendacao_BAIXO
  /\ forall r, exp_recomendacao e = Some r -> rec_acao_principal r <> "PODE PAGAR".
Proof.
  intros H. apply gerar_explicacao_completa_casos in H as [H | [_ ->]].
  - apply explicacao_try_inv in H as (score & nr & rs & s & a & _ & _ & _ & _ & _ & ->).
    simpl. rewrite gerar_recomendacao_modelo. simpl.
    destruct (String.eqb nr "CRITICO");
      [|destruct (String.eqb nr "ALTO")];
      (split; [simpl; auto|]; split; [discriminate|];
       intros r [= <-]; discriminate).
  - simpl. split; [auto 10|]. split; [discriminate|]. intros r Hr. discriminate.
Qed.

Lemma texto_e_nivel x :
  In (texto_da_confianca x,
      rec_nivel_risco (gerar_recomendacao true (nivel_do_score x) (PInt 0)))
     confianca_e_rotulo.
Proof.
  unfold texto_da_confianca, nivel_do_score, confianca_e_rotulo.
  destruct (Qle_bool 80 x); [simpl; auto|].
  destruct (Qle_bool 60 x); [simpl; auto|].
  destruct (Qle_bool 40 x); simpl; auto 10.
Qed.

(** X5.  In a full explanation the confidence text of the simple view
    follows the score alone (Muito Alta from 80, Alta from 60, Média
    from 40, Baixa below), for a fraud and for a valid boleto alike; for
    a fraud it goes with the label of the recommendation as Muito
    Alta/CRÍTICO, Alta/ALTO, Média/MÉDIO, Baixa/MÉDIO, while a valid
    boleto is labelled BAIXO at every confidence. *)
Theorem confianca_segue_o_score isf v p d s a rs r t :
  bloco isf v p d = Ok (Completa s a rs r t) ->
  exists score x,
    py_get p "score_fraude" (PInt 0) = Ok score
    /\ py_num score = Some x
    /\ ms_confianca s = texto_da_confianca x
    /\ (if isf then In (ms_confianca s, rec_nivel_risco r) confianca_e_rotulo
        else rec_nivel_risco r = "BAIXO").
Proof.
  intros H.
  apply explicacao_try_inv in H as (score & nr & rs' & s' & a' & Hsc & Hnr & _ & Hs & _ & He).
  injection He as -> -> -> -> _.
  apply gerar_modo_simples_campos in Hs as (x & Hx & Hc & _).
  exists score, x. split; [exact Hsc|]. split; [exact Hx|]. split; [exact Hc|].
  destruct isf; [|reflexivity].
  assert (Hn : nr = nivel_do_score x).
  { unfold determinar_nivel_risco, py_ge in Hnr. rewrite Hx in Hnr. simpl in Hnr.
    unfold nivel_do_score.
    destruct (Qle_bool 80 x); simpl in Hnr; [congruence|].
    destruct (Qle_bool 60 x); simpl in Hnr; [congruence|].
    destruct (Qle_bool 40 x); simpl in Hnr; congruence. }
  subst nr. rewrite Hc, gerar_recomendacao_rotulo.
  rewrite <- (gerar_recomendacao_rotulo true (nivel_do_score x) (PInt 0)).
  apply texto_e_nivel.
Qed.

Lemma razao_febraban_titulo erro r :
  razao_febraban erro = Ok r -> titulo r = titulo_do_erro erro.
Proof.
  unfold razao_febraban, titulo_do_erro.
  destruct erro; cbn [py_hashable negb]; try discriminate;
    try (intros [= <-]; reflexivity).
  destruct (assoc s TRADUCOES_ERROS) as [t|]; intros [= <-]; reflexivity.
Qed.

Lemma razao_ml_titulo p r :
  razao_ml float_mul format_1f p = Ok r -> titulo r = PStr "Padrão suspeito identificado".
Proof.
  unfold razao_ml. intros H.
  do 5 (apply bind_Ok in H as (? & _ & H)). injection H as <-. reflexivity.
Qed.

(** X6.  The main reason shown in the simple view of a fraud is the lay
    text of the first validation error; without validation errors it is
    the title of the classifier's reason when the classifier flags the
    fraud, and a default text otherwise.  A valid boleto always shows
    the same text, whatever reasons were collected. *)
Theorem principal_motivo_da_primeira_razao isf v p d s a rs r t erros flag :
  bloco isf v p d = Ok (Completa s a rs r t) ->
  bind (py_get v "erros" (PList [])) py_iter = Ok erros ->
  py_get p "is_fraudulento" PNone = Ok flag ->
  ms_principal_motivo s
  = if isf
    then match erros with
         | erro :: _ => titulo_do_erro erro
         | [] => if py_truthy flag
                 then PStr "Padrão suspeito identificado"
                 else PStr "Inconsistências detectadas"
         end
    else PStr "Todas as validações foram aprovadas".
Proof.
  intros H Herros Hflag.
  apply explicacao_try_inv in H as (score & nr & rs' & s' & a' & _ & _ & Hrs & Hs & _ & He).
  injection He as -> -> -> _ _.
  apply gerar_modo_simples_campos in Hs as (x & _ & _ & _ & Hm). rewrite Hm.
  destruct isf; [|reflexivity].
  apply coletar_razoes_coletadas in Hrs.
  apply razoes_coletadas_inv in Hrs
    as (erros' & vs & ml & flag' & Herros' & Hvs & Hflag' & Hml & ->).
  rewrite Herros in Herros'. injection Herros' as <-.
  rewrite Hflag in Hflag'. injection Hflag' as <-.
  destruct Hvs as [|erro r0 es vs0 Hr0 _]; simpl.
  - destruct (py_truthy flag).
    + destruct Hml as (rm & Hrm & ->). simpl. eapply razao_ml_titulo; exact Hrm.
    + subst ml. reflexivity.
  - eapply razao_febraban_titulo; exact Hr0.
Qed.

(** ** The advanced view *)

Lemma gerar_modo_avancado_campos v p d a :
  gerar_modo_avancado hash v p d = Ok a ->
  exists tem erros_v usadas,
    py_in "features_usadas" p = Ok tem
    /\ (if tem
        then exists fs itens,
            py_getitem p "features_usadas" = Ok fs
            /\ py_items fs = Ok itens
            /\ features_importantes (metricas a)
               = take 5 (map (feature_importante hash) itens)
        else features_importantes (metricas a) = [])
    /\ py_get v "valido" (PBool false) = Ok (aprovada (validacao_febraban (analise_tecnica a)))
    /\ py_get v "erros" (PList []) = Ok erros_v
    /\ py_len erros_v = Ok (total_erros (validacao_febraban (analise_tecnica a)))
    /\ py_get p "features_usadas" (PDict []) = Ok usadas
    /\ py_len usadas = Ok (features_usadas (modelo_ml (analise_tecnica a)))
    /\ determinar_metodos_deteccao v p = Ok (metodo_deteccao (detalhes_tecnicos a)).
Proof.
  unfold gerar_modo_avancado. intros H.
  apply bind_Ok in H as (tem & Htem & H).
  apply bind_Ok in H as (imp & Himp & H).
  apply bind_Ok in H as (apr & Hapr & H).
  apply bind_Ok in H as (ev & Hev & H).
  apply bind_Ok in H as (tot & Htot & H).
  apply bind_Ok in H as (det & _ & H).
  apply bind_Ok in H as (cls & _ & H).
  apply bind_Ok in H as (prob & _ & H).
  apply bind_Ok in H as (us & Hus & H).
  apply bind_Ok in H as (mt & Hmt & H).
  apply bind_Ok in H as (sc & _ & H).
  apply bind_Ok in H as (cf & _ & H).
  apply bind_Ok in H as (met & Hmet & H).
  apply bind_Ok in H as (b1 & _ & H).
  apply bind_Ok in H as (b2 & _ & H).
  apply bind_Ok in H as (b3 & _ & H).
  apply bind_Ok in H as (b4 & _ & H).
  injection H as <-. simpl.
  exists tem, ev, us. split; [exact Htem|]. split; [|auto 10].
  destruct tem.
  - apply bind_Ok in Himp as (fs & Hfs & Himp).
    apply bind_Ok in Himp as (itens & Hitens & Himp). injection Himp as <-.
    eauto 10.
  - injection Himp as <-. reflexivity.
Qed.

Lemma take_map {A B} (f : A -> B) n (l : list A) :
  take n (map f l) = map f (take n l).
Proof.
  revert n. induction l as [|x l IH]; intros [|n]; simpl; try reflexivity.
  f_equal. apply IH.
Qed.

(** X7.  In a full explanation the advanced view counts all the
    features the classifier used and shows at most five of them: the
    first five in the order of the dict, each under the name of
    TRADUCOES_FEATURES when it has one and under its own name
    otherwise. *)
Theorem cinco_primeiras_features isf v p d s a rs r t :
  bloco isf v p d = Ok (Completa s a rs r t) ->
  exists itens,
    py_get p "features_usadas" (PDict []) = Ok (PDict itens)
    /\ features_usadas (modelo_ml (analise_tecnica a)) = length itens
    /\ features_importantes (metricas a) = map (feature_importante hash) (take 5 itens)
    /\ map feature (features_importantes (metricas a)) = take 5 (map fst itens)
    /\ map valor (features_importantes (metricas a)) = take 5 (map snd itens)
    /\ Forall (fun f => nome_humanizado f
                        = default (feature f) (assoc (feature f) TRADUCOES_FEATURES))
              (features_importantes (metricas a))
    /\ (length (features_importantes (metricas a)) <= 5)%nat.
Proof.
  intros H.
  apply explicacao_try_inv in H as (score & nr & rs' & s' & a' & _ & _ & _ & _ & Ha & He).
  injection He as _ <- _ _ _.
  apply gerar_modo_avancado_campos in Ha
    as (tem & ev & us & Htem & Himp & _ & _ & _ & Hus & Hlen & _).
  assert (Hitens : exists itens,
             us = PDict itens
             /\ features_importantes (metricas a)
                = take 5 (map (feature_importante hash) itens)).
  { destruct p as [| | | | | |ep]; try discriminate.
    simpl in Htem, Hus. injection Htem as <-. injection Hus as <-.
    destruct (assoc "features_usadas" ep) as [u|] eqn:E.
    - rewrite bool_decide_eq_true_2 in Himp by eauto.
      destruct Himp as (fs & itens & Hfs & Hit & Himp').
      simpl in Hfs. rewrite E in Hfs. injection Hfs as <-.
      destruct u; try discriminate. injection Hit as <-.
      exists entries. split; [reflexivity|exact Himp'].
    - rewrite bool_decide_eq_false_2 in Himp by (intros [? ?]; discriminate).
      exists []. split; [reflexivity|exact Himp]. }
  destruct Hitens as (itens & -> & Himp').
  clear Himp. rename Himp' into Himp.
  exists itens. split; [exact Hus|].
  simpl in Hlen. injection Hlen as Hlen.
  split; [symmetry; exact Hlen|].
  rewrite Himp, take_map.
  split; [reflexivity|].
  split.
  { rewrite List.map_map, take_map. apply List.map_ext. intros [nome x]. reflexivity. }
  split.
  { rewrite List.map_map, take_map. apply List.map_ext. intros [nome x]. reflexivity. }
  split.
  { apply Forall_forall. intros f Hf. apply list_elem_of_In in Hf.
    apply in_map_iff in Hf as ([nome x] & <- & _). reflexivity. }
  rewrite length_map, length_take. lia.
Qed.

Lemma razoes_validacao_length v p rs erros :
  coletar_razoes float_mul format_1f v p = Ok rs ->
  bind (py_get v "erros" (PList [])) py_iter = Ok erros ->
  length (List.filter da_validacao rs) = length erros.
Proof.
  intros Hrs Herros.
  apply coletar_razoes_coletadas in Hrs.
  apply razoes_coletadas_inv in Hrs
    as (erros' & vs & ml & flag & Herros' & Hvs & _ & Hml & ->).
  rewrite Herros in Herros'. injection Herros' as <-.
  assert (Hfv := Forall2_fonte_validacao _ _ Hvs).
  assert (Hfm : Forall (fun r => da_validacao r = false /\ do_modelo r = true) ml).
  { destruct (py_truthy flag).
    - destruct Hml as (r & Hr & ->). constructor; [|constructor].
      apply razao_ml_campos in Hr as (cf & c & _ & _ & _ & _ & _ & Hf).
      unfold da_validacao, do_modelo. rewrite Hf. split; reflexivity.
    - subst ml. constructor. }
  destruct (filter_app_fontes vs ml Hfv Hfm) as [-> _].
  symmetry. eapply Forall2_length_eq; exact Hvs.
Qed.

(** X8.  The two views of a full explanation agree on the validation
    errors: when the validator lists its errors in a list (or a dict),
    the count [total_erros] of the advanced view is the length of that
    list and the number of the validator's reasons in [razoes]. *)
Theorem total_erros_conta_as_razoes isf v p d s a rs r t erros_v :
  bloco isf v p d = Ok (Completa s a rs r t) ->
  py_get v "erros" (PList []) = Ok erros_v ->
  (forall texto, erros_v <> PStr texto) ->
  exists erros,
    py_iter erros_v = Ok erros
    /\ total_erros (validacao_febraban (analise_tecnica a)) = length erros
    /\ length (List.filter da_validacao rs) = length erros.
Proof.
  intros H Hev Hstr.
  apply explicacao_try_inv in H as (score & nr & rs' & s' & a' & _ & _ & Hrs & _ & Ha & He).
  injection He as _ <- <- _ _.
  apply gerar_modo_avancado_campos in Ha
    as (tem & ev & us & _ & _ & _ & Hev' & Htot & _).
  rewrite Hev in Hev'. injection Hev' as <-.
  assert (Hit : exists erros, py_iter erros_v = Ok erros
                              /\ total_erros (validacao_febraban (analise_tecnica a))
                                 = length erros).
  { destruct erros_v; try discriminate; simpl in Htot; injection Htot as <-.
    - destruct (Hstr s0). reflexivity.
    - eexists. split; [reflexivity|reflexivity].
    - eexists. split; [reflexivity|]. rewrite length_map. reflexivity. }
  destruct Hit as (erros & Hit & Hlen).
  exists erros. split; [exact Hit|]. split; [exact Hlen|].
  eapply razoes_validacao_length; [exact Hrs|].
  rewrite Hev. simpl. exact Hit.
Qed.

Lemma determinar_metodos_deteccao_campos v p metodos :
  determinar_metodos_deteccao v p = Ok metodos ->
  exists valido flag,
    py_get v "valido" (PBool true) = Ok valido
    /\ py_get p "is_fraudulento" (PBool false) = Ok flag
    /\ metodos = ((if py_truthy valido then [] else ["validacao_febraban"])
                  ++ (if py_truthy flag then ["modelo_ml"] else []))%list.
Proof.
  unfold determinar_metodos_deteccao. intros H.
  apply bind_Ok in H as (valido & Hv & H).
  apply bind_Ok in H as (flag & Hf & H). injection H as <-.
  exists valido, flag. split; [exact Hv|]. split; [exact Hf|].
  destruct (py_truthy valido), (py_truthy flag); reflexivity.
Qed.

Lemma py_get_truthy_default entries k :
  py_truthy (default PNone (assoc k entries))
  = py_truthy (default (PBool false) (assoc k entries)).
Proof. destruct (assoc k entries); reflexivity. Qed.

(** X9.  In a full explanation [metodo_deteccao] lists
    "validacao_febraban" exactly when the validation result's [valido]
    is present and false, then "modelo_ml" exactly when the classifier
    flags a fraud; and "modelo_ml" is listed exactly when [razoes]
    holds a reason of the classifier. *)
Theorem metodo_deteccao_e_razoes isf v p d s a rs r t :
  bloco isf v p d = Ok (Completa s a rs r t) ->
  exists valido flag,
    py_get v "valido" (PBool true) = Ok valido
    /\ py_get p "is_fraudulento" (PBool false) = Ok flag
    /\ metodo_deteccao (detalhes_tecnicos a)
       = ((if py_truthy valido then [] else ["validacao_febraban"])
          ++ (if py_truthy flag then ["modelo_ml"] else []))%list
    /\ (In "modelo_ml" (metodo_deteccao (detalhes_tecnicos a))
        <-> List.filter do_modelo rs <> []).
Proof.
  intros H.
  apply explicacao_try_inv in H as (score & nr & rs' & s' & a' & _ & _ & Hrs & _ & Ha & He).
  injection He as _ <- <- _ _.
  apply gerar_modo_avancado_campos in Ha as (tem & ev & us & _ & _ & _ & _ & _ & _ & _ & Hmet).
  apply determinar_metodos_deteccao_campos in Hmet as (valido & flag & Hv & Hf & Hmet).
  exists valido, flag. split; [exact Hv|]. split; [exact Hf|]. split; [exact Hmet|].
  apply coletar_razoes_coletadas in Hrs.
  apply razoes_coletadas_inv in Hrs
    as (erros & vs & ml & flag' & _ & Hvs & Hflag' & Hml & ->).
  assert (Hflags : py_truthy flag' = py_truthy flag).
  { destruct p as [| | | | | |ep]; try discriminate.
    simpl in Hf, Hflag'. injection Hf as <-. injection Hflag' as <-.
    apply py_get_truthy_default. }
  assert (Hfv := Forall2_fonte_validacao _ _ Hvs).
  assert (Hfm : Forall (fun r => da_validacao r = false /\ do_modelo r = true) ml).
  { destruct (py_truthy flag').
    - destruct Hml as (rm & Hr & ->). constructor; [|constructor].
      apply razao_ml_campos in Hr as (cf & c & _ & _ & _ & _ & _ & Hfo).
      unfold da_validacao, do_modelo. rewrite Hfo. split; reflexivity.
    - subst ml. constructor. }
  destruct (filter_app_fontes vs ml Hfv Hfm) as [_ ->].
  rewrite Hmet. rewrite Hflags in Hml.
  destruct (py_truthy flag).
  - destruct Hml as (rm & _ & ->). split; [discriminate|].
    intros _. apply in_or_app. right. simpl. auto.
  - subst ml. split; [|congruence].
    intros Hin. apply in_app_or in Hin as [Hin | []].
    destruct (py_truthy valido); simpl in Hin; [destruct Hin|].
    destruct Hin as [Hin | []]. discriminate.
Qed.

(** X10.  A validation result that lacks the key [valido] is reported
    in two ways by the advanced view of a full explanation: the
    validation counts as not approved ([aprovada] is False), and
    "validacao_febraban" is not among the detection methods. *)
Theorem valido_ausente_nas_duas_leituras isf ev p d s a rs r t :
  assoc "valido" ev = None ->
  bloco isf (PDict ev) p d = Ok (Completa s a rs r t) ->
  aprovada (validacao_febraban (analise_tecnica a)) = PBool false
  /\ ~ In "validacao_febraban" (metodo_deteccao (detalhes_tecnicos a)).
Proof.
  intros Hnone H.
  apply explicacao_try_inv in H as (score & nr & rs' & s' & a' & _ & _ & _ & _ & Ha & He).
  injection He as _ <- _ _ _.
  apply gerar_modo_avancado_campos in Ha as (tem & ev' & us & _ & _ & Hapr & _ & _ & _ & _ & Hmet).
  simpl in Hapr. rewrite Hnone in Hapr. injection Hapr as <-.
  split; [reflexivity|].
  apply determinar_metodos_deteccao_campos in Hmet as (valido & flag & Hv & _ & ->).
  simpl in Hv. rewrite Hnone in Hv. injection Hv as <-. simpl.
  destruct (py_truthy flag); simpl; intros Hin;
    [destruct Hin as [Hin | []]; discriminate | destruct Hin].
Qed.

(** ** The reasons of the validator *)

(** X11.  An error string that TRADUCOES_ERROS lists gives a reason
    under its own category, which CATEGORIAS always has: name, icon and
    colour are those of that category, never the borrowed ones of
    [padrao_ml], and the title and the two texts are the translations,
    not the raw string. *)
Theorem erro_listado_na_sua_categoria (s : string) (t : Traducao) :
  assoc s TRADUCOES_ERROS = Some t ->
  exists r c,
    razao_febraban (PStr s) = Ok r
    /\ assoc (tr_categoria t) CATEGORIAS = Some c
    /\ c <> CATEGORIAS_padrao_ml
    /\ categoria r = tr_categoria t
    /\ categoria_nome r = cat_nome c
    /\ icone r = cat_icone c
    /\ cor r = cat_cor c
    /\ titulo r = tr_simples t
    /\ descricao_simples r = tr_simples t
    /\ descricao_avancada r = tr_avancado t
    /\ titulo r <> PStr s.
Proof.
  intros H.
  assert (Hr : exists r, razao_febraban (PStr s) = Ok r
                         /\ r = {| gravidade := "critica";
                                   categoria := tr_categoria t;
                                   categoria_nome :=
                                     cat_nome (default CATEGORIAS_padrao_ml
                                                 (assoc (tr_categoria t) CATEGORIAS));
                                   icone :=
                                     cat_icone (default CATEGORIAS_padrao_ml
                                                  (assoc (tr_categoria t) CATEGORIAS));
                                   cor :=
                                     cat_cor (default CATEGORIAS_padrao_ml
                                                (assoc (tr_categoria t) CATEGORIAS));
                                   titulo := tr_simples t;
                                   descricao_simples := tr_simples t;
                                   descricao_avancada := tr_avancado t;
                                   impacto := PFloat 1;
                                   fonte := "Validação FEBRABAN" |}).
  { unfold razao_febraban. cbn [py_hashable negb]. rewrite H. eauto. }
  destruct Hr as (r & Hr & ->).
  unfold TRADUCOES_ERROS in H. cbn [assoc] in H.
  repeat match type of H with
         | context [String.eqb s ?k] =>
             let E := fresh "E" in
             destruct (String.eqb s k) eqn:E;
             [apply String.eqb_eq in E|clear E]
         end;
    try discriminate;
    injection H as <-; subst s;
    (do 2 eexists; split; [exact Hr|]; split; [reflexivity|];
     split; [discriminate|]; repeat split; discriminate).
Qed.

Lemma Forall2_In_l {A B} (R : A -> B -> Prop) l l' x :
  Forall2 R l l' -> In x l -> exists y, R x y.
Proof.
  induction 1 as [|a b l l' Hab _ IH]; intros Hin; [destruct Hin|].
  destruct Hin as [<- | Hin]; eauto.
Qed.

(** X12.  An element of the error list that is not a string is not
    translated: when hashable (None, a boolean, a number) it gives a
    reason of category "outros" whose title and texts are the element
    itself; when it is a list or a dict the collection raises, and the
    whole synthesis returns the fallback explanation. *)
Theorem erro_que_nao_e_texto (erro : pyval) :
  (forall texto, erro <> PStr texto) ->
  (py_hashable erro = true ->
   exists r,
     razao_febraban erro = Ok r
     /\ categoria r = "outros"
     /\ categoria_nome r = "Padrão Detectado por IA"
     /\ titulo r = erro
     /\ descricao_simples r = erro
     /\ descricao_avancada r = erro)
  /\ (py_hashable erro = false ->
      forall isf ev p d erros,
        default (PList []) (assoc "erros" ev) = PList erros ->
        In erro erros ->
        sintese isf (PDict ev) p d = Ok (gerar_explicacao_fallback isf)).
Proof.
  intros Hstr. split.
  - intros Hh. unfold razao_febraban. rewrite Hh. cbn [negb].
    destruct erro; try discriminate;
      try (eexists; split; [reflexivity|]; repeat split; reflexivity).
    destruct (Hstr s). reflexivity.
  - intros Hh isf ev p d erros Herros Hin.
    apply bloco_levanta. intros e He.
    apply explicacao_try_inv in He as (score & nr & rs & s & a & _ & _ & Hrs & _).
    apply coletar_razoes_coletadas in Hrs.
    apply razoes_coletadas_inv in Hrs as (erros' & vs & ml & flag & Herros' & Hvs & _).
    simpl in Herros'. rewrite Herros in Herros'. simpl in Herros'.
    injection Herros' as <-.
    destruct (Forall2_In_l _ _ _ _ Hvs Hin) as [r Hr].
    unfold razao_febraban in Hr. rewrite Hh in Hr. discriminate.
Qed.

End Synthesis.

(** ** The further properties on concrete inputs *)

Lemma sintese_fallback_em_entrada_malformada_witness :
  gerar_explicacao_completa hash_a Qmult format_exemplo relogio
    true PNone (predicao_fraude 0.875 90) dados_exemplo
  = Ok (gerar_explicacao_fallback true).
Proof.
  apply sintese_fallback_em_entrada_malformada. left. reflexivity.
Defined.

Lemma validacao_dois_erros_completa : validacao_completa validacao_dois_erros.
Proof. eexists _, ["Valor inconsistente"; "Boleto vencido"]. split; reflexivity. Qed.

Lemma predicao_fraude_completa c score : predicao_completa (predicao_fraude c score).
Proof.
  eexists. split; [reflexivity|]. split; [simpl; eauto|]. split.
  - intros _. simpl. eauto.
  - intros usadas [= <-]. reflexivity.
Qed.

Lemma sintese_completa_em_entrada_bem_formada_witness :
  exists s a rs r,
    gerar_explicacao_completa hash_a Qmult format_exemplo relogio
      true validacao_dois_erros (predicao_fraude 0.875 90) dados_exemplo
    = Ok (Completa s a rs r relogio).
Proof.
  destruct (sintese_completa_em_entrada_bem_formada hash_a Qmult format_exemplo relogio
              true validacao_dois_erros (predicao_fraude 0.875 90) dados_exemplo
              validacao_dois_erros_completa (predicao_fraude_completa _ _) eq_refl)
    as (s & a & rs & r & H & _).
  exists s, a, rs, r. exact H.
Defined.

Lemma fraude_nunca_pode_pagar_witness :
  exists e,
    gerar_explicacao_completa hash_a Qmult format_exemplo relogio
      true validacao_dois_erros (predicao_limpa 10) dados_exemplo = Ok e
    /\ exp_nivel_risco e = "MÉDIO"
    /\ exp_recomendacao e <> Some recomendacao_BAIXO.
Proof.
  eexists. split; [vm_compute; reflexivity|]. split; [reflexivity|].
  eapply (fraude_nunca_pode_pagar hash_a Qmult format_exemplo relogio
            validacao_dois_erros (predicao_limpa 10) dados_exemplo).
  vm_compute. reflexivity.
Defined.

Lemma confianca_segue_o_score_witness :
  exists s a rs r t,
    explicacao_try hash_a Qmult format_exemplo relogio
      true validacao_dois_erros (predicao_fraude 0.875 90) dados_exemplo
    = Ok (Completa s a rs r t)
    /\ In (ms_confianca s, rec_nivel_risco r) confianca_e_rotulo.
Proof.
  destruct (explicacao_try hash_a Qmult format_exemplo relogio
              true validacao_dois_erros (predicao_fraude 0.875 90) dados_exemplo)
    as [[s a rs r t|s a rs r]|ex] eqn:H;
    [|vm_compute in H; discriminate..].
  exists s, a, rs, r, t. split; [reflexivity|].
  destruct (confianca_segue_o_score _ _ _ _ _ _ _ _ _ _ _ _ _ H)
    as (score & x & _ & _ & _ & Hin).
  exact Hin.
Defined.

Lemma principal_motivo_da_primeira_razao_witness :
  exists s a rs r t,
    explicacao_try hash_a Qmult format_exemplo relogio
      true validacao_dois_erros (predicao_fraude 0.875 90) dados_exemplo
    = Ok (Completa s a rs r t)
    /\ ms_principal_motivo s = PStr "Valor do boleto suspeito".
Proof.
  destruct (explicacao_try hash_a Qmult format_exemplo relogio
              true validacao_dois_erros (predicao_fraude 0.875 90) dados_exemplo)
    as [[s a rs r t|s a rs r]|ex] eqn:H;
    [|vm_compute in H; discriminate..].
  exists s, a, rs, r, t. split; [reflexivity|].
  exact (principal_motivo_da_primeira_razao _ _ _ _ _ _ _ _ _ _ _ _ _ _ _ H
           eq_refl eq_refl).
Defined.

Lemma cinco_primeiras_features_witness :
  exists s a rs r t,
    explicacao_try hash_a Qmult format_exemplo relogio
      true validacao_dois_erros predicao_oito_features dados_exemplo
    = Ok (Completa s a rs r t)
    /\ features_usadas (modelo_ml (analise_tecnica a)) = 8%nat
    /\ map feature (features_importantes (metricas a))
       = ["banco"; "codigoBanco"; "agencia"; "valor"; "linha_codBanco"].
Proof.
  destruct (explicacao_try hash_a Qmult format_exemplo relogio
              true validacao_dois_erros predicao_oito_features dados_exemplo)
    as [[s a rs r t|s a rs r]|ex] eqn:H;
    [|vm_compute in H; discriminate..].
  exists s, a, rs, r, t. split; [reflexivity|].
  destruct (cinco_primeiras_features _ _ _ _ _ _ _ _ _ _ _ _ _ H)
    as (itens & Hit & Hn & _ & Hf & _).
  injection Hit as <-. rewrite Hn, Hf. split; reflexivity.
Defined.

Lemma total_erros_conta_as_razoes_witness :
  exists s a rs r t,
    explicacao_try hash_a Qmult format_exemplo relogio
      true validacao_dois_erros (predicao_fraude 0.875 90) dados_exemplo
    = Ok (Completa s a rs r t)
    /\ total_erros (validacao_febraban (analise_tecnica a)) = 2%nat
    /\ length (List.filter da_validacao rs) = 2%nat.
Proof.
  destruct (explicacao_try hash_a Qmult format_exemplo relogio
              true validacao_dois_erros (predicao_fraude 0.875 90) dados_exemplo)
    as [[s a rs r t|s a rs r]|ex] eqn:H;
    [|vm_compute in H; discriminate..].
  exists s, a, rs, r, t. split; [reflexivity|].
  destruct (total_erros_conta_as_razoes _ _ _ _ _ _ _ _ _ _ _ _ _ _ H eq_refl)
    as (erros & Hit & H1 & H2); [discriminate|].
  injection Hit as <-. split; assumption.
Defined.

Lemma metodo_deteccao_e_razoes_witness :
  exists s a rs r t,
    explicacao_try hash_a Qmult format_exemplo relogio
      true validacao_dois_erros (predicao_fraude 0.875 90) dados_exemplo
    = Ok (Completa s a rs r t)
    /\ metodo_deteccao (detalhes_tecnicos a) = ["validacao_febraban"; "modelo_ml"].
Proof.
  destruct (explicacao_try hash_a Qmult format_exemplo relogio
              true validacao_dois_erros (predicao_fraude 0.875 90) dados_exemplo)
    as [[s a rs r t|s a rs r]|ex] eqn:H;
    [|vm_compute in H; discriminate..].
  exists s, a, rs, r, t. split; [reflexivity|].
  destruct (metodo_deteccao_e_razoes _ _ _ _ _ _ _ _ _ _ _ _ _ H)
    as (valido & flag & Hv & Hf & Hm & _).
  injection Hv as <-. injection Hf as <-. exact Hm.
Defined.

Lemma valido_ausente_nas_duas_leituras_witness :
  exists s a rs r t,
    explicacao_try hash_a Qmult format_exemplo relogio
      true validacao_sem_valido (predicao_limpa 10) dados_exemplo
    = Ok (Completa s a rs r t)
    /\ aprovada (validacao_febraban (analise_tecnica a)) = PBool false
    /\ ~ In "validacao_febraban" (metodo_deteccao (detalhes_tecnicos a)).
Proof.
  destruct (explicacao_try hash_a Qmult format_exemplo relogio
              true validacao_sem_valido (predicao_limpa 10) dados_exemplo)
    as [[s a rs r t|s a rs r]|ex] eqn:H;
    [|vm_compute in H; discriminate..].
  exists s, a, rs, r, t. split; [reflexivity|].
  eapply (valido_ausente_nas_duas_leituras hash_a Qmult format_exemplo relogio);
    [|exact H]. reflexivity.
Defined.

Lemma erro_listado_na_sua_categoria_witness :
  exists r,
    razao_febraban (PStr "DV do código de barras inválido") = Ok r
    /\ categoria r = "codigo_barras"
    /\ titulo r = PStr "Código de barras adulterado".
Proof.
  destruct (erro_listado_na_sua_categoria "DV do código de barras inválido" _ eq_refl)
    as (r & c & Hr & _ & _ & Hc & _ & _ & _ & Ht & _).
  exists r. split; [exact Hr|]. split; [exact Hc|exact Ht].
Defined.

Lemma erro_que_nao_e_texto_witness :
  (exists r, razao_febraban (PInt 7) = Ok r /\ titulo r = PInt 7)
  /\ gerar_explicacao_completa hash_a Qmult format_exemplo relogio
       true (PDict [("erros", PList [PStr "Valor inconsistente"; PList []])])
       (predicao_limpa 10) dados_exemplo
     = Ok (gerar_explicacao_fallback true).
Proof.
  split.
  - destruct (erro_que_nao_e_texto hash_a Qmult format_exemplo relogio (PInt 7))
      as [H _]; [discriminate|].
    destruct (H eq_refl) as (r & Hr & _ & _ & Ht & _). eauto.
  - destruct (erro_que_nao_e_texto hash_a Qmult format_exemplo relogio (PList []))
      as [_ H]; [discriminate|].
    eapply (H eq_refl); [reflexivity|]. simpl. auto.
Defined.

End ExplainerExtra.

(* ================================================================== *)
(** * Further properties of the upload and lookup handlers *)
(* ================================================================== *)

Module ApiExtra.
Import Api ApiProps.
Open Scope prog_scope.

(** ** Outcomes of an upload *)

(** The executions of the handler of an upload that passes the checks,
    by the calls that took effect. *)
Lemma analisar_boleto_execucoes file w cs p' w' :
  tipo_permitido (content_type file) = true ->
  (0 < file_size file <= 10 * 1024 * 1024)%Z ->
  executa (analisar_boleto file) w cs p' w' ->
  sem_chamadas p' = true ->
  exists id agora,
    (cs = [] /\ w' = w
     /\ exists msg, p' = Raise (HTTPException 500
                                  ("Erro interno ao processar arquivo: " ++ msg)))
    \/ (cs = [CInsert (analise_de file id agora)]
        /\ analises w !! id = None
        /\ w' = com_analise (analise_de file id agora) w
        /\ exists msg, p' = Raise (HTTPException 500
                                     ("Erro interno ao processar arquivo: " ++ msg)))
    \/ (cs = [CInsert (analise_de file id agora); CPush "boletos:jobs" (job_de file id)]
        /\ analises w !! id = None
        /\ w' = com_job (job_de file id) (com_analise (analise_de file id agora) w)
        /\ p' = Ret (resposta_de file id)).
Proof.
  intros Ht Hs H Hfim. rewrite (analisar_boleto_valido file Ht Hs) in H.
  repeat match goal with
         | Hx : executa _ _ _ _ _ |- _ => simpl in Hx; inversion Hx; subst; clear Hx
         end;
    try discriminate;
    first [ exists "", ""; left; split; [reflexivity|]; split; [reflexivity|];
            eexists; reflexivity
          | do 2 eexists; right; left;
            split; [reflexivity|]; split; [eassumption|]; split; [reflexivity|];
            eexists; reflexivity
          | do 2 eexists; right; right;
            split; [reflexivity|]; split; [eassumption|]; split; reflexivity ].
Qed.

Lemma analisar_boleto_rejeitado file :
  tipo_permitido (content_type file) = false
  \/ file_size file = 0%Z
  \/ (file_size file > 10 * 1024 * 1024)%Z ->
  exists detail, analisar_boleto file = Raise (HTTPException 400 detail).
Proof.
  intros H. destruct (tipo_permitido (content_type file)) eqn:Ht.
  - destruct H as [H | [H | H]]; [discriminate| |].
    + eexists. apply analisar_boleto_vazio; assumption.
    + eexists. apply analisar_boleto_muito_grande; assumption.
  - eexists. apply analisar_boleto_tipo_invalido; assumption.
Qed.

Lemma arquivo_valido_ou_rejeitado file :
  (tipo_permitido (content_type file) = true
   /\ (0 < file_size file <= 10 * 1024 * 1024)%Z)
  \/ (tipo_permitido (content_type file) = false
      \/ file_size file = 0%Z
      \/ (file_size file > 10 * 1024 * 1024)%Z).
Proof.
  destruct (tipo_permitido (content_type file)); [|auto].
  unfold file_size. lia.
Qed.

Lemma resposta_inversao file w cs resp w' :
  executa (analisar_boleto file) w cs (Ret resp) w' ->
  tipo_permitido (content_type file) = true
  /\ (0 < file_size file <= 10 * 1024 * 1024)%Z
  /\ exists id agora,
      analises w !! id = None
      /\ cs = [CInsert (analise_de file id agora); CPush "boletos:jobs" (job_de file id)]
      /\ w' = com_job (job_de file id) (com_analise (analise_de file id agora) w)
      /\ resp = resposta_de file id.
Proof.
  intros H.
  destruct (arquivo_valido_ou_rejeitado file) as [[Ht Hs] | Hrej].
  - split; [exact Ht|]. split; [exact Hs|].
    destruct (analisar_boleto_execucoes file w cs _ w' Ht Hs H eq_refl)
      as (id & agora & [(_ & _ & msg & Hp) | [(_ & _ & _ & msg & Hp) | (Hcs & Hid & Hw & Hp)]]);
      try discriminate.
    injection Hp as ->. exists id, agora. auto.
  - destruct (analisar_boleto_rejeitado file Hrej) as [detail Heq].
    rewrite Heq in H.
    apply executa_sem_chamadas in H as (_ & Hp & _); [discriminate|reflexivity].
Qed.

(** X13.  A response is returned only after both writes: when an
    execution of the handler ends with a response, the upload passed
    the three checks, the id generated was free in the Job Store, the
    record of that id was inserted and then its job was pushed, and the
    response carries that id with the name, size and type of the
    file. *)
Theorem resposta_so_com_as_duas_escritas file w cs resp w' :
  executa (analisar_boleto file) w cs (Ret resp) w' ->
  tipo_permitido (content_type file) = true
  /\ (0 < file_size file <= 10 * 1024 * 1024)%Z
  /\ exists id agora,
      analises w !! id = None
      /\ cs = [CInsert (analise_de file id agora); CPush "boletos:jobs" (job_de file id)]
      /\ w' = com_job (job_de file id) (com_analise (analise_de file id agora) w)
      /\ resp = resposta_de file id.
Proof. apply resposta_inversao. Qed.

(** X14.  The handler ends with a response or with an HTTP 400 or 500,
    never with another exception; and it does not undo the insert when
    the push fails: an upload that passed the checks can end with an
    HTTP 500 while its record, with status processing, stays in the Job
    Store and no job is queued.  An HTTP 500 leaves either nothing
    written or that record alone. *)
Theorem falha_sem_desfazer file w :
  (forall cs p' w',
     executa (analisar_boleto file) w cs p' w' ->
     sem_chamadas p' = true ->
     In (http_status p') [Some 200%Z; Some 400%Z; Some 500%Z])
  /\ (forall cs p' w',
        executa (analisar_boleto file) w cs p' w' ->
        http_status p' = Some 500%Z ->
        exists id agora,
          (cs = [] /\ w' = w)
          \/ (cs = [CInsert (analise_de file id agora)]
              /\ w' = com_analise (analise_de file id agora) w
              /\ fila w' = fila w))
  /\ (tipo_permitido (content_type file) = true ->
      (0 < file_size file <= 10 * 1024 * 1024)%Z ->
      forall id agora msg,
        analises w !! id = None ->
        executa (analisar_boleto file) w
          [CInsert (analise_de file id agora)]
          (Raise (HTTPException 500 ("Erro interno ao processar arquivo: " ++ msg)))
          (com_analise (analise_de file id agora) w)
        /\ analises (com_analise (analise_de file id agora) w) !! id
           = Some (analise_de file id agora)
        /\ fila (com_analise (analise_de file id agora) w) = fila w).
Proof.
  split; [|split].
  - intros cs p' w' H Hfim.
    destruct (arquivo_valido_ou_rejeitado file) as [[Ht Hs] | Hrej].
    + destruct (analisar_boleto_execucoes file w cs p' w' Ht Hs H Hfim)
        as (id & agora & [(_ & _ & msg & ->) | [(_ & _ & _ & msg & ->) | (_ & _ & _ & ->)]]);
        simpl; auto.
    + destruct (analisar_boleto_rejeitado file Hrej) as [detail Heq].
      rewrite Heq in H.
      apply executa_sem_chamadas in H as (_ & -> & _); [|reflexivity].
      simpl. auto.
  - intros cs p' w' H H500.
    assert (Hfim : sem_chamadas p' = true)
      by (destruct p' as [| [] | | | |]; simpl in H500; try discriminate; reflexivity).
    destruct (arquivo_valido_ou_rejeitado file) as [[Ht Hs] | Hrej].
    + destruct (analisar_boleto_execucoes file w cs p' w' Ht Hs H Hfim)
        as (id & agora & [(-> & -> & _) | [(-> & _ & -> & _) | (_ & _ & _ & ->)]]).
      * exists id, agora. auto.
      * exists id, agora. right. auto.
      * discriminate.
    + destruct (analisar_boleto_rejeitado file Hrej) as [detail Heq].
      rewrite Heq in H.
      apply executa_sem_chamadas in H as (_ & -> & _); [|reflexivity].
      discriminate.
  - intros Ht Hs id agora msg Hid. split; [|split].
    + rewrite (analisar_boleto_valido file Ht Hs). simpl.
      apply ex_uuid4 with (id := id). apply ex_utcnow with (t := agora).
      apply ex_insert; [exact Hid|]. simpl.
      apply ex_rpush_falha with (msg := msg). simpl. apply ex_fim.
    + simpl. apply lookup_insert_eq.
    + reflexivity.
Qed.

Lemma executa_preserva {A} (p : Prog A) w cs p' w' :
  executa p w cs p' w' ->
  (forall id doc, analises w !! id = Some doc -> analises w' !! id = Some doc)
  /\ fila w' = (fila w ++ itens_enfileirados cs)%list.
Proof.
  induction 1 as [p w|k id w cs p' w' _ IH|k t w cs p' w' _ IH
                 |doc k w cs p' w' Hd _ IH|doc k msg w cs p' w' _ IH
                 |key item k w cs p' w' _ IH|key item k msg w cs p' w' _ IH];
    simpl.
  - split; [auto|]. symmetry. apply app_nil_r.
  - exact IH.
  - exact IH.
  - destruct IH as [IH1 IH2]. split; [|exact IH2].
    intros id d Hid. apply IH1. simpl.
    rewrite lookup_insert_ne; [exact Hid|]. intros Heq. congruence.
  - exact IH.
  - destruct IH as [IH1 IH2]. split; [exact IH1|].
    rewrite IH2. simpl. rewrite <- app_assoc. reflexivity.
  - exact IH.
Qed.

(** X15.  The handler only adds: along any of its executions every
    record already in the Job Store stays as it was, and the Work Queue
    keeps its items in place, with at most one new item at its end. *)
Theorem so_acrescenta file w cs p' w' :
  executa (analisar_boleto file) w cs p' w' ->
  (forall id doc, analises w !! id = Some doc -> analises w' !! id = Some doc)
  /\ exists novos, fila w' = (fila w ++ novos)%list /\ (length novos <= 1)%nat.
Proof.
  intros H.
  destruct (executa_preserva _ _ _ _ _ H) as [Hrec Hfila].
  split; [exact Hrec|].
  exists (itens_enfileirados cs). split; [exact Hfila|].
  destruct (analisar_boleto_chamadas file w cs p' w' H)
    as (id & agora & [-> | [-> | ->]]); simpl; lia.
Qed.

(** ** Size of the queued payload *)

Lemma b64encode_length_aux n :
  forall bs, (length bs <= n)%nat ->
             String.length (b64encode bs) = (4 * ((length bs + 2) / 3))%nat.
Proof.
  induction n as [|n IH]; intros bs Hn.
  - destruct bs; [reflexivity|simpl in Hn; lia].
  - destruct bs as [|a [|b [|c rest]]]; try reflexivity.
    change (b64encode (a :: b :: c :: rest))
      with (let m := (byte_N a * 65536 + byte_N b * 256 + byte_N c)%N in
            String (b64_char (m / 262144))
              (String (b64_char ((m / 4096) mod 64))
                 (String (b64_char ((m / 64) mod 64))
                    (String (b64_char (m mod 64)) (b64encode rest))))).
    cbn [String.length]. rewrite IH by (simpl in Hn; lia).
    cbn [length].
    replace (S (S (S (length rest))) + 2)%nat with ((length rest + 2) + 1 * 3)%nat by lia.
    rewrite Nat.div_add by lia. lia.
Qed.

Lemma b64encode_length bs :
  String.length (b64encode bs) = (4 * ((length bs + 2) / 3))%nat.
Proof. apply (b64encode_length_aux (length bs)). lia. Qed.

(** X16.  The base64 text has four characters for every three bytes,
    the last group padded; so the payload of a job the handler pushes,
    whose file passed the size check, is never empty and never longer
    than 13 981 016 characters. *)
Theorem payload_da_fila_limitado file w cs p' w' key item :
  executa (analisar_boleto file) w cs p' w' ->
  In (CPush key item) cs ->
  String.length (file_base64 item) = (4 * ((length (conteudo file) + 2) / 3))%nat
  /\ (4 <= Z.of_nat (String.length (file_base64 item)) <= base64_maximo)%Z.
Proof.
  intros H Hin.
  assert (Hitem : exists id, item = job_de file id).
  { destruct (analisar_boleto_chamadas file w cs p' w' H)
      as (id & agora & [-> | [-> | ->]]); simpl in Hin.
    - destruct Hin.
    - destruct Hin as [Hin | []]. discriminate.
    - destruct Hin as [Hin | [Hin | []]]; [discriminate|].
      injection Hin as _ <-. eauto. }
  destruct Hitem as [id ->]. simpl. rewrite b64encode_length.
  split; [reflexivity|].
  assert (Hval : (0 < file_size file <= 10 * 1024 * 1024)%Z).
  { destruct (arquivo_valido_ou_rejeitado file) as [[_ Hs] | Hrej]; [exact Hs|].
    destruct (analisar_boleto_rejeitado file Hrej) as [detail Heq].
    rewrite Heq in H.
    apply executa_sem_chamadas in H as (-> & _); [destruct Hin|reflexivity]. }
  unfold file_size in Hval. unfold base64_maximo.
  rewrite Nat2Z.inj_mul, Nat2Z.inj_div, Nat2Z.inj_add.
  change (Z.of_nat 4) with 4%Z. change (Z.of_nat 3) with 3%Z.
  change (Z.of_nat 2) with 2%Z.
  set (n := Z.of_nat (length (conteudo file))) in *.
  pose proof (Z.div_mod (n + 2) 3 ltac:(lia)) as Hdm.
  pose proof (Z.mod_pos_bound (n + 2) 3 ltac:(lia)) as Hmod.
  set (q := ((n + 2) / 3)%Z) in *. set (m := ((n + 2) mod 3)%Z) in *.
  lia.
Qed.

(** ** Lookup of an analysis *)

Lemma assoc_sem_chave {A} (k k0 : string) (d : list (string * A)) :
  k <> k0 ->
  Py.assoc k (List.filter (fun kv => negb (String.eqb k0 kv.1)) d) = Py.assoc k d.
Proof.
  intros Hne. induction d as [|[k' v'] d IH]; [reflexivity|]. simpl.
  destruct (String.eqb k0 k') eqn:E0; simpl.
  - apply String.eqb_eq in E0. subst k'.
    destruct (String.eqb k k0) eqn:E; [apply String.eqb_eq in E; contradiction|].
    exact IH.
  - rewrite IH. reflexivity.
Qed.

Lemma assoc_da_chave_tirada {A} (k0 : string) (d : list (string * A)) :
  Py.assoc k0 (List.filter (fun kv => negb (String.eqb k0 kv.1)) d) = None.
Proof.
  induction d as [|[k' v'] d IH]; [reflexivity|]. simpl.
  destruct (String.eqb k0 k') eqn:E0; simpl; [exact IH|].
  rewrite E0. exact IH.
Qed.

Lemma assoc_dict_set k v d : Py.assoc k (dict_set k v d) = Some v.
Proof.
  induction d as [|[k' v'] d IH]; simpl.
  - rewrite String.eqb_refl. reflexivity.
  - destruct (String.eqb k k') eqn:E; simpl.
    + rewrite String.eqb_refl. reflexivity.
    + rewrite E. exact IH.
Qed.

Lemma assoc_dict_set_outra k k0 v d :
  k <> k0 -> Py.assoc k (dict_set k0 v d) = Py.assoc k d.
Proof.
  intros Hne.
  assert (Hk : String.eqb k k0 = false) by (apply String.eqb_neq; exact Hne).
  induction d as [|[k' v'] d IH]; simpl.
  - rewrite Hk. reflexivity.
  - destruct (String.eqb k0 k') eqn:E; simpl.
    + apply String.eqb_eq in E. subst k'. rewrite Hk. reflexivity.
    + destruct (String.eqb k k'); [reflexivity|exact IH].
Qed.

Lemma dict_set_chave_nova k v d :
  Py.assoc k d = None -> dict_set k v d = (d ++ [(k, v)])%list.
Proof.
  induction d as [|[k' v'] d IH]; simpl; [reflexivity|].
  destruct (String.eqb k k'); [discriminate|].
  intros H. rewrite (IH H). reflexivity.
Qed.

(** The body of a found document. *)
Lemma renomear_id_corpo doc v :
  Py.assoc "_id" doc = Some v ->
  exists corpo,
    renomear_id doc = Ret corpo
    /\ Py.assoc "id" corpo = Some v
    /\ Py.assoc "_id" corpo = None
    /\ (forall k, k <> "_id" -> k <> "id" -> Py.assoc k corpo = Py.assoc k doc)
    /\ (Py.assoc "id" doc = None ->
        corpo = (List.filter (fun kv => negb (String.eqb "_id" kv.1)) doc
                 ++ [("id", v)])%list).
Proof.
  intros Hv. unfold renomear_id, dict_pop. rewrite Hv.
  eexists. split; [reflexivity|].
  split; [apply assoc_dict_set|].
  split; [rewrite assoc_dict_set_outra by discriminate; apply assoc_da_chave_tirada|].
  split.
  - intros k H1 H2. rewrite assoc_dict_set_outra by exact H2.
    apply assoc_sem_chave. exact H1.
  - intros Hid. apply dict_set_chave_nova.
    rewrite assoc_sem_chave by discriminate. exact Hid.
Qed.

(** X17.  [consultar_analise] answers with the stored document when
    the collection has one under the id: every key the document holds,
    those written after the upload (result, error) among them, with its
    value, except that [_id] is gone and [id] holds its value, at the
    end of the body when the document had no such key.  It answers with
    an HTTP 404, which the handler does not turn into a 500, when there
    is no document, and with an HTTP 500 that carries the message of the
    driver when the lookup itself raises. *)
Theorem consultar_analise_respostas (c : Colecao) (id : string) :
  (forall doc v,
     c !! id = Some doc ->
     Py.assoc "_id" doc = Some v ->
     exists corpo,
       consultar_analise c id None = Ret corpo
       /\ Py.assoc "id" corpo = Some v
       /\ Py.assoc "_id" corpo = None
       /\ (forall k, k <> "_id" -> k <> "id" -> Py.assoc k corpo = Py.assoc k doc)
       /\ (Py.assoc "id" doc = None ->
           corpo = (List.filter (fun kv => negb (String.eqb "_id" kv.1)) doc
                    ++ [("id", v)])%list))
  /\ (c !! id = None ->
      consultar_analise c id None = Raise (HTTPException 404 "Análise não encontrada"))
  /\ (forall msg,
        consultar_analise c id (Some msg)
        = Raise (HTTPException 500 ("Erro ao consultar análise: " ++ msg))).
Proof.
  split; [|split].
  - intros doc v Hdoc Hv.
    destruct (renomear_id_corpo doc v Hv) as (corpo & Hr & Hrest).
    exists corpo. split; [|exact Hrest].
    unfold consultar_analise, consultar_try, find_one, Colecao, Documento in *.
    simpl. rewrite Hdoc.
    destruct doc as [|kv doc']; [discriminate|].
    rewrite Hr. reflexivity.
  - intros H. unfold consultar_analise, consultar_try, find_one, Colecao, Documento in *.
    simpl. rewrite H. reflexivity.
  - intros msg. reflexivity.
Qed.

(** X18.  Upload, then lookup: after an execution of the upload handler
    that ended with a response, looking up the id of the response
    finds the record, with status processing and the name, size and
    type of the file, and the ids that had no record before and are not
    that id still have none. *)
Theorem consulta_apos_envio file w cs resp w' :
  executa (analisar_boleto file) w cs (Ret resp) w' ->
  (exists agora,
     consultar_analise (colecao w') (r_id resp) None
     = Ret [("status", Py.PStr "processing");
            ("uploadedAt", Py.PStr agora);
            ("fileType", py_opcional (content_type file));
            ("fileSize", Py.PInt (file_size file));
            ("fileName", py_opcional (filename file));
            ("id", Py.PStr (r_id resp))])
  /\ consultar_analise (colecao w) (r_id resp) None
     = Raise (HTTPException 404 "Análise não encontrada")
  /\ (forall id, id <> r_id resp -> analises w !! id = None ->
                 consultar_analise (colecao w') id None
                 = Raise (HTTPException 404 "Análise não encontrada")).
Proof.
  intros H.
  apply resposta_inversao in H.
  destruct H as (_ & _ & id & agora & Hid & _ & -> & ->).
  unfold consultar_analise, consultar_try, find_one, colecao, Colecao, Documento.
  simpl. split; [|split].
  - exists agora. rewrite lookup_fmap, lookup_insert_eq. reflexivity.
  - rewrite lookup_fmap, Hid. reflexivity.
  - intros id' Hne Hnone. rewrite lookup_fmap, lookup_insert_ne by congruence.
    rewrite Hnone. reflexivity.
Qed.

(** ** Successive uploads *)

(** X20.  Two uploads answered one after the other get different ids,
    even if [uuid4] were to repeat itself, since the second insert
    needs a free id; both records are in the Job Store afterwards and
    the two jobs are at the end of the Work Queue in the order of the
    uploads. *)
Theorem envios_sucessivos file1 file2 w cs1 resp1 w1 cs2 resp2 w2 :
  executa (analisar_boleto file1) w cs1 (Ret resp1) w1 ->
  executa (analisar_boleto file2) w1 cs2 (Ret resp2) w2 ->
  r_id resp1 <> r_id resp2
  /\ is_Some (analises w2 !! r_id resp1)
  /\ is_Some (analises w2 !! r_id resp2)
  /\ fila w2 = (fila w ++ [job_de file1 (r_id resp1); job_de file2 (r_id resp2)])%list.
Proof.
  intros H1 H2.
  apply resposta_inversao in H1 as (_ & _ & id1 & t1 & Hid1 & _ & -> & ->).
  apply resposta_inversao in H2 as (_ & _ & id2 & t2 & Hid2 & _ & -> & ->).
  simpl in *.
  assert (Hne : id1 <> id2).
  { intros <-. rewrite lookup_insert_eq in Hid2. discriminate. }
  split; [exact Hne|]. split; [|split].
  - rewrite lookup_insert_ne by congruence. rewrite lookup_insert_eq. eauto.
  - rewrite lookup_insert_eq. eauto.
  - rewrite <- app_assoc. reflexivity.
Qed.

(** ** The further properties on concrete inputs *)

Lemma boleto_pdf_execucao :
  executa (analisar_boleto boleto_pdf) mundo_vazio
    [CInsert (analise_de boleto_pdf "7f3c" "2025-01-31T12:00:00");
     CPush "boletos:jobs" (job_de boleto_pdf "7f3c")]
    (Ret (resposta_de boleto_pdf "7f3c"))
    mundo_com_boleto.
Proof.
  apply analisar_boleto_aceita;
    [reflexivity|exact boleto_pdf_tamanho|apply lookup_empty].
Qed.

Lemma resposta_so_com_as_duas_escritas_witness :
  tipo_permitido (content_type boleto_pdf) = true
  /\ (0 < file_size boleto_pdf <= 10 * 1024 * 1024)%Z.
Proof.
  destruct (resposta_so_com_as_duas_escritas _ _ _ _ _ boleto_pdf_execucao)
    as (Ht & Hs & _).
  split; assumption.
Defined.

Lemma falha_sem_desfazer_witness :
  executa (analisar_boleto boleto_pdf) mundo_vazio
    [CInsert (analise_de boleto_pdf "7f3c" "2025-01-31T12:00:00")]
    (Raise (HTTPException 500
              ("Erro interno ao processar arquivo: " ++ "Connection refused")))
    (com_analise (analise_de boleto_pdf "7f3c" "2025-01-31T12:00:00") mundo_vazio).
Proof.
  destruct (falha_sem_desfazer boleto_pdf mundo_vazio) as (_ & _ & H).
  destruct (H eq_refl boleto_pdf_tamanho "7f3c" "2025-01-31T12:00:00"
              "Connection refused" (lookup_empty _)) as [Hx _].
  exact Hx.
Defined.

Lemma so_acrescenta_witness :
  exists novos,
    fila mundo_com_boleto = (fila mundo_vazio ++ novos)%list
    /\ (length novos <= 1)%nat.
Proof.
  destruct (so_acrescenta _ _ _ _ _ boleto_pdf_execucao) as [_ H]. exact H.
Defined.

Lemma payload_da_fila_limitado_witness :
  (4 <= Z.of_nat (String.length (file_base64 (job_de boleto_pdf "7f3c")))
   <= base64_maximo)%Z.
Proof.
  destruct (payload_da_fila_limitado _ _ _ _ _ "boletos:jobs" (job_de boleto_pdf "7f3c")
              boleto_pdf_execucao) as [_ H]; [|exact H].
  simpl. auto.
Defined.

Lemma consultar_analise_respostas_witness :
  exists corpo,
    consultar_analise colecao_exemplo "7f3c" None = Ret corpo
    /\ Py.assoc "id" corpo = Some (Py.PStr "7f3c")
    /\ Py.assoc "_id" corpo = None
    /\ Py.assoc "status" corpo = Some (Py.PStr "completed")
    /\ Py.assoc "result" corpo
       = Some (Py.PDict [("is_fraudulento", Py.PBool false);
                         ("status", Py.PStr "VÁLIDO")]).
Proof.
  destruct (consultar_analise_respostas colecao_exemplo "7f3c") as (H & _ & _).
  destruct (H analise_concluida (Py.PStr "7f3c")) as (corpo & Hc & Hid & Hno & Hk & _).
  - unfold colecao_exemplo, Colecao, Documento.
    rewrite lookup_insert_ne by discriminate.
    apply lookup_insert_eq.
  - reflexivity.
  - exists corpo. split; [exact Hc|]. split; [exact Hid|]. split; [exact Hno|].
    split; rewrite Hk by discriminate; reflexivity.
Defined.

Lemma consulta_apos_envio_witness :
  exists agora,
    consultar_analise (colecao mundo_com_boleto) "7f3c" None
    = Ret [("status", Py.PStr "processing");
           ("uploadedAt", Py.PStr agora);
           ("fileType", Py.PStr "application/pdf");
           ("fileSize", Py.PInt 4);
           ("fileName", Py.PStr "boleto.pdf");
           ("id", Py.PStr "7f3c")].
Proof.
  destruct (consulta_apos_envio _ _ _ _ _ boleto_pdf_execucao) as [H _]. exact H.
Defined.

Lemma envios_sucessivos_witness :
  fila (com_job (job_de arquivo_png "a1b2")
          (com_analise (analise_de arquivo_png "a1b2" "2025-01-31T12:00:05")
             mundo_com_boleto))
  = [job_de boleto_pdf "7f3c"; job_de arquivo_png "a1b2"].
Proof.
  assert (H2 : executa (analisar_boleto arquivo_png) mundo_com_boleto
                 [CInsert (analise_de arquivo_png "a1b2" "2025-01-31T12:00:05");
                  CPush "boletos:jobs" (job_de arquivo_png "a1b2")]
                 (Ret (resposta_de arquivo_png "a1b2"))
                 (com_job (job_de arquivo_png "a1b2")
                    (com_analise (analise_de arquivo_png "a1b2" "2025-01-31T12:00:05")
                       mundo_com_boleto))).
  { apply analisar_boleto_aceita; [reflexivity|unfold file_size; simpl; lia|].
    unfold mundo_com_boleto. simpl. rewrite lookup_insert_ne by discriminate.
    apply lookup_empty. }
  destruct (envios_sucessivos _ _ _ _ _ _ _ _ _ boleto_pdf_execucao H2)
    as (_ & _ & _ & H).
  exact H.
Defined.

End ApiExtra.

(* ================================================================== *)
(** * Properties of the test endpoint *)
(* ================================================================== *)

Module TestOcrProps.
Import Py Api TestOcr.

Lemma py_getitem_get v k x dflt :
  py_getitem v k = Ok x -> py_get v k dflt = Ok x.
Proof.
  destruct v; simpl; try discriminate.
  match goal with |- context [assoc k ?d] => destruct (assoc k d) end;
    [|discriminate].
  intros [= <-]. reflexivity.
Qed.

Lemma py_eq_False_falsy v : py_eq_False v = true -> py_truthy v = false.
Proof.
  destruct v as [|b| | | | |]; simpl; try discriminate;
    [destruct b; [discriminate|reflexivity] | intros ->; reflexivity ..].
Qed.

Section Pipeline.
Variable Modelo : Type.
Variable extrair_texto_tesseract : list byte -> string + string.
Variable parse_dados_boleto : string -> string + pyval.
Variable validar_boleto_febraban : pyval -> string + pyval.
Variable carregar_modelo : string + Modelo.
Variable preparar_features : pyval -> string + pyval.
Variable predizer_fraude : Modelo -> pyval -> string + pyval.
Variable str_excecao : excecao -> string -> string.
Variable str_HTTPException : Z -> string -> string.

Notation "'teste'" :=
  (test_ocr Modelo extrair_texto_tesseract parse_dados_boleto
     validar_boleto_febraban carregar_modelo preparar_features predizer_fraude
     str_excecao str_HTTPException).

Ltac etapas :=
  repeat match goal with
         | |- context [chamar ?r] => destruct r; simpl
         | H : context [chamar ?r] |- _ =>
             destruct r eqn:?; simpl in H; try discriminate H
         end.

Ltac subscritos :=
  unfold subscrito in *;
  repeat match goal with
         | |- context [py_getitem ?v ?k] => destruct (py_getitem v k); simpl
         | |- context [if ?c then _ else _] => destruct c; simpl
         end.

(** What a completed request looks like: every stage succeeded and both
    results had their key. *)
Lemma test_ocr_inversao file r :
  teste file = Ret r ->
  exists valido flag,
    py_getitem (t_validacao_febraban r) "valido" = Ok valido
    /\ py_getitem (t_predicao_ml r) "is_fraudulento" = Ok flag
    /\ rf_is_fraudulento (t_resultado_final r)
       = (if py_eq_False valido then PBool true else flag)
    /\ rf_metodo_deteccao (t_resultado_final r)
       = (let metodos := if negb (py_truthy valido) then ["validacao_febraban"] else [] in
          if py_truthy flag then (metodos ++ ["modelo_ml"])%list else metodos).
Proof.
  unfold test_ocr, test_ocr_try. intros H. etapas.
  unfold subscrito in H.
  destruct (py_getitem p0 "valido") as [valido|e] eqn:Hv; simpl in H;
    [|discriminate].
  destruct (py_getitem p2 "is_fraudulento") as [flag|e] eqn:Hf; simpl in H.
  - exists valido, flag.
    destruct (py_eq_False valido); simpl in H; injection H as <-; simpl; auto.
  - destruct (py_eq_False valido); simpl in H; discriminate.
Qed.

(** X21.  The test endpoint touches neither store, and it answers every
    upload, of any type and size, with a body whose [success] is true or
    with HTTP 500 and a detail that starts with Erro: and a space. *)
Theorem test_ocr_respostas file :
  sem_chamadas (teste file) = true
  /\ ((exists r, teste file = Ret r /\ t_success r = true)
      \/ (exists msg, teste file = Raise (HTTPException 500 ("Erro: " ++ msg)))).
Proof.
  unfold test_ocr, test_ocr_try. etapas;
    try (split; [reflexivity|right; eexists; reflexivity]).
  subscritos;
    (split; [reflexivity|]);
    first [left; eexists; split; reflexivity | right; eexists; reflexivity].
Qed.

(** X22.  On a completed request the [metodo_deteccao] of the test
    endpoint is the list the explainer's [determinar_metodos_deteccao]
    gives for the validator and classifier results of the same body. *)
Theorem metodo_deteccao_como_no_explicador file r :
  teste file = Ret r ->
  Explainer.determinar_metodos_deteccao (t_validacao_febraban r) (t_predicao_ml r)
  = Ok (rf_metodo_deteccao (t_resultado_final r)).
Proof.
  intros H. apply test_ocr_inversao in H as (valido & flag & Hv & Hf & _ & ->).
  unfold Explainer.determinar_metodos_deteccao.
  rewrite (py_getitem_get _ _ _ _ Hv). simpl.
  rewrite (py_getitem_get _ _ _ _ Hf). reflexivity.
Qed.

(** X23.  On a completed request a truthy [is_fraudulento] always comes
    with a detection method; a method is listed without the flag exactly
    when [valido] is falsy without being equal to [False] ([None], an
    empty string or list) while the classifier's flag is falsy.  With a
    boolean [valido] the flag is truthy exactly when a method is
    listed. *)
Theorem fraude_e_metodos file r :
  teste file = Ret r ->
  exists valido,
    py_getitem (t_validacao_febraban r) "valido" = Ok valido
    /\ (rf_metodo_deteccao (t_resultado_final r) <> []
        <-> py_truthy (rf_is_fraudulento (t_resultado_final r)) = true
            \/ (py_truthy valido = false /\ py_eq_False valido = false))
    /\ (forall b, valido = PBool b ->
          (rf_metodo_deteccao (t_resultado_final r) <> []
           <-> py_truthy (rf_is_fraudulento (t_resultado_final r)) = true)).
Proof.
  intros H. apply test_ocr_inversao in H as (valido & flag & Hv & _ & -> & ->).
  exists valido. split; [exact Hv|]. split.
  - destruct (py_eq_False valido) eqn:He.
    + rewrite (py_eq_False_falsy _ He). simpl.
      split; [auto|]. intros _. destruct (py_truthy flag); discriminate.
    + destruct (py_truthy valido), (py_truthy flag); simpl;
        split; auto; try discriminate; try congruence.
      intros [?|[? _]]; discriminate.
  - intros b ->. simpl.
    destruct b, (py_truthy flag) eqn:Hfl; simpl; rewrite ?Hfl;
      split; auto; try discriminate; try congruence.
Qed.

(** X24.  A validator result without the key [valido] makes the test
    endpoint answer HTTP 500 with the text of the [KeyError], although
    every stage succeeded; the explainer's [determinar_metodos_deteccao]
    takes the same result for a valid one and never lists
    validacao_febraban for it. *)
Theorem valido_ausente_erro_500 file texto dados entries modelo features predicao_ml :
  extrair_texto_tesseract (conteudo file) = inr texto ->
  parse_dados_boleto texto = inr dados ->
  validar_boleto_febraban dados = inr (PDict entries) ->
  carregar_modelo = inr modelo ->
  preparar_features dados = inr features ->
  predizer_fraude modelo features = inr predicao_ml ->
  assoc "valido" entries = None ->
  teste file = Raise (HTTPException 500 ("Erro: " ++ str_excecao KeyError "valido"))
  /\ forall metodos,
       Explainer.determinar_metodos_deteccao (PDict entries) predicao_ml = Ok metodos ->
       ~ In "validacao_febraban" metodos.
Proof.
  intros He Hp Hv Hc Hf Hm Hk. split.
  - unfold test_ocr, test_ocr_try.
    rewrite He. simpl. rewrite Hp. simpl. rewrite Hv. simpl.
    rewrite Hc. simpl. rewrite Hf. simpl. rewrite Hm. simpl.
    unfold subscrito. simpl. rewrite Hk. reflexivity.
  - intros metodos. unfold Explainer.determinar_metodos_deteccao. simpl.
    rewrite Hk. simpl.
    destruct (py_get predicao_ml "is_fraudulento" (PBool false)) as [flag|e];
      simpl; [|discriminate].
    destruct (py_truthy flag); intros [= <-]; simpl; [|tauto].
    intros [H|[]]. discriminate.
Qed.

End Pipeline.

(** ** The properties on concrete inputs *)

Lemma teste_exemplo_completo validacao predicao_ml valido flag file :
  py_getitem validacao "valido" = Ok valido ->
  py_getitem predicao_ml "is_fraudulento" = Ok flag ->
  exists r, teste_exemplo validacao predicao_ml file = Ret r
            /\ t_validacao_febraban r = validacao
            /\ t_predicao_ml r = predicao_ml.
Proof.
  intros Hv Hf. unfold teste_exemplo, test_ocr, test_ocr_try, etapa. simpl.
  unfold subscrito. rewrite Hv. simpl. rewrite Hf. simpl.
  destruct (py_eq_False valido); simpl; rewrite ?Hf; simpl;
    eexists; split; [reflexivity| |reflexivity|]; simpl; auto.
Qed.

Lemma metodo_deteccao_como_no_explicador_witness :
  exists r,
    teste_exemplo Explainer.validacao_dois_erros (Explainer.predicao_limpa 10) boleto_pdf
    = Ret r
    /\ Explainer.determinar_metodos_deteccao
         Explainer.validacao_dois_erros (Explainer.predicao_limpa 10)
       = Ok (rf_metodo_deteccao (t_resultado_final r)).
Proof.
  destruct (teste_exemplo_completo Explainer.validacao_dois_erros
              (Explainer.predicao_limpa 10) (PBool false) (PBool false) boleto_pdf
              eq_refl eq_refl) as (r & Hr & Hv & Hp).
  exists r. split; [exact Hr|].
  rewrite <- Hv at 1. rewrite <- Hp at 1.
  exact (metodo_deteccao_como_no_explicador _ _ _ _ _ _ _ _ _ _ _ Hr).
Defined.

Lemma fraude_e_metodos_witness :
  exists r valido,
    teste_exemplo (PDict [("valido", PNone)]) (Explainer.predicao_limpa 10) boleto_pdf
    = Ret r
    /\ py_getitem (t_validacao_febraban r) "valido" = Ok valido
    /\ (rf_metodo_deteccao (t_resultado_final r) <> []
        <-> py_truthy (rf_is_fraudulento (t_resultado_final r)) = true
            \/ (py_truthy valido = false /\ py_eq_False valido = false)).
Proof.
  destruct (teste_exemplo_completo (PDict [("valido", PNone)])
              (Explainer.predicao_limpa 10) PNone (PBool false) boleto_pdf
              eq_refl eq_refl) as (r & Hr & _ & _).
  destruct (fraude_e_metodos _ _ _ _ _ _ _ _ _ _ _ Hr) as (valido & Hv & Hiff & _).
  exists r, valido. auto.
Defined.

Lemma valido_ausente_erro_500_witness :
  teste_exemplo Explainer.validacao_sem_valido (Explainer.predicao_limpa 10) boleto_pdf
  = Raise (HTTPException 500 ("Erro: " ++ "'valido'")).
Proof.
  destruct (valido_ausente_erro_500 unit (etapa "BANCO DO BRASIL 001-9")
              (etapa Explainer.dados_exemplo) (etapa Explainer.validacao_sem_valido)
              (inr tt) (etapa (PList [PInt 1]))
              (fun _ => etapa (Explainer.predicao_limpa 10))
              str_excecao_exemplo (fun _ detail => detail)
              boleto_pdf "BANCO DO BRASIL 001-9" Explainer.dados_exemplo
              [("erros", PList [PStr "DV do código de barras inválido"])]
              tt (PList [PInt 1]) (Explainer.predicao_limpa 10)
              eq_refl eq_refl eq_refl eq_refl eq_refl eq_refl eq_refl) as [H _].
  exact H.
Defined.

End TestOcrProps.
